(** * python-for-excel: the [excel] adapter module and its callers

    A shallow embedding of
      - [excel.py]: [read], [write] and [xl_cell_to_rowcol];
      - [ch05/excel.py]: the chapter's version of [read];
      - [packagetracker/database.py]: [store_package];
      - [parallel_openpyxl.py]: [_read_sheet] and [load_workbook].

    The spreadsheet libraries (xlrd, openpyxl, pyxlsb, xlsxwriter, xlwt), the
    database engine and the process pool are not part of the repository: they
    enter as records of operations (parameters), and every function of the
    repository is written over them the way the Python code calls them.

    Conventions:
      - a Python [str] is a Rocq [string]; its characters are code points
        below 256, among which [\d] matches the ten digits only; [int] on a
        string of digits has no bound;
      - [first_cell] and [last_cell] have the documented types: a string or a
        tuple of two integers, and [None] for an omitted [last_cell];
      - an object of a library's class exists only where the library could be
        imported, so the tests [xlrd and isinstance(...)] are decided by the
        class of the object;
      - an exception raised by the repository's code is a constructor of
        [exn] with its class; one raised inside a library call travels as
        [Propagated]. *)

From Stdlib Require Import ZArith Ascii String List Lia Bool.
From Stdlib Require Import Floats.SpecFloat.
From stdpp Require Import base option list gmap strings.

Local Open Scope string_scope.
Local Open Scope Z_scope.

(** ** Python values and exceptions *)

(** [datetime.datetime] and [datetime.date] objects, by their fields. *)
Record datetime := mk_datetime {
  dt_year : Z; dt_month : Z; dt_day : Z;
  dt_hour : Z; dt_minute : Z; dt_second : Z; dt_microsecond : Z
}.

Record date := mk_date { d_year : Z; d_month : Z; d_day : Z }.

(** The values a spreadsheet cell holds on the Python side. *)
Inductive pyvalue : Type :=
| PyNone
| PyBool (b : bool)
| PyInt (n : Z)
| PyFloat (x : spec_float)
| PyStr (s : string)
| PyDatetime (d : datetime)
| PyDate (d : date).

(** Python's [bool(v)]. *)
Definition truthy (v : pyvalue) : bool :=
  match v with
  | PyNone => false
  | PyBool b => b
  | PyInt n => negb (n =? 0)
  | PyFloat (S754_zero _) => false
  | PyFloat _ => true
  | PyStr s => negb (String.eqb s "")
  | PyDatetime _ => true
  | PyDate _ => true
  end.

(** [isinstance(v, (dt.datetime, dt.date))] *)
Definition is_datelike (v : pyvalue) : bool :=
  match v with
  | PyDatetime _ | PyDate _ => true
  | _ => false
  end.

(** Exceptions.  Those the repository's own code raises carry their class
    (and message where the code gives one); an exception raised inside a
    library call is carried unchanged as [Propagated]. *)
Inductive lib_exn : Type :=
| IndexError
| KeyError
| XLDateError
| IntegrityError
| LibraryError (repr : string).

Inductive exn : Type :=
| TypeError (msg : string)
| ValueError (msg : string)
| AttributeError (msg : string)
| PyException (msg : string)
| Propagated (e : lib_exn).

Inductive result (A : Type) : Type :=
| Ok (a : A)
| Raise (e : exn).
Arguments Ok {A} a.
Arguments Raise {A} e.

Global Instance result_ret : MRet result := fun _ a => Ok a.
Global Instance result_bind : MBind result := fun _ _ k r =>
  match r with
  | Ok a => k a
  | Raise e => Raise e
  end.

(** What a library call gives back: a value, or an exception of its own. *)
Inductive lib_res (A : Type) : Type :=
| Returned (a : A)
| Raised (e : lib_exn).
Arguments Returned {A} a.
Arguments Raised {A} e.

(** Calling into a library from the repository's code. *)
Definition call {A} (r : lib_res A) : result A :=
  match r with
  | Returned a => Ok a
  | Raised e => Raise (Propagated e)
  end.

(** Run [f] over a list the way a [for] loop that appends does: left to
    right, stopping at the first exception. *)
Fixpoint for_each {A B} (f : A -> result B) (l : list A) : result (list B) :=
  match l with
  | [] => Ok []
  | x :: l' => y ← f x; ys ← for_each f l'; Ok (y :: ys)
  end.

(** Python's [range(start, stop)]. *)
Definition py_range (start stop : Z) : list Z :=
  map (fun i => start + Z.of_nat i) (seq 0 (Z.to_nat (stop - start))).

(** ** [xl_cell_to_rowcol] *)

Module A1.

Definition ord (c : ascii) : Z := Z.of_nat (nat_of_ascii c).

(** [[A-Z]] *)
Definition is_upper (c : ascii) : bool := (65 <=? ord c) && (ord c <=? 90).
(** [\d] *)
Definition is_digit (c : ascii) : bool := (48 <=? ord c) && (ord c <=? 57).

Definition dollar : ascii := "$"%char.

(** First success among alternatives tried in order (backtracking). *)
Fixpoint first_match {A B} (f : A -> option B) (alts : list A) : option B :=
  match alts with
  | [] => None
  | a :: alts' =>
      match f a with
      | Some b => Some b
      | None => first_match f alts'
      end
  end.

(** [\$?]: the ways to go on, the greedy one first.  Each is the rest of the
    input after the group. *)
Definition re_opt_dollar (s : list ascii) : list (list ascii) :=
  match s with
  | c :: t => if Ascii.eqb c dollar then [t; s] else [s]
  | [] => [s]
  end.

(** The first [k] characters as a group, when there are [k] of them and all
    are in [[A-Z]]. *)
Definition upper_prefix (s : list ascii) (k : nat)
  : option (list ascii * list ascii) :=
  let g := take k s in
  if (length g =? k)%nat && forallb is_upper g then Some (g, drop k s) else None.

(** [[A-Z]{1,3}]: the (group, rest) splits, longest first. *)
Definition re_upper_1_3 (s : list ascii) : list (list ascii * list ascii) :=
  omap (upper_prefix s) [3; 2; 1]%nat.

(** The longest prefix of digits. *)
Fixpoint digit_prefix (s : list ascii) : list ascii :=
  match s with
  | c :: t => if is_digit c then c :: digit_prefix t else []
  | [] => []
  end.

(** [\d+] at the end of the pattern: greedy, and nothing follows that could
    make it give characters back. *)
Definition re_digits (s : list ascii) : option (list ascii) :=
  match digit_prefix s with
  | [] => None
  | ds => Some ds
  end.

(** [re.compile(r"(\$?)([A-Z]{1,3})(\$?)(\d+)").match(cell_str)]: groups 2
    and 4 of the match, [None] when there is none.  [match] anchors at the
    start of the string only. *)
Definition re_match (s : list ascii) : option (list ascii * list ascii) :=
  first_match (fun s1 =>
    first_match (fun '(col_str, s2) =>
      first_match (fun s3 =>
        row_str ← re_digits s3; Some (col_str, row_str))
        (re_opt_dollar s2))
      (re_upper_1_3 s1))
    (re_opt_dollar s).

(** [int(row_str)] on a string of digits. *)
Definition int_of_digits (ds : list ascii) : Z :=
  fold_left (fun acc c => 10 * acc + (ord c - 48)) ds 0.

(** The loop over [reversed(col_str)]: the state is [(expn, col)]. *)
Definition col_step (st : Z * Z) (char : ascii) : Z * Z :=
  let '(expn, col) := st in
  (expn + 1, col + (ord char - ord "A"%char + 1) * 26 ^ expn).

Definition col_of_letters (col_str : list ascii) : Z :=
  snd (fold_left col_step (rev col_str) (0, 0)).

Definition xl_cell_to_rowcol (cell_str : string) : result (Z * Z) :=
  if String.eqb cell_str "" then Ok (0, 0)
  else
    match re_match (list_ascii_of_string cell_str) with
    | None =>
        Raise (AttributeError "'NoneType' object has no attribute 'group'")
    | Some (col_str, row_str) =>
        let col := col_of_letters col_str in
        let row := int_of_digits row_str - 1 in
        let col := col - 1 in
        Ok (row, col)
    end.

(** The column number of a letter sequence in bijective base 26,
    [A] = 1 .. [Z] = 26, most significant letter first. *)
Definition base26 (letters : list ascii) : Z :=
  fold_left (fun acc c => 26 * acc + (ord c - 64)) letters 0.

(** The strings of the form: optional [$], one to three capitals, optional
    [$], digits. *)
Definition abs_marker (absolute : bool) : list ascii :=
  if absolute then [dollar] else [].

Definition cell_ref (abs_col : bool) (letters : list ascii)
    (abs_row : bool) (digits : list ascii) : string :=
  string_of_list_ascii
    (abs_marker abs_col ++ letters ++ abs_marker abs_row ++ digits).

(** What may follow the column letters: nothing, or a character that is no
    capital. *)
Definition no_upper_head (s : list ascii) : Prop :=
  match s with
  | [] => True
  | c :: _ => is_upper c = false
  end.

End A1.

(** ** The library objects [read] and [write] work on *)

(** xlrd's cell types ([xlrd.XL_CELL_EMPTY] and so on). *)
Inductive xl_ctype : Type :=
| XL_CELL_EMPTY
| XL_CELL_TEXT
| XL_CELL_NUMBER
| XL_CELL_DATE
| XL_CELL_BOOLEAN
| XL_CELL_ERROR
| XL_CELL_BLANK.

Global Instance xl_ctype_eq_dec : EqDecision xl_ctype.
Proof. solve_decision. Defined.

(** What [sheet.cell(r, c)] returns for an xlrd sheet. *)
Record xlrd_cell := mk_xlrd_cell { ctype : xl_ctype; value : pyvalue }.

(** An [xlrd.sheet.Sheet], by what [read] uses of it: [cell] takes 0-based
    indices and raises out of range; [datemode] is [sheet.book.datemode]. *)
Record xlrd_sheet := mk_xlrd_sheet {
  nrows : Z;
  ncols : Z;
  cell : Z -> Z -> lib_res xlrd_cell;
  datemode : Z
}.

(** An openpyxl worksheet as [read] sees it.  [iter_rows] is called with
    [min_row], [min_col], [max_row], [max_col] and [values_only=True]. *)
Record opx_view := mk_opx_view {
  max_row : Z;
  max_column : Z;
  iter_rows : Z -> Z -> Z -> Z -> lib_res (list (list pyvalue))
}.

(** A [pyxlsb.worksheet.Worksheet]: the rows [sheet.rows()] yields, each
    cell by its [v] attribute. *)
Record pyxlsb_sheet := mk_pyxlsb_sheet {
  rows : list (list pyvalue)
}.

(** What [book[sheetname]] can be in a workbook opened with
    [read_only=True]: a worksheet, or some other kind of sheet. *)
Inductive book_sheet : Type :=
| BookWorksheet (s : opx_view)
| BookOther (class_name : string).

(** An open workbook: its sheets with their titles, in order. *)
Definition workbook : Type := list (string * book_sheet).

(** A library call that changes a worksheet: the worksheet afterwards, and
    the exception when it raised. *)
Definition effect (S : Type) : Type := (S * option lib_exn)%type.

(** The functions and classes of the libraries. *)
Class Libraries := {
  (* xlrd *)
  xldate_as_datetime : pyvalue -> Z -> lib_res datetime;
  error_text_from_code : pyvalue -> lib_res string;
  (* openpyxl *)
  coordinate_to_tuple : string -> lib_res (Z * Z);
  (* openpyxl.load_workbook(filename, read_only=True, data_only=True) *)
  openpyxl_load_workbook : string -> lib_res workbook;
  opx_ws : Type;
  opx_view_of : opx_ws -> opx_view;
  ws_cell : opx_ws -> Z -> Z -> effect opx_ws;
  ws_set_value : opx_ws -> Z -> Z -> pyvalue -> effect opx_ws;
  ws_set_number_format : opx_ws -> Z -> Z -> string -> effect opx_ws;
  (* xlsxwriter *)
  xw_ws : Type;
  xw_write_row : xw_ws -> Z -> Z -> list pyvalue -> effect xw_ws;
  (* xlwt *)
  xlwt_ws : Type;
  xlwt_style : Type;
  easyxf : string -> lib_res xlwt_style;
  xlwt_write : xlwt_ws -> Z -> Z -> pyvalue -> option xlwt_style -> effect xlwt_ws;
  cell_to_rowcol2 : string -> lib_res (Z * Z)
}.

(** A corner of a range: a string like ["A1"] or a row/col tuple. *)
Inductive cell_arg : Type :=
| CellStr (s : string)
| CellTuple (row col : Z).

(** [itertools.islice(it, start, stop)] over a sequence given as a list. *)
Definition islice {A} (l : list A) (start : Z) (stop : option Z)
  : result (list A) :=
  if (start <? 0) || (from_option (fun s => s <? 0) false stop)
  then Raise (ValueError
    "Indices for islice() must be None or an integer: 0 <= x <= sys.maxsize.")
  else
    let tl := drop (Z.to_nat start) l in
    Ok (match stop with
        | None => tl
        | Some s => take (Z.to_nat (s - start)) tl
        end).

(** A slice index brought into [0 .. len], as [l[a:b]] does. *)
Definition slice_index (len i : Z) : Z :=
  if i <? 0 then Z.max (i + len) 0 else Z.min i len.

(** [l[start:stop]] *)
Definition py_slice {A} (l : list A) (start : Z) (stop : option Z) : list A :=
  let len := Z.of_nat (length l) in
  let a := slice_index len start in
  let b := from_option (slice_index len) len stop in
  take (Z.to_nat (b - a)) (drop (Z.to_nat a) l).

Section Excel.
Context `{Libraries}.

(** Any object [read] or [write] may be handed, by its class. *)
Inductive sheet : Type :=
| XlrdSheet (s : xlrd_sheet)
| OpenpyxlWorksheet (s : opx_ws)
| OpenpyxlReadOnlyWorksheet (s : opx_view)
| PyxlsbWorksheet (s : pyxlsb_sheet)
| XlsxwriterWorksheet (s : xw_ws)
| XlwtWorksheet (s : xlwt_ws)
| OtherObject (class_name : string).

(** [type(sheet)] as the f-string prints it. *)
Definition type_repr (sh : sheet) : string :=
  "<class '" +:+
  match sh with
  | XlrdSheet _ => "xlrd.sheet.Sheet"
  | OpenpyxlWorksheet _ => "openpyxl.worksheet.worksheet.Worksheet"
  | OpenpyxlReadOnlyWorksheet _ =>
      "openpyxl.worksheet._read_only.ReadOnlyWorksheet"
  | PyxlsbWorksheet _ => "pyxlsb.worksheet.Worksheet"
  | XlsxwriterWorksheet _ => "xlsxwriter.worksheet.Worksheet"
  | XlwtWorksheet _ => "xlwt.Worksheet.Worksheet"
  | OtherObject c => c
  end +:+ "'>".

(** ** [read] *)

(** Lines 60-62 and 63-65: a corner as a tuple of 1-based indices. *)
Definition one_based_corner (c : cell_arg) : result (Z * Z) :=
  match c with
  | CellTuple row col => Ok (row, col)
  | CellStr s =>
      rc ← A1.xl_cell_to_rowcol s;
      Ok (rc.1 + 1, rc.2 + 1)
  end.

(** Lines 70-83: the value of the cell at 0-based [(r, c)]. *)
Definition xlrd_value (sh : xlrd_sheet) (r c : Z) : result pyvalue :=
  cl ← call (cell sh r c);
  if decide (ctype cl = XL_CELL_DATE) then
    d ← call (xldate_as_datetime (value cl) (datemode sh));
    Ok (PyDatetime d)
  else if decide (ctype cl = XL_CELL_EMPTY \/ ctype cl = XL_CELL_BLANK) then
    Ok PyNone
  else if decide (ctype cl = XL_CELL_ERROR) then
    s ← call (error_text_from_code (value cl));
    Ok (PyStr s)
  else if decide (ctype cl = XL_CELL_BOOLEAN) then
    Ok (PyBool (truthy (value cl)))
  else
    Ok (value cl).

(** Lines 54-85. *)
Definition read_xlrd (sh : xlrd_sheet) (first_cell : cell_arg)
    (last_cell : option cell_arg) : result (list (list pyvalue)) :=
  let last_cell := default (CellTuple (nrows sh) (ncols sh)) last_cell in
  first_cell ← one_based_corner first_cell;
  last_cell ← one_based_corner last_cell;
  for_each (fun r =>
      for_each (fun c => xlrd_value sh r c)
               (py_range (first_cell.2 - 1) last_cell.2))
    (py_range (first_cell.1 - 1) last_cell.1).

(** Lines 95-98: a corner through openpyxl's conversion. *)
Definition opx_corner (c : cell_arg) : result (Z * Z) :=
  match c with
  | CellTuple row col => Ok (row, col)
  | CellStr s => call (coordinate_to_tuple s)
  end.

(** Lines 88-104. *)
Definition read_openpyxl (sh : opx_view) (first_cell : cell_arg)
    (last_cell : option cell_arg) : result (list (list pyvalue)) :=
  let last_cell := default (CellTuple (max_row sh) (max_column sh)) last_cell in
  first_cell ← opx_corner first_cell;
  last_cell ← opx_corner last_cell;
  call (iter_rows sh first_cell.1 first_cell.2 last_cell.1 last_cell.2).

(** Lines 108-110: the [errors] dictionary. *)
Definition errors : gmap string string :=
  list_to_map [("0x0", "#NULL!"); ("0x7", "#DIV/0!"); ("0xf", "#VALUE!");
               ("0x17", "#REF!"); ("0x1d", "#NAME?"); ("0x24", "#NUM!");
               ("0x2a", "#N/A")].

(** [errors.get(v, v)]: only a string can equal a key. *)
Definition errors_get (v : pyvalue) : pyvalue :=
  match v with
  | PyStr s => from_option PyStr v (errors !! s)
  | _ => v
  end.

(** The truth value of [last_cell] on line 114. *)
Definition last_cell_given (last_cell : option cell_arg) : bool :=
  match last_cell with
  | None => false
  | Some (CellStr s) => negb (String.eqb s "")
  | Some (CellTuple _ _) => true
  end.

(** Lines 107-124. *)
Definition read_pyxlsb (sh : pyxlsb_sheet) (first_cell : cell_arg)
    (last_cell : option cell_arg) : result (list (list pyvalue)) :=
  first_cell ← one_based_corner first_cell;
  last_cell ←
    match last_cell with
    | Some lc =>
        if last_cell_given last_cell
        then rc ← one_based_corner lc; Ok (Some rc)
        else Ok None
    | None => Ok None
    end;
  selected ← islice (rows sh) (first_cell.1 - 1) (fst <$> last_cell);
  Ok (map (fun row =>
             py_slice (map errors_get row) (first_cell.2 - 1) (snd <$> last_cell))
          selected).

Definition read (sh : sheet) (first_cell : cell_arg)
    (last_cell : option cell_arg) : result (list (list pyvalue)) :=
  match sh with
  | XlrdSheet s => read_xlrd s first_cell last_cell
  | OpenpyxlWorksheet s => read_openpyxl (opx_view_of s) first_cell last_cell
  | OpenpyxlReadOnlyWorksheet s => read_openpyxl s first_cell last_cell
  | PyxlsbWorksheet s => read_pyxlsb s first_cell last_cell
  | _ => Raise (TypeError ("Couldn't handle sheet of type " +:+ type_repr sh))
  end.

(** ** [write] *)

(** A step of [write]: the worksheet afterwards and the exception, if any. *)
Definition outcome (S : Type) : Type := (S * option exn)%type.

Definition from_library {S} (e : effect S) : outcome S :=
  (e.1, Propagated <$> e.2).

(** Sequencing: the next statement runs when this one did not raise. *)
Definition and_then {S} (o : outcome S) (k : S -> outcome S) : outcome S :=
  match o.2 with
  | None => k o.1
  | Some _ => o
  end.

(** A [for] loop whose body changes the worksheet. *)
Fixpoint for_state {S A} (body : S -> A -> outcome S) (st : S) (l : list A)
  : outcome S :=
  match l with
  | [] => (st, None)
  | x :: l' => and_then (body st x) (fun st' => for_state body st' l')
  end.

(** [enumerate(l)] *)
Definition enumerate {A} (l : list A) : list (Z * A) :=
  imap (fun i x => (Z.of_nat i, x)) l.

(** Lines 168-171 and 180-183: a corner as a tuple of 0-based indices. *)
Definition zero_based_corner (c : cell_arg) : result (Z * Z) :=
  match c with
  | CellTuple row col => Ok (row - 1, col - 1)
  | CellStr s => A1.xl_cell_to_rowcol s
  end.

(** Lines 150-162. *)
Definition write_openpyxl (ws : opx_ws) (values : list (list pyvalue))
    (first_cell : cell_arg) (date_format : option string) : outcome opx_ws :=
  let date_format := default "mm/dd/yy" date_format in
  match opx_corner first_cell with
  | Raise e => (ws, Some e)
  | Ok first_cell =>
      for_state (fun ws '(i, row) =>
          for_state (fun ws '(j, value) =>
              let r := first_cell.1 + i in
              let c := first_cell.2 + j in
              and_then (from_library (ws_cell ws r c)) (fun ws =>
              and_then (from_library (ws_set_value ws r c value)) (fun ws =>
              if negb (String.eqb date_format "") && is_datelike value
              then from_library (ws_set_number_format ws r c date_format)
              else (ws, None))))
            ws (enumerate row))
        ws (enumerate values)
  end.

(** Lines 165-173. *)
Definition write_xlsxwriter (ws : xw_ws) (values : list (list pyvalue))
    (first_cell : cell_arg) (date_format : option string) : outcome xw_ws :=
  match date_format with
  | Some _ => (ws, Some (ValueError "date_format must be set as Workbook option"))
  | None =>
      match zero_based_corner first_cell with
      | Raise e => (ws, Some e)
      | Ok first_cell =>
          for_state (fun ws '(r, row_data) =>
              from_library
                (xw_write_row ws (first_cell.1 + r) first_cell.2 row_data))
            ws (enumerate values)
      end
  end.

(** Lines 176-191. *)
Definition write_xlwt (ws : xlwt_ws) (values : list (list pyvalue))
    (first_cell : cell_arg) (date_format : option string) : outcome xlwt_ws :=
  let date_format := default "mm/dd/yy" date_format in
  match call (easyxf date_format) with
  | Raise e => (ws, Some e)
  | Ok date_format =>
      match zero_based_corner first_cell with
      | Raise e => (ws, Some e)
      | Ok first_cell =>
          for_state (fun ws '(i, row) =>
              for_state (fun ws '(j, cl) =>
                  if is_datelike cl
                  then from_library
                         (xlwt_write ws (i + first_cell.1) (j + first_cell.2)
                                     cl (Some date_format))
                  else from_library
                         (xlwt_write ws (i + first_cell.1) (j + first_cell.2)
                                     cl None))
                ws (enumerate row))
            ws (enumerate values)
      end
  end.

(** The worksheet object afterwards, whatever its class. *)
Definition in_sheet {S} (wrap : S -> sheet) (o : outcome S) : outcome sheet :=
  (wrap o.1, o.2).

Definition write (sh : sheet) (values : list (list pyvalue))
    (first_cell : cell_arg) (date_format : option string) : outcome sheet :=
  match sh with
  | OpenpyxlWorksheet ws =>
      in_sheet OpenpyxlWorksheet (write_openpyxl ws values first_cell date_format)
  | XlsxwriterWorksheet ws =>
      in_sheet XlsxwriterWorksheet
               (write_xlsxwriter ws values first_cell date_format)
  | XlwtWorksheet ws =>
      in_sheet XlwtWorksheet (write_xlwt ws values first_cell date_format)
  | _ =>
      (sh, Some (TypeError ("Couldn't handle sheet of type " +:+ type_repr sh)))
  end.

End Excel.

(** ** [ch05/excel.py]: the chapter's [read] *)

Module Ch05.
Section Ch05.
Context `{Libraries}.

(** Lines 59-64: strings go through [xlwt.Utils.cell_to_rowcol2]. *)
Definition one_based_corner (c : cell_arg) : result (Z * Z) :=
  match c with
  | CellTuple row col => Ok (row, col)
  | CellStr s =>
      rc ← call (cell_to_rowcol2 s);
      Ok (rc.1 + 1, rc.2 + 1)
  end.

(** Lines 69-78. *)
Definition xlrd_value (sh : xlrd_sheet) (r c : Z) : result pyvalue :=
  cl ← call (cell sh r c);
  if decide (ctype cl = XL_CELL_DATE) then
    d ← call (xldate_as_datetime (value cl) (datemode sh));
    Ok (PyDatetime d)
  else if decide (ctype cl = XL_CELL_EMPTY) then
    Ok PyNone
  else if decide (ctype cl = XL_CELL_ERROR) then
    s ← call (error_text_from_code (value cl));
    Ok (PyStr s)
  else
    Ok (value cl).

(** Lines 55-80. *)
Definition read_xlrd (sh : xlrd_sheet) (first_cell : cell_arg)
    (last_cell : option cell_arg) : result (list (list pyvalue)) :=
  let last_cell := default (CellTuple (nrows sh) (ncols sh)) last_cell in
  first_cell ← one_based_corner first_cell;
  last_cell ← one_based_corner last_cell;
  for_each (fun r =>
      for_each (fun c => xlrd_value sh r c)
               (py_range (first_cell.2 - 1) last_cell.2))
    (py_range (first_cell.1 - 1) last_cell.1).

(** Lines 100-112. *)
Definition read_pyxlsb (sh : pyxlsb_sheet) (first_cell : cell_arg)
    (last_cell : option cell_arg) : result (list (list pyvalue)) :=
  first_cell ← opx_corner first_cell;
  last_cell ←
    match last_cell with
    | Some lc =>
        if last_cell_given last_cell
        then rc ← opx_corner lc; Ok (Some rc)
        else Ok None
    | None => Ok None
    end;
  selected ← islice (rows sh) (first_cell.1 - 1) (fst <$> last_cell);
  Ok (map (fun row => py_slice row (first_cell.2 - 1) (snd <$> last_cell))
          selected).

Definition read (sh : sheet) (first_cell : cell_arg)
    (last_cell : option cell_arg) : result (list (list pyvalue)) :=
  match sh with
  | XlrdSheet s => read_xlrd s first_cell last_cell
  | OpenpyxlWorksheet s => read_openpyxl (opx_view_of s) first_cell last_cell
  | OpenpyxlReadOnlyWorksheet s => read_openpyxl s first_cell last_cell
  | PyxlsbWorksheet s => read_pyxlsb s first_cell last_cell
  | _ => Raise (PyException "Couldn't handle this sheet object!")
  end.

End Ch05.
End Ch05.

(** ** [packagetracker/database.py]: [store_package] *)

Module Database.

(** A row of the [packages] table: [package_id], [package_name]. *)
Definition packages_table : Type := list (Z * string).

(** The [package_id] of a new row (INTEGER PRIMARY KEY): one more than the
    largest in the table. *)
Definition next_id (t : packages_table) : Z :=
  1 + fold_right Z.max 0 (t.*1).

(** [con.execute(INSERT INTO packages (package_name) VALUES (:package_name))]
    on the table [create_db] declares, with [UNIQUE(package_name)].
    [fault] is a failure of the engine itself (no connection, no such table,
    a locked file), when there is one: the statement then changes nothing. *)
Definition execute_insert (fault : option lib_exn) (t : packages_table)
    (package_name : string) : packages_table * lib_res unit :=
  match fault with
  | Some e => (t, Raised e)
  | None =>
      if decide (package_name ∈ t.*2)
      then (t, Raised IntegrityError)
      else ((t ++ [(next_id t, package_name)])%list, Returned ())
  end.

(** [repr(e)] *)
Definition repr_lib (e : lib_exn) : string :=
  match e with
  | IndexError => "IndexError()"
  | KeyError => "KeyError()"
  | XLDateError => "XLDateError()"
  | IntegrityError => "IntegrityError()"
  | LibraryError r => r
  end.

Definition repr (e : exn) : string :=
  match e with
  | TypeError m => "TypeError('" +:+ m +:+ "')"
  | ValueError m => "ValueError('" +:+ m +:+ "')"
  | AttributeError m => "AttributeError('" +:+ m +:+ "')"
  | PyException m => "Exception('" +:+ m +:+ "')"
  | Propagated e => repr_lib e
  end.

(** Lines 41-49.  The table afterwards and what the call gives: a returned
    value ([None] or a string), or an exception. *)
Definition store_package (fault : option lib_exn) (t : packages_table)
    (package_name : string) : packages_table * result (option string) :=
  let '(t', r) := execute_insert fault t package_name in
  (t',
   match call r with
   | Ok _ => Ok None
   | Raise (Propagated IntegrityError) =>
       Ok (Some (package_name +:+ " already exists"))
   | Raise e => Ok (Some (repr e))
   end).

End Database.

(** ** [parallel_openpyxl.py] *)

Module Parallel.
Section Parallel.
Context `{Libraries}.

Definition as_sheet (b : book_sheet) : sheet :=
  match b with
  | BookWorksheet s => OpenpyxlReadOnlyWorksheet s
  | BookOther c => OtherObject c
  end.

(** [book[sheetname]]: the first sheet with that title. *)
Fixpoint book_getitem (book : workbook) (sheetname : string)
  : lib_res (string * book_sheet) :=
  match book with
  | [] => Raised KeyError
  | (title, s) :: book' =>
      if String.eqb title sheetname then Returned (title, s)
      else book_getitem book' sheetname
  end.

(** Lines 8-17. *)
Definition _read_sheet (filename sheetname : string)
  : result (string * list (list pyvalue)) :=
  book ← call (openpyxl_load_workbook filename);
  sheet ← call (book_getitem book sheetname);
  data ← read (as_sheet sheet.2) (CellStr "A1") None;
  Ok (sheet.1, data).

(** The exceptions among the results of the tasks, in task order. *)
Definition failures {A} (rs : list (result A)) : list exn :=
  omap (fun r => match r with Raise e => Some e | Ok _ => None end) rs.

Definition successes {A} (rs : list (result A)) : list A :=
  omap (fun r => match r with Ok a => Some a | Raise _ => None end) rs.

(** [pool.starmap(f, args)]: every task is run; the results come back in the
    order of [args].  When some tasks raise, one of their exceptions is
    raised in the caller; which one depends on the order the workers finish
    in, here the number [sched]. *)
Definition starmap {A B} (sched : nat) (f : A -> result B) (args : list A)
  : result (list B) :=
  let rs := map f args in
  match failures rs with
  | [] => Ok (successes rs)
  | e :: es => Raise (default e ((e :: es) !! sched))
  end.

(** [{i[0]: i[1] for i in data}] *)
Definition dict_of {V} (data : list (string * V)) : gmap string V :=
  fold_left (fun d i => <[i.1 := i.2]> d) data ∅.

(** Lines 19-31.  [zip(repeat(filename), sheetnames)] pairs every sheet name
    with the file name. *)
Definition load_workbook (sched : nat) (filename : string)
    (sheetnames : option (list string))
  : result (gmap string (list (list pyvalue))) :=
  sheetnames ←
    match sheetnames with
    | None => book ← call (openpyxl_load_workbook filename); Ok (book.*1)
    | Some names => Ok names
    end;
  data ← starmap sched (fun a : string * string => _read_sheet a.1 a.2)
                 (map (pair filename) sheetnames);
  Ok (dict_of data).

(** The sequential loop the pool stands in for: sheet after sheet, each
    result stored under the sheet's title. *)
Fixpoint sequential_loop (filename : string) (sheetnames : list string)
    (d : gmap string (list (list pyvalue)))
  : result (gmap string (list (list pyvalue))) :=
  match sheetnames with
  | [] => Ok d
  | name :: rest =>
      td ← _read_sheet filename name;
      sequential_loop filename rest (<[td.1 := td.2]> d)
  end.

End Parallel.
End Parallel.

(** ** The notions the statements below are about *)

(** A cell reference in A1 notation: optional [$], one to three capitals,
    optional [$], a row number in decimal digits. *)
Inductive a1_notation : string -> Prop :=
| a1_intro (abs_col : bool) (letters : list ascii) (abs_row : bool)
           (digits : list ascii) :
    forallb A1.is_upper letters = true ->
    (1 <= length letters <= 3)%nat ->
    digits <> [] ->
    forallb A1.is_digit digits = true ->
    a1_notation (A1.cell_ref abs_col letters abs_row digits).

Section Recognized.
Context `{Libraries}.



(** Every cell inside an xlrd sheet has a value for [read]: [cell] returns
    it, and converting its date or its error code does not raise. *)
Definition readable (sh : xlrd_sheet) : Prop :=
  forall r c, 0 <= r < nrows sh -> 0 <= c < ncols sh ->
              exists v, xlrd_value sh r c = Ok v.


End Recognized.

(** The error codes of pyxlsb and the texts Excel shows for them. *)
Definition error_codes : list (string * string) :=
  [("0x0", "#NULL!"); ("0x7", "#DIV/0!"); ("0xf", "#VALUE!"); ("0x17", "#REF!");
   ("0x1d", "#NAME?"); ("0x24", "#NUM!"); ("0x2a", "#N/A")].

(** A row/col tuple as an argument of [read]. *)
Definition tuple_arg (rc : Z * Z) : cell_arg := CellTuple rc.1 rc.2.

(** The entry [[i][j]] of a 2-dimensional list. *)
Definition entry {A} (values : list (list A)) (i j : nat) : option A :=
  values !! i ≫= (.!! j).

(** The entry [[i][j]], counted from the first cell [(r1, c1)], lies
    within what the last cell allows: anything without a last cell, and
    before row [r2] and column [c2] with the last cell [(r2, c2)]. *)
Definition asked_for (r1 c1 : Z) (last : option (Z * Z)) (i j : nat) : bool :=
  match last with
  | None => true
  | Some (r2, c2) =>
      (Z.of_nat i <? r2 - (r1 - 1)) && (Z.of_nat j <? c2 - (c1 - 1))
  end.

(** ** Stand-ins for the libraries, to run the functions on concrete sheets *)

Module Demo.

(** xlrd's table of error texts. *)
Definition demo_error_text (v : pyvalue) : lib_res string :=
  match v with
  | PyInt 0 => Returned "#NULL!"
  | PyInt 7 => Returned "#DIV/0!"
  | PyInt 15 => Returned "#VALUE!"
  | PyInt 23 => Returned "#REF!"
  | PyInt 29 => Returned "#NAME?"
  | PyInt 36 => Returned "#NUM!"
  | PyInt 42 => Returned "#N/A"
  | _ => Raised KeyError
  end.

(** Serial day numbers of January 1900 only. *)
Definition demo_xldate (v : pyvalue) (datemode : Z) : lib_res datetime :=
  match v with
  | PyInt n =>
      if (1 <=? n) && (n <=? 31)
      then Returned (mk_datetime 1900 1 n 0 0 0 0)
      else Raised XLDateError
  | _ => Raised XLDateError
  end.

Definition demo_coordinate (s : string) : lib_res (Z * Z) :=
  match A1.xl_cell_to_rowcol s with
  | Ok (r, c) => if String.eqb s "" then Raised (LibraryError "ValueError()")
                 else Returned (r + 1, c + 1)
  | Raise _ => Raised (LibraryError "ValueError()")
  end.

(** A writable worksheet as the list of cells written so far:
    row, column, value, number format. *)
Definition written : Type := list (Z * Z * pyvalue * option string).

Definition demo_view (values : list (list pyvalue)) : opx_view :=
  {| max_row := Z.of_nat (length values);
     max_column := Z.of_nat (length (default [] (head values)));
     iter_rows := fun min_row min_col max_row max_col =>
       if (min_row <? 1) || (min_col <? 1)
       then Raised (LibraryError "ValueError()")
       else Returned
         (map (fun row => take (Z.to_nat (max_col - min_col + 1))
                               (drop (Z.to_nat (min_col - 1)) row))
              (take (Z.to_nat (max_row - min_row + 1))
                    (drop (Z.to_nat (min_row - 1)) values))) |}.

Definition demo_book : workbook :=
  [("Sheet1", BookWorksheet (demo_view [[PyInt 1; PyStr "a"]; [PyInt 2; PyNone]]));
   ("Sheet2", BookWorksheet (demo_view [[PyBool true]]));
   ("Chart1", BookOther "openpyxl.chartsheet.chartsheet.Chartsheet")].

Definition demo_libraries : Libraries :=
  {| xldate_as_datetime := demo_xldate;
     error_text_from_code := demo_error_text;
     coordinate_to_tuple := demo_coordinate;
     openpyxl_load_workbook := fun filename =>
       if String.eqb filename "book.xlsx" then Returned demo_book
       else Raised (LibraryError "FileNotFoundError()");
     opx_ws := written;
     opx_view_of := fun _ => demo_view [];
     ws_cell := fun ws r c =>
       if (r <? 1) || (c <? 1) then (ws, Some (LibraryError "ValueError()"))
       else (ws, None);
     ws_set_value := fun ws r c v => ((ws ++ [(r, c, v, None)])%list, None);
     ws_set_number_format := fun ws r c fmt =>
       ((ws ++ [(r, c, PyNone, Some fmt)])%list, None);
     xw_ws := written;
     xw_write_row := fun ws r c data =>
       ((ws ++ imap (fun j v => (r, c + Z.of_nat j, v, None)) data)%list, None);
     xlwt_ws := written;
     xlwt_style := string;
     easyxf := fun fmt => Returned fmt;
     xlwt_write := fun ws r c v style =>
       ((ws ++ [(r, c, v, style)])%list, None);
     cell_to_rowcol2 := fun s =>
       match A1.xl_cell_to_rowcol s with
       | Ok rc => Returned rc
       | Raise _ => Raised (LibraryError "Exception()")
       end |}.

(** A 2 x 3 xlrd sheet with one cell of each kind but text. *)
Definition demo_cells : list (list xlrd_cell) :=
  [[mk_xlrd_cell XL_CELL_NUMBER (PyInt 10);
    mk_xlrd_cell XL_CELL_DATE (PyInt 2);
    mk_xlrd_cell XL_CELL_BOOLEAN (PyInt 1)];
   [mk_xlrd_cell XL_CELL_BLANK (PyStr "");
    mk_xlrd_cell XL_CELL_ERROR (PyInt 7);
    mk_xlrd_cell XL_CELL_EMPTY (PyStr "")]].

Definition demo_xlrd : xlrd_sheet :=
  {| nrows := 2; ncols := 3;
     cell := fun r c =>
       if (r <? 0) || (c <? 0) then Raised IndexError
       else match demo_cells !! Z.to_nat r ≫= (.!! Z.to_nat c) with
            | Some cl => Returned cl
            | None => Raised IndexError
            end;
     datemode := 0 |}.

Definition demo_pyxlsb : pyxlsb_sheet :=
  {| rows := [[PyStr "x"; PyStr "0x7"; PyNone];
              [PyInt 3; PyStr "0x2a"; PyStr "0x8"]] |}.

End Demo.

(** * Further code and notions *)

(** ** Strings the regular expression matches *)

Module A1More.
Import A1.

(** What may follow the row number: nothing, or a character that is no
    digit. *)
Definition no_digit_head (s : list ascii) : Prop :=
  match s with
  | [] => True
  | c :: _ => is_digit c = false
  end.

(** The string starts with a cell reference with column letters [col_str]
    and row digits [row_str], the digits as far as they go. *)
Definition a1_prefix (s col_str row_str : list ascii) : Prop :=
  exists abs_col abs_row tail,
    s = (abs_marker abs_col ++ col_str ++ abs_marker abs_row ++ row_str ++ tail)%list /\
    forallb is_upper col_str = true /\
    (1 <= length col_str <= 3)%nat /\
    row_str <> [] /\
    forallb is_digit row_str = true /\
    no_digit_head tail.

End A1More.

(** ** The cells [write] goes through *)

(** The values of a 2-dimensional list with their positions [i], [j], row
    after row: the order in which the nested loops over [enumerate(values)]
    and [enumerate(row)] meet them. *)
Definition indexed (values : list (list pyvalue)) : list (Z * Z * pyvalue) :=
  concat (imap (fun i row => imap (fun j v => (Z.of_nat i, Z.of_nat j, v)) row)
               values).

(** ** [parallel_xlrd.py] (and its copy [ch05/xlrd_parallel.py]) *)

(** [xlrd.open_workbook(filename, on_demand=True)]: the sheets of the
    workbook with their names, in order. *)
Class XlrdFiles := {
  xlrd_open_workbook : string -> lib_res (list (string * xlrd_sheet))
}.

Module ParallelXlrd.
Section ParallelXlrd.
Context `{Libraries} `{XlrdFiles}.

(** [book.sheet_by_name(sheetname)]: the first sheet of that name. *)
Fixpoint sheet_by_name (book : list (string * xlrd_sheet)) (sheetname : string)
  : lib_res (string * xlrd_sheet) :=
  match book with
  | [] => Raised (LibraryError ("XLRDError('No sheet named <" +:+ sheetname +:+ ">')"))
  | (name, s) :: book' =>
      if String.eqb name sheetname then Returned (name, s)
      else sheet_by_name book' sheetname
  end.

(** Lines 8-15. *)
Definition _read_sheet (filename sheetname : string)
  : result (string * list (list pyvalue)) :=
  book ← call (xlrd_open_workbook filename);
  sheet ← call (sheet_by_name book sheetname);
  data ← read (XlrdSheet sheet.2) (CellStr "A1") None;
  Ok (sheet.1, data).

(** Lines 18-28. *)
Definition open_workbook (sched : nat) (filename : string)
    (sheetnames : option (list string))
  : result (gmap string (list (list pyvalue))) :=
  sheetnames ←
    match sheetnames with
    | None => book ← call (xlrd_open_workbook filename); Ok (book.*1)
    | Some names => Ok names
    end;
  data ← Parallel.starmap sched (fun a : string * string => _read_sheet a.1 a.2)
                          (map (pair filename) sheetnames);
  Ok (Parallel.dict_of data).

End ParallelXlrd.
End ParallelXlrd.

(** A workbook file for the examples. *)
Definition demo_xlrd_files : XlrdFiles :=
  {| xlrd_open_workbook := fun filename =>
       if String.eqb filename "book.xls"
       then Returned [("Data", Demo.demo_xlrd)]
       else Raised (LibraryError "FileNotFoundError()") |}.

(** What the loaders have in common: the tasks go to the pool, the results
    into a dictionary. *)
Definition pool_load {V} (sched : nat)
    (read_sheet : string -> string -> result (string * V))
    (filename : string) (sheetnames : list string) : result (gmap string V) :=
  data ← Parallel.starmap sched (fun a : string * string => read_sheet a.1 a.2)
                          (map (pair filename) sheetnames);
  Ok (Parallel.dict_of data).

(** ** [packagetracker/database.py]: the two tables and the other queries *)

Module Tables.
Import Database.

(** A row of [package_versions]. *)
Record version_row := mk_version_row {
  package_id : Z;
  version_string : string;
  uploaded_at : datetime
}.

(** The database [create_db] sets up. *)
Record database := mk_database {
  packages : packages_table;
  package_versions : list version_row
}.

(** Lines 32-35: the [packages] table as it is.  As in [execute_insert],
    [fault] is a failure of the engine itself, when there is one; nothing
    catches it here. *)
Definition get_packages (fault : option lib_exn) (db : database)
  : result packages_table :=
  match fault with
  | Some e => Raise (Propagated e)
  | None => Ok (packages db)
  end.

(** The query of lines 55-60: the [uploaded_at] and [version_string] of the
    rows of the join of the two tables on [package_id], for the packages
    named [package_name]. *)
Definition select_versions (db : database) (package_name : string)
  : list (datetime * string) :=
  p ← packages db;
  v ← package_versions db;
  if decide (p.1 = package_id v /\ p.2 = package_name)
  then [(uploaded_at v, version_string v)]
  else [].

(** Lines 52-63. *)
Definition get_versions (fault : option lib_exn) (db : database)
    (package_name : string) : result (list (datetime * string)) :=
  match fault with
  | Some e => Raise (Propagated e)
  | None => Ok (select_versions db package_name)
  end.

(** [store_package] on the database: only [packages] can change. *)
Definition store_package (fault : option lib_exn) (db : database)
    (package_name : string) : database * result (option string) :=
  let '(t, r) := Database.store_package fault (packages db) package_name in
  (mk_database t (package_versions db), r).

(** The key of a row: [PRIMARY KEY (package_id, version_string)]. *)
Definition key (v : version_row) : Z * string :=
  (package_id v, version_string v).

(** Rows appended one after the other, each checked against the primary key
    and, with [PRAGMA foreign_keys=ON], against
    [FOREIGN KEY (package_id) REFERENCES packages (package_id)]; [None] when
    one of them is refused. *)
Fixpoint insert_rows (ids : list Z) (table rows : list version_row)
  : option (list version_row) :=
  match rows with
  | [] => Some table
  | row :: rest =>
      if decide ((key row ∉ (key <$> table)) /\ package_id row ∈ ids)
      then insert_rows ids (table ++ [row]) rest
      else None
  end.

(** Lines 66-69: [df.to_sql("package_versions", if_exists="append")], one
    transaction: all the rows, or an [IntegrityError] and none. *)
Definition store_versions (fault : option lib_exn) (db : database)
    (df : list version_row) : database * result unit :=
  match fault with
  | Some e => (db, Raise (Propagated e))
  | None =>
      match insert_rows ((packages db).*1) (package_versions db) df with
      | Some table => (mk_database (packages db) table, Ok ())
      | None => (db, Raise (Propagated IntegrityError))
      end
  end.

(** Lines 72-76. *)
Definition delete_versions (fault : option lib_exn) (db : database)
  : database * result unit :=
  match fault with
  | Some e => (db, Raise (Propagated e))
  | None => (mk_database (packages db) [], Ok ())
  end.

End Tables.

(** ** [packagetracker/packagetracker.py] *)

Module Tracker.
Import Database Tables.

(** What [requests.get] returns: the status code and, for [ret.json()],
    the dictionary under ["releases"]: for each version its files, each file
    by its ["upload_time"]. *)
Record response := mk_response {
  status_code : Z;
  releases : lib_res (list (string * list string))
}.

(** The statements sent to the database engine. *)
Inductive db_call : Type :=
| InsertPackage (package_name : string)
| SelectPackages
| InsertVersions (df : list version_row)
| DeleteVersions.

(** What lies outside the repository: PyPI, pandas, the clock, and the
    failures of the database engine. *)
Class Outside := {
  (* requests.get(url, timeout=6) *)
  requests_get : string -> lib_res response;
  (* pd.to_datetime on one time stamp *)
  to_datetime : string -> lib_res datetime;
  (* df.sort_values("uploaded_at") *)
  sort_values : list version_row -> list version_row;
  (* dt.datetime.now(tz.UTC).isoformat() *)
  now_isoformat : string;
  engine_fault : db_call -> option lib_exn
}.

(** The named cells of the workbook the functions read and write. *)
Record book := mk_book {
  new_package : option string;
  feedback : option string;
  log : list string;
  updated_at : option string;
  package_selection : option string;
  dropdown_content : list string
}.

Definition world : Type := (book * database)%type.

Definition BASE_URL : string := "https://pypi.org/pypi".

Definition url_of (package_name : string) : string :=
  BASE_URL +:+ "/" +:+ package_name +:+ "/json".

Definition set_feedback (b : book) (text : option string) : book :=
  mk_book (new_package b) text (log b) (updated_at b) (package_selection b)
          (dropdown_content b).

Definition set_new_package (b : book) (v : option string) : book :=
  mk_book v (feedback b) (log b) (updated_at b) (package_selection b)
          (dropdown_content b).

Definition set_log (b : book) (lines : list string) : book :=
  mk_book (new_package b) (feedback b) lines (updated_at b)
          (package_selection b) (dropdown_content b).

Definition set_updated_at (b : book) (text : option string) : book :=
  mk_book (new_package b) (feedback b) (log b) text (package_selection b)
          (dropdown_content b).

Definition set_dropdown (b : book) (selection : option string)
    (content : list string) : book :=
  mk_book (new_package b) (feedback b) (log b) (updated_at b) selection content.

Section Tracker.
Context `{Outside}.

(** Lines 83-86: the releases that have files, each with the upload time of
    its first file. *)
Definition release_rows (package_id : Z) (rel : list (string * list string))
  : list (string * string * Z) :=
  omap (fun vf : string * list string =>
          match vf.2 with
          | [] => None
          | file :: _ => Some (file, vf.1, package_id)
          end) rel.

(** Lines 87-89: the DataFrame with its [uploaded_at] column converted. *)
Definition to_frame (rows : list (string * string * Z))
  : result (list version_row) :=
  for_each (fun r : string * string * Z =>
              t ← call (to_datetime r.1.1);
              Ok (mk_version_row r.2 r.1.2 t)) rows.

(** Lines 72-92: the body of the loop, on the database and the logs. *)
Definition update_package (st : database * list string) (p : Z * string)
  : outcome (database * list string) :=
  let '(db, logs) := st in
  let '(package_id, package_name) := p in
  match requests_get (url_of package_name) with
  | Raised e => (st, Some (Propagated e))
  | Returned ret =>
      if status_code ret =? 200 then
        match releases ret with
        | Raised e => (st, Some (Propagated e))
        | Returned rel =>
            let logs := (logs ++ ["INFO: " +:+ package_name +:+
                                  " downloaded successfully"])%list in
            match to_frame (release_rows package_id rel) with
            | Raise e => ((db, logs), Some e)
            | Ok df =>
                let df := sort_values df in
                match Tables.store_versions (engine_fault (InsertVersions df))
                                            db df with
                | (db', Raise e) => ((db', logs), Some e)
                | (db', Ok _) =>
                    ((db', (logs ++ ["INFO: " +:+ package_name +:+
                                     " stored to database successfully"])%list),
                     None)
                end
            end
        end
      else
        ((db, (logs ++ ["ERROR: Could not download data for " +:+
                        package_name])%list), None)
  end.

(** Lines 55-97. *)
Definition update_database (w : world) : outcome world :=
  let '(b, db) := w in
  let b := set_log b [] in
  match Tables.delete_versions (engine_fault DeleteVersions) db with
  | (db, Raise e) => ((b, db), Some e)
  | (db, Ok _) =>
      match Tables.get_packages (engine_fault SelectPackages) db with
      | Raise e => ((b, db), Some e)
      | Ok df_packages =>
          match for_state update_package (db, []) df_packages with
          | ((db, logs), Some e) => ((b, db), Some e)
          | ((db, logs), None) =>
              let b := set_updated_at b
                         (Some ("Last updated: " +:+ now_isoformat)) in
              ((set_log b logs, db), None)
          end
      end
  end.

(** Lines 155-172. *)
Definition refresh_dropdown (w : world) : outcome world :=
  let '(b, db) := w in
  let b := set_dropdown b None (dropdown_content b) in
  let b := match dropdown_content b with
           | [] => b
           | _ => set_dropdown b (package_selection b) []
           end in
  match Tables.get_packages (engine_fault SelectPackages) db with
  | Raise e => ((b, db), Some e)
  | Ok df => ((set_dropdown b None (df.*2), db), None)
  end.

(** Lines 20-52. *)
Definition add_package (w : world) : outcome world :=
  let '(b, db) := w in
  let package_name := new_package b in
  let b := set_feedback b None in
  match package_name with
  | None => ((set_feedback b (Some "Error: Please provide a name!"), db), None)
  | Some name =>
      if String.eqb name "" then
        ((set_feedback b (Some "Error: Please provide a name!"), db), None)
      else
        match requests_get (url_of name) with
        | Raised e => ((b, db), Some (Propagated e))
        | Returned ret =>
            if negb (status_code ret =? 200) then
              ((set_feedback b (Some "Error: Package not found!"), db), None)
            else
              match Tables.store_package (engine_fault (InsertPackage name))
                                         db name with
              | (db, Raise e) => ((b, db), Some e)
              | (db, Ok error) =>
                  let b := set_new_package b None in
                  match error with
                  | Some err =>
                      if negb (String.eqb err "") then
                        ((set_feedback b (Some ("Error: " +:+ err)), db), None)
                      else
                        and_then
                          (and_then
                             ((set_feedback b
                                 (Some ("Added " +:+ name +:+ " successfully.")),
                               db), None)
                             update_database)
                          refresh_dropdown
                  | None =>
                      and_then
                        (and_then
                           ((set_feedback b
                               (Some ("Added " +:+ name +:+ " successfully.")),
                             db), None)
                           update_database)
                        refresh_dropdown
                  end
              end
        end
  end.

(** The request for a package is answered with status 200. *)
Definition downloads (p : Z * string) : bool :=
  match requests_get (url_of p.2) with
  | Returned ret => status_code ret =? 200
  | Raised _ => false
  end.

(** The lines [update_database] logs for a package. *)
Definition log_lines (p : Z * string) : list string :=
  if downloads p
  then ["INFO: " +:+ p.2 +:+ " downloaded successfully";
        "INFO: " +:+ p.2 +:+ " stored to database successfully"]
  else ["ERROR: Could not download data for " +:+ p.2].

(** The request for a package is answered and, with status 200, the answer
    has its releases, as a dictionary (no version twice), with upload times
    that convert. *)
Definition answered (p : Z * string) : Prop :=
  exists ret,
    requests_get (url_of p.2) = Returned ret /\
    (status_code ret = 200 ->
     exists rel,
       releases ret = Returned rel /\ NoDup (rel.*1) /\
       forall version file files,
         (version, file :: files) ∈ rel ->
         exists t, to_datetime file = Returned t).

(** The row [v] is a release of the package [p] as PyPI gives it: a version
    with files, with the upload time of the first one. *)
Definition fetched (p : Z * string) (v : version_row) : Prop :=
  exists ret rel file files t,
    requests_get (url_of p.2) = Returned ret /\ status_code ret = 200 /\
    releases ret = Returned rel /\
    (version_string v, file :: files) ∈ rel /\
    to_datetime file = Returned t /\
    v = mk_version_row p.1 (version_string v) t.

End Tracker.
End Tracker.

(** PyPI knowing two packages, for the examples. *)
Definition demo_outside : Tracker.Outside :=
  {| Tracker.requests_get := fun url =>
       if String.eqb url "https://pypi.org/pypi/xlwings/json" then
         Returned (Tracker.mk_response 200
           (Returned [("0.1.0", ["2014-03-17T00:00:00"]); ("0.1.1", [])]))
       else if String.eqb url "https://pypi.org/pypi/pandas/json" then
         Returned (Tracker.mk_response 200
           (Returned [("1.0.0", ["2020-01-29T00:00:00"; "2020-01-30T00:00:00"])]))
       else Returned (Tracker.mk_response 404 (Raised KeyError));
     Tracker.to_datetime := fun s =>
       if String.eqb s "2014-03-17T00:00:00"
       then Returned (mk_datetime 2014 3 17 0 0 0 0)
       else if String.eqb s "2020-01-29T00:00:00"
       then Returned (mk_datetime 2020 1 29 0 0 0 0)
       else Raised (LibraryError "ParserError()");
     Tracker.sort_values := fun df => df;
     Tracker.now_isoformat := "2021-03-04T10:00:00+00:00";
     Tracker.engine_fault := fun _ => None |}.

Definition demo_book_cells : Tracker.book :=
  Tracker.mk_book (Some "pandas") (Some "old") ["old log"] None
                  (Some "xlwings") ["xlwings"].

Definition demo_database : Tables.database :=
  Tables.mk_database [(1, "xlwings")]
    [Tables.mk_version_row 1 "0.0.9" (mk_datetime 2013 1 1 0 0 0 0)].

(** ** [parallel_pandas.py] (and its copy [ch05/pandas_parallel.py]) *)

(** [pd.read_excel(filename, sheet_name=..., engine="openpyxl")] and the
    DataFrames it returns. *)
Class PandasFiles := {
  frame : Type;
  pd_read_excel : string -> string -> lib_res frame
}.

Module ParallelPandas.
Section ParallelPandas.
Context `{Libraries} `{PandasFiles}.

(** Lines 8-13. *)
Definition _read_sheet (filename sheet_name : string) : result (string * frame) :=
  df ← call (pd_read_excel filename sheet_name);
  Ok (sheet_name, df).

(** Lines 16-28. *)
Definition read_excel (sched : nat) (filename : string)
    (sheet_name : option (list string)) : result (gmap string frame) :=
  sheet_name ←
    match sheet_name with
    | None => book ← call (openpyxl_load_workbook filename); Ok (book.*1)
    | Some names => Ok names
    end;
  data ← Parallel.starmap sched (fun a : string * string => _read_sheet a.1 a.2)
                          (map (pair filename) sheet_name);
  Ok (Parallel.dict_of data).

End ParallelPandas.
End ParallelPandas.

(** Sheets as DataFrames for the examples: a frame is its list of rows. *)
Definition demo_pandas_files : PandasFiles :=
  {| frame := list (list pyvalue);
     pd_read_excel := fun filename sheet_name =>
       if String.eqb filename "book.xlsx" && String.eqb sheet_name "Sheet1"
       then Returned [[PyInt 1; PyStr "a"]]
       else Raised (LibraryError "ValueError()") |}.

(** * Theorems *)

Section A1Facts.
Import A1.

(** ** The regular expression on well-formed references *)

Lemma upper_not_dollar c : is_upper c = true -> Ascii.eqb c dollar = false.
Proof.
  intros Hc. destruct (Ascii.eqb_spec c dollar) as [->|]; [|done].
  vm_compute in Hc. discriminate.
Qed.

Lemma digit_not_dollar c : is_digit c = true -> Ascii.eqb c dollar = false.
Proof.
  intros Hc. destruct (Ascii.eqb_spec c dollar) as [->|]; [|done].
  vm_compute in Hc. discriminate.
Qed.

Lemma digit_not_upper c : is_digit c = true -> is_upper c = false.
Proof.
  unfold is_digit, is_upper. intros Hc.
  apply andb_true_iff in Hc as [? ?]. apply andb_false_iff. left. lia.
Qed.

Lemma dollar_not_upper : is_upper dollar = false.
Proof. reflexivity. Qed.

Lemma digit_prefix_all ds : forallb is_digit ds = true -> digit_prefix ds = ds.
Proof.
  induction ds as [|d ds IH]; simpl; [done|].
  intros [Hd Hds]%andb_true_iff. rewrite Hd. by rewrite IH.
Qed.

Lemma re_upper_head letters rest :
  forallb is_upper letters = true ->
  (1 <= length letters <= 3)%nat ->
  no_upper_head rest ->
  exists alts, re_upper_1_3 (letters ++ rest)%list = (letters, rest) :: alts.
Proof.
  intros Hup Hlen Hrest.
  destruct letters as [|c1 [|c2 [|c3 [|c4 l]]]]; simpl in Hlen; try lia;
    simpl in Hup; repeat (apply andb_true_iff in Hup as [? Hup]).
  - destruct rest as [|d1 [|d2 rest]]; simpl in Hrest;
      unfold re_upper_1_3, upper_prefix; simpl;
      repeat match goal with Hx : is_upper _ = _ |- _ => rewrite Hx end; simpl; eauto.
  - destruct rest as [|d1 rest]; simpl in Hrest;
      unfold re_upper_1_3, upper_prefix; simpl;
      repeat match goal with Hx : is_upper _ = _ |- _ => rewrite Hx end; simpl; eauto.
  - unfold re_upper_1_3, upper_prefix; simpl;
      repeat match goal with Hx : is_upper _ = _ |- _ => rewrite Hx end; simpl; eauto.
Qed.

Lemma re_opt_dollar_other c t :
  Ascii.eqb c dollar = false -> re_opt_dollar (c :: t) = [c :: t].
Proof. intros Hc. unfold re_opt_dollar. by rewrite Hc. Qed.

Lemma re_tail abs_row (digits col_str : list ascii) :
  digits <> [] -> forallb is_digit digits = true ->
  first_match (fun s3 => row_str ← re_digits s3; Some (col_str, row_str))
    (re_opt_dollar (abs_marker abs_row ++ digits)%list) = Some (col_str, digits).
Proof.
  intros Hne Hd.
  assert (Hdig : re_digits digits = Some digits).
  { unfold re_digits. rewrite digit_prefix_all by done. by destruct digits. }
  destruct abs_row; simpl.
  - by rewrite Hdig.
  - destruct digits as [|d ds]; [done|].
    simpl in Hd. apply andb_true_iff in Hd as [Hd1 Hd2].
    rewrite re_opt_dollar_other by (by apply digit_not_dollar).
    simpl first_match. replace (re_digits (d :: ds)) with (Some (d :: ds)). done.
Qed.

Lemma re_match_cell_ref abs_col (letters : list ascii) abs_row (digits : list ascii) :
  forallb is_upper letters = true ->
  (1 <= length letters <= 3)%nat ->
  digits <> [] -> forallb is_digit digits = true ->
  re_match (abs_marker abs_col ++ letters ++ abs_marker abs_row ++ digits)%list
  = Some (letters, digits).
Proof.
  intros Hup Hlen Hne Hd.
  assert (Hrest : no_upper_head (abs_marker abs_row ++ digits)%list).
  { destruct abs_row; simpl; [reflexivity|].
    destruct digits as [|d ds]; [done|]. simpl in *.
    apply andb_true_iff in Hd as [Hd1 _]. by apply digit_not_upper. }
  destruct (re_upper_head letters _ Hup Hlen Hrest) as [alts Halts].
  assert (Hgo : first_match (fun '(col_str, s2) =>
      first_match (fun s3 => row_str ← re_digits s3; Some (col_str, row_str))
        (re_opt_dollar s2))
      (re_upper_1_3 (letters ++ abs_marker abs_row ++ digits)%list)
      = Some (letters, digits)).
  { rewrite Halts. simpl. by rewrite re_tail. }
  unfold re_match. destruct abs_col; simpl.
  - by rewrite Hgo.
  - destruct letters as [|c1 l]; [simpl in Hlen; lia|].
    simpl in Hup. apply andb_true_iff in Hup as [Hc1 _].
    change ((c1 :: l) ++ abs_marker abs_row ++ digits)%list
      with (c1 :: (l ++ abs_marker abs_row ++ digits))%list in *.
    rewrite re_opt_dollar_other by (by apply upper_not_dollar).
    simpl first_match.
    by rewrite Hgo.
Qed.

Lemma base26_acc letters acc :
  fold_left (fun a c => 26 * a + (ord c - 64)) letters acc
  = acc * 26 ^ Z.of_nat (length letters) + base26 letters.
Proof.
  unfold base26. revert acc.
  induction letters as [|c l IH]; intros acc; simpl fold_left.
  - simpl. lia.
  - rewrite IH. rewrite (IH (26 * 0 + _)).
    rewrite length_cons, Nat2Z.inj_succ, Z.pow_succ_r by lia. lia.
Qed.

Lemma col_loop letters :
  fold_left col_step (rev letters) (0, 0)
  = (Z.of_nat (length letters), base26 letters).
Proof.
  induction letters as [|c l IH].
  - reflexivity.
  - simpl rev. rewrite fold_left_app, IH. simpl.
    f_equal; [lia|].
    unfold base26 at 2. simpl fold_left. rewrite base26_acc.
    change (ord "A") with 65. lia.
Qed.

Lemma col_of_letters_base26 letters : col_of_letters letters = base26 letters.
Proof. unfold col_of_letters. by rewrite col_loop. Qed.

Lemma cell_ref_nonempty abs_col letters abs_row digits :
  letters <> [] -> String.eqb (cell_ref abs_col letters abs_row digits) "" = false.
Proof.
  intros Hne. unfold cell_ref.
  destruct abs_col; simpl; [done|]. destruct letters; [done|]. done.
Qed.

Lemma cell_ref_parsed abs_col letters abs_row digits :
  forallb is_upper letters = true ->
  (1 <= length letters <= 3)%nat ->
  digits <> [] -> forallb is_digit digits = true ->
  xl_cell_to_rowcol (cell_ref abs_col letters abs_row digits)
  = Ok (int_of_digits digits - 1, base26 letters - 1).
Proof.
  intros Hup Hlen Hne Hd. unfold xl_cell_to_rowcol.
  rewrite cell_ref_nonempty by (destruct letters; simpl in *; [lia|done]).
  unfold cell_ref. rewrite list_ascii_of_string_of_list_ascii.
  rewrite re_match_cell_ref by done.
  by rewrite col_of_letters_base26.
Qed.

(** C1.  For a cell reference made of an optional [$], one to three capital
    letters, an optional [$] and a row number in decimal digits,
    [xl_cell_to_rowcol] returns the row number minus one and the bijective
    base-26 value of the letters (A = 1 .. Z = 26) minus one; the two [$]
    markers do not appear in the result. *)
Theorem xl_cell_to_rowcol_cell_ref (abs_col : bool) (letters : list ascii)
    (abs_row : bool) (digits : list ascii) :
  forallb is_upper letters = true ->
  (1 <= length letters <= 3)%nat ->
  digits <> [] -> forallb is_digit digits = true ->
  xl_cell_to_rowcol (cell_ref abs_col letters abs_row digits)
  = Ok (int_of_digits digits - 1, base26 letters - 1).
Proof. apply cell_ref_parsed. Qed.

Lemma xl_cell_to_rowcol_cell_ref_witness :
  xl_cell_to_rowcol "$AB$12" = Ok (12 - 1, (26 * 1 + 2) - 1) /\
  xl_cell_to_rowcol "AB12" = xl_cell_to_rowcol "$AB$12".
Proof.
  split.
  - apply (xl_cell_to_rowcol_cell_ref true ["A"; "B"]%char true ["1"; "2"]%char);
      [reflexivity | simpl; lia | discriminate | reflexivity].
  - reflexivity.
Defined.

(** ** The guard on the empty string *)

Lemma re_match_nil : re_match [] = None.
Proof. reflexivity. Qed.

Lemma xl_cell_to_rowcol_nonempty cell_str :
  cell_str <> "" ->
  xl_cell_to_rowcol cell_str
  = match re_match (list_ascii_of_string cell_str) with
    | None =>
        Raise (AttributeError "'NoneType' object has no attribute 'group'")
    | Some (col_str, row_str) =>
        Ok (int_of_digits row_str - 1, col_of_letters col_str - 1)
    end.
Proof.
  intros Hne. unfold xl_cell_to_rowcol.
  destruct (String.eqb_spec cell_str ""); [done|].
  by destruct (re_match _) as [[? ?]|].
Qed.

(** C10.  On the empty string [xl_cell_to_rowcol] returns [(0, 0)], where
    the regular expression would have found no match and the function would
    have raised.  Every other string goes through the match: it raises when
    there is none, returns what the groups give when there is one, and so
    returns [(0, 0)] only for a reference whose column is 1 and whose row
    is 1. *)
Theorem xl_cell_to_rowcol_short_circuit (cell_str : string) :
  (cell_str = "" ->
     xl_cell_to_rowcol cell_str = Ok (0, 0) /\
     re_match (list_ascii_of_string cell_str) = None) /\
  (cell_str <> "" ->
     match re_match (list_ascii_of_string cell_str) with
     | None =>
         xl_cell_to_rowcol cell_str
         = Raise (AttributeError "'NoneType' object has no attribute 'group'")
     | Some (col_str, row_str) =>
         xl_cell_to_rowcol cell_str
         = Ok (int_of_digits row_str - 1, col_of_letters col_str - 1)
     end) /\
  (cell_str <> "" -> xl_cell_to_rowcol cell_str = Ok (0, 0) ->
     exists col_str row_str,
       re_match (list_ascii_of_string cell_str) = Some (col_str, row_str) /\
       col_of_letters col_str = 1 /\ int_of_digits row_str = 1).
Proof.
  split; [|split].
  - intros ->. split; reflexivity.
  - intros Hne. rewrite (xl_cell_to_rowcol_nonempty _ Hne).
    by destruct (re_match _) as [[? ?]|].
  - intros Hne. rewrite (xl_cell_to_rowcol_nonempty _ Hne).
    destruct (re_match _) as [[col_str row_str]|]; [|done].
    intros [= Hrow Hcol]. exists col_str, row_str. split; [done|split; lia].
Qed.

Lemma xl_cell_to_rowcol_short_circuit_witness :
  xl_cell_to_rowcol "" = Ok (0, 0) /\
  xl_cell_to_rowcol "b3"
  = Raise (AttributeError "'NoneType' object has no attribute 'group'") /\
  xl_cell_to_rowcol "B3" = Ok (2, 1).
Proof.
  split; [|split].
  - apply (proj1 (xl_cell_to_rowcol_short_circuit "")). reflexivity.
  - apply (proj1 (proj2 (xl_cell_to_rowcol_short_circuit "b3"))). discriminate.
  - apply (proj1 (proj2 (xl_cell_to_rowcol_short_circuit "B3"))). discriminate.
Defined.

(** ** Some references *)

Example xl_B3 : xl_cell_to_rowcol "B3" = Ok (2, 1).
Proof. reflexivity. Qed.
Example xl_abs : xl_cell_to_rowcol "$AB$12" = Ok (11, 27).
Proof. reflexivity. Qed.
Example xl_XFD : xl_cell_to_rowcol "XFD1048576" = Ok (1048575, 16383).
Proof. vm_compute. reflexivity. Qed.
Example xl_bad : exists m, xl_cell_to_rowcol "b3" = Raise (AttributeError m).
Proof. eexists. reflexivity. Qed.
Example xl_4letters : exists m, xl_cell_to_rowcol "ABCD1" = Raise (AttributeError m).
Proof. eexists. reflexivity. Qed.
Example xl_trailing : xl_cell_to_rowcol "C7:D9" = Ok (6, 2).
Proof. reflexivity. Qed.

End A1Facts.

(** ** Loops *)

Lemma for_each_Forall2 {A B} (f : A -> result B) l ys :
  for_each f l = Ok ys <-> Forall2 (fun x y => f x = Ok y) l ys.
Proof.
  revert ys. induction l as [|x l IH]; intros ys; simpl.
  - split.
    + intros [= <-]. constructor.
    + intros Hl. by inversion Hl.
  - split.
    + destruct (f x) as [y|e] eqn:Hx; simpl; [|done].
      destruct (for_each f l) as [ys'|e] eqn:Hl; simpl; [|done].
      intros [= <-]. constructor; [done|]. by apply IH.
    + intros Hl. inversion Hl as [|? y ? ys' Hx Hrest]; subst.
      rewrite Hx. simpl. apply IH in Hrest. rewrite Hrest. done.
Qed.

Lemma for_each_total {A B} (f : A -> result B) l :
  (forall x, x ∈ l -> exists y, f x = Ok y) ->
  exists ys, for_each f l = Ok ys.
Proof.
  induction l as [|x l IH]; intros Hall; simpl; [eauto|].
  destruct (Hall x) as [y Hy]; [left|].
  destruct IH as [ys Hys]; [intros; apply Hall; by right|].
  rewrite Hy, Hys. simpl. eauto.
Qed.

Lemma py_range_length start stop :
  length (py_range start stop) = Z.to_nat (stop - start).
Proof. unfold py_range. by rewrite length_map, length_seq. Qed.

Lemma py_range_lookup start stop (i : nat) :
  (i < Z.to_nat (stop - start))%nat ->
  py_range start stop !! i = Some (start + Z.of_nat i).
Proof.
  intros Hi. unfold py_range. rewrite list_lookup_fmap.
  rewrite lookup_seq_lt by done. done.
Qed.

Lemma py_range_elem start stop x :
  x ∈ py_range start stop -> start <= x < stop.
Proof.
  unfold py_range. intros Hx. apply list_elem_of_fmap in Hx as (i & -> & Hi).
  apply elem_of_seq in Hi. lia.
Qed.

(** ** [read] on an xlrd sheet *)

Section ReadXlrd.
Context `{Libraries}.

Lemma read_xlrd_tuples sh r1 c1 r2 c2 :
  read (XlrdSheet sh) (CellTuple r1 c1) (Some (CellTuple r2 c2))
  = for_each (fun r => for_each (fun c => xlrd_value sh r c) (py_range (c1 - 1) c2))
             (py_range (r1 - 1) r2).
Proof. reflexivity. Qed.

Lemma read_xlrd_range (sh : xlrd_sheet) (r1 c1 r2 c2 : Z) :
  1 <= r1 <= r2 -> 1 <= c1 <= c2 ->
  (forall r c, r1 - 1 <= r < r2 -> c1 - 1 <= c < c2 ->
               exists v, xlrd_value sh r c = Ok v) ->
  exists values,
    read (XlrdSheet sh) (CellTuple r1 c1) (Some (CellTuple r2 c2)) = Ok values /\
    Z.of_nat (length values) = r2 - r1 + 1 /\
    (forall row, row ∈ values -> Z.of_nat (length row) = c2 - c1 + 1) /\
    (forall i j : nat, Z.of_nat i < r2 - r1 + 1 -> Z.of_nat j < c2 - c1 + 1 ->
       exists v, entry values i j = Some v /\
                 xlrd_value sh (r1 - 1 + Z.of_nat i) (c1 - 1 + Z.of_nat j) = Ok v).
Proof.
  intros Hr Hc Hcells. rewrite read_xlrd_tuples. unfold entry.
  destruct (for_each_total
              (fun r => for_each (fun c => xlrd_value sh r c) (py_range (c1 - 1) c2))
              (py_range (r1 - 1) r2)) as [values Hvalues].
  { intros r Hrin%py_range_elem. apply for_each_total.
    intros c Hcin%py_range_elem. by apply Hcells. }
  exists values. split; [done|].
  apply for_each_Forall2 in Hvalues.
  assert (Hrow : forall (i : nat) row, values !! i = Some row ->
            Forall2 (fun c v => xlrd_value sh (r1 - 1 + Z.of_nat i) c = Ok v)
                    (py_range (c1 - 1) c2) row).
  { intros i row Hi.
    destruct (Forall2_lookup_r _ _ _ _ _ Hvalues Hi) as (r & Hri & Hrow).
    apply for_each_Forall2 in Hrow.
    assert (i < Z.to_nat (r2 - (r1 - 1)))%nat as Hlt.
    { apply lookup_lt_Some in Hri. by rewrite py_range_length in Hri. }
    rewrite py_range_lookup in Hri by done. by injection Hri as <-. }
  split; [|split].
  - rewrite <- (Forall2_length _ _ _ Hvalues), py_range_length. lia.
  - intros row [i Hi]%list_elem_of_lookup.
    rewrite <- (Forall2_length _ _ _ (Hrow i row Hi)), py_range_length. lia.
  - intros i j Hi Hj.
    destruct (lookup_lt_is_Some_2 values i) as [row Hrowi].
    { rewrite <- (Forall2_length _ _ _ Hvalues), py_range_length. lia. }
    pose proof (Hrow i row Hrowi) as Hcols.
    destruct (lookup_lt_is_Some_2 row j) as [v Hv].
    { rewrite <- (Forall2_length _ _ _ Hcols), py_range_length. lia. }
    exists v. rewrite Hrowi. simpl. split; [done|].
    destruct (Forall2_lookup_r _ _ _ _ _ Hcols Hv) as (c & Hci & Hval).
    rewrite py_range_lookup in Hci by lia. injection Hci as <-.
    rewrite <- Hval. f_equal.
Qed.


End ReadXlrd.

Import Demo.

Lemma demo_xlrd_readable : @readable demo_libraries demo_xlrd.
Proof.
  intros r c Hr Hc. simpl in Hr, Hc.
  assert (r = 0 \/ r = 1) as [-> | ->] by lia;
    (assert (c = 0 \/ c = 1 \/ c = 2) as [-> | [-> | ->]] by lia);
    eexists; vm_compute; reflexivity.
Qed.


(** ** The cell types of xlrd *)

Section CellTypes.
Context `{Libraries}.

(** In [excel.py], the value of a cell follows from its type. *)
Lemma xlrd_value_by_type (sh : xlrd_sheet) (r c : Z) (cl : xlrd_cell) :
  cell sh r c = Returned cl ->
  match ctype cl with
  | XL_CELL_DATE =>
      forall d, xldate_as_datetime (value cl) (datemode sh) = Returned d ->
                xlrd_value sh r c = Ok (PyDatetime d)
  | XL_CELL_EMPTY | XL_CELL_BLANK => xlrd_value sh r c = Ok PyNone
  | XL_CELL_ERROR =>
      forall text, error_text_from_code (value cl) = Returned text ->
                   xlrd_value sh r c = Ok (PyStr text)
  | XL_CELL_BOOLEAN => xlrd_value sh r c = Ok (PyBool (truthy (value cl)))
  | XL_CELL_TEXT | XL_CELL_NUMBER => xlrd_value sh r c = Ok (value cl)
  end.
Proof.
  intros Hcell. unfold xlrd_value. rewrite Hcell. simpl.
  destruct (ctype cl) eqn:Hty; repeat case_decide; try done;
    try (intuition congruence); try (exfalso; intuition congruence).
  - intros d ->. done.
  - intros t ->. done.
Qed.

(** In [ch05/excel.py], a boolean or a blank cell falls through to the last
    branch and keeps its stored value. *)
Lemma ch05_xlrd_value_literal (sh : xlrd_sheet) (r c : Z) (cl : xlrd_cell) :
  cell sh r c = Returned cl ->
  ctype cl = XL_CELL_BOOLEAN \/ ctype cl = XL_CELL_BLANK ->
  Ch05.xlrd_value sh r c = Ok (value cl).
Proof.
  intros Hcell Hty. unfold Ch05.xlrd_value. rewrite Hcell. simpl.
  repeat case_decide; try done; intuition congruence.
Qed.

End CellTypes.

(** C2.  The chapter's [read] ([ch05/excel.py]) on a sheet with a boolean
    cell (stored value 1) and a blank cell (stored value the empty string)
    returns the stored values, the integer 1 and the empty string, where
    [read] of [excel.py] returns [True] and [None]. *)
Theorem ch05_read_boolean_blank :
  @Ch05.read demo_libraries (XlrdSheet demo_xlrd)
     (CellTuple 1 3) (Some (CellTuple 1 3)) = Ok [[PyInt 1]] /\
  @Ch05.read demo_libraries (XlrdSheet demo_xlrd)
     (CellTuple 2 1) (Some (CellTuple 2 1)) = Ok [[PyStr ""]] /\
  @read demo_libraries (XlrdSheet demo_xlrd)
     (CellTuple 1 3) (Some (CellTuple 1 3)) = Ok [[PyBool true]] /\
  @read demo_libraries (XlrdSheet demo_xlrd)
     (CellTuple 2 1) (Some (CellTuple 2 1)) = Ok [[PyNone]].
Proof. repeat split; vm_compute; reflexivity. Qed.

Example read_demo_xlrd :
  @read demo_libraries (XlrdSheet demo_xlrd) (CellStr "A1") None
  = Ok [[PyInt 10; PyDatetime (mk_datetime 1900 1 2 0 0 0 0); PyBool true];
        [PyNone; PyStr "#DIV/0!"; PyNone]].
Proof. vm_compute. reflexivity. Qed.

(** ** The dispatch on the class of the sheet *)

Section Dispatch.
Context `{Libraries}.





















End Dispatch.


Example write_demo_xlwt :
  @write demo_libraries (@XlwtWorksheet demo_libraries [])
         [[PyInt 1; PyDate (mk_date 2020 1 1)]] (CellStr "B2") None
  = (@XlwtWorksheet demo_libraries
       [(1, 1, PyInt 1, None);
        (1, 2, PyDate (mk_date 2020 1 1), Some "mm/dd/yy")], None).
Proof. vm_compute. reflexivity. Qed.

Example write_xlsxwriter_date_format :
  @write demo_libraries (@XlsxwriterWorksheet demo_libraries [])
         [[PyInt 1]] (CellStr "A1") (Some "dd.mm.yyyy")
  = (@XlsxwriterWorksheet demo_libraries [],
     Some (ValueError "date_format must be set as Workbook option")).
Proof. reflexivity. Qed.

(** ** Corners given as strings *)

Section Corners.
Context `{Libraries}.

Lemma a1_notation_parses s :
  a1_notation s ->
  s <> "" /\ exists r c, A1.xl_cell_to_rowcol s = Ok (r, c).
Proof.
  intros [abs_col letters abs_row digits Hup Hlen Hne Hd]. split.
  - intros Heq. pose proof (cell_ref_nonempty abs_col letters abs_row digits) as Hn.
    rewrite Heq in Hn. discriminate Hn. destruct letters; simpl in *; [lia|done].
  - eexists _, _. by apply cell_ref_parsed.
Qed.

Lemma one_based_corner_str s r c :
  A1.xl_cell_to_rowcol s = Ok (r, c) ->
  one_based_corner (CellStr s) = one_based_corner (CellTuple (r + 1) (c + 1)).
Proof. intros Hs. simpl. by rewrite Hs. Qed.

Lemma last_cell_given_str s :
  s <> "" -> last_cell_given (Some (CellStr s)) = true.
Proof.
  intros Hne. simpl. destruct (String.eqb_spec s ""); done.
Qed.

(** C4.  With both corners given as A1-notation strings, [read] returns what
    it returns for the corresponding tuples: on an xlrd or a pyxlsb sheet the
    result of [xl_cell_to_rowcol] plus [(1, 1)], on an openpyxl sheet the
    tuple [coordinate_to_tuple] returns. *)
Theorem read_a1_strings_as_tuples (sh : sheet) (first_str last_str : string) :
  a1_notation first_str -> a1_notation last_str ->
  match sh with
  | XlrdSheet _ | PyxlsbWorksheet _ =>
      exists r1 c1 r2 c2,
        A1.xl_cell_to_rowcol first_str = Ok (r1, c1) /\
        A1.xl_cell_to_rowcol last_str = Ok (r2, c2) /\
        read sh (CellStr first_str) (Some (CellStr last_str))
        = read sh (CellTuple (r1 + 1) (c1 + 1)) (Some (CellTuple (r2 + 1) (c2 + 1)))
  | OpenpyxlWorksheet _ | OpenpyxlReadOnlyWorksheet _ =>
      forall t1 t2,
        coordinate_to_tuple first_str = Returned t1 ->
        coordinate_to_tuple last_str = Returned t2 ->
        read sh (CellStr first_str) (Some (CellStr last_str))
        = read sh (CellTuple t1.1 t1.2) (Some (CellTuple t2.1 t2.2))
  | _ => True
  end.
Proof.
  intros [Hfne (r1 & c1 & Hf)]%a1_notation_parses
         [Hlne (r2 & c2 & Hl)]%a1_notation_parses.
  destruct sh as [s|s|s|s|s|s|c]; try done.
  - exists r1, c1, r2, c2. repeat split; [done..|].
    simpl. unfold read_xlrd. simpl. by rewrite Hf, Hl.
  - intros [a1 b1] [a2 b2] H1 H2. simpl. unfold read_openpyxl. simpl.
    by rewrite H1, H2.
  - intros [a1 b1] [a2 b2] H1 H2. simpl. unfold read_openpyxl. simpl.
    by rewrite H1, H2.
  - exists r1, c1, r2, c2. repeat split; [done..|].
    simpl. unfold read_pyxlsb.
    rewrite (last_cell_given_str _ Hlne).
    change (last_cell_given (Some (CellTuple (r2 + 1) (c2 + 1)))) with true.
    simpl. by rewrite Hf, Hl.
Qed.

(** ** The default of [last_cell] *)






End Corners.

Lemma read_a1_strings_as_tuples_witness :
  exists r1 c1 r2 c2,
    A1.xl_cell_to_rowcol "A1" = Ok (r1, c1) /\
    A1.xl_cell_to_rowcol "$B$2" = Ok (r2, c2) /\
    @read demo_libraries (PyxlsbWorksheet demo_pyxlsb)
       (CellStr "A1") (Some (CellStr "$B$2"))
    = @read demo_libraries (PyxlsbWorksheet demo_pyxlsb)
       (CellTuple (r1 + 1) (c1 + 1)) (Some (CellTuple (r2 + 1) (c2 + 1))).
Proof.
  apply (@read_a1_strings_as_tuples demo_libraries
           (PyxlsbWorksheet demo_pyxlsb) "A1" "$B$2").
  - change (a1_notation (A1.cell_ref false ["A"%char] false ["1"%char])).
    apply a1_intro; [reflexivity | simpl; lia | discriminate | reflexivity].
  - change (a1_notation (A1.cell_ref true ["B"%char] true ["2"%char])).
    apply a1_intro; [reflexivity | simpl; lia | discriminate | reflexivity].
Defined.


(** ** The error codes of pyxlsb *)

Section Pyxlsb.
Context `{Libraries}.

Lemma errors_get_codes :
  Forall (fun p => errors_get (PyStr p.1) = PyStr p.2) error_codes.
Proof. repeat constructor. Qed.

Lemma errors_get_other (v : pyvalue) :
  (forall code, code ∈ error_codes.*1 -> v <> PyStr code) ->
  errors_get v = v.
Proof.
  intros Hv. destruct v as [| | | |s| |]; try done. simpl.
  assert (errors !! s = None) as ->; [|done].
  apply not_elem_of_list_to_map_1. intros Hin. by apply (Hv s).
Qed.

Lemma islice_lookup {A} (l : list A) (start : Z) stop sel (i : nat) x :
  islice l start stop = Ok sel ->
  sel !! i = Some x ->
  0 <= start /\ l !! Z.to_nat (start + Z.of_nat i) = Some x.
Proof.
  unfold islice. intros Hsel Hx.
  destruct (start <? 0) eqn:Hs; simpl in Hsel; [done|].
  destruct (from_option _ _ _); [done|]. injection Hsel as <-.
  split; [lia|].
  assert (drop (Z.to_nat start) l !! i = Some x) as Hd.
  { destruct stop; [|done]. by apply lookup_take_Some in Hx as [? _]. }
  rewrite lookup_drop in Hd. rewrite <- Hd. f_equal. lia.
Qed.

Lemma py_slice_lookup {A} (l : list A) (start : Z) stop (j : nat) x :
  0 <= start ->
  py_slice l start stop !! j = Some x ->
  l !! Z.to_nat (start + Z.of_nat j) = Some x.
Proof.
  unfold py_slice, slice_index. intros Hs Hx.
  assert ((start <? 0) = false) as Hneg by lia. rewrite Hneg in Hx.
  apply lookup_take_Some in Hx as [Hx _]. rewrite lookup_drop in Hx.
  destruct (Z.min_spec start (Z.of_nat (length l))) as [[Hlt Heq]|[Hge Heq]];
    rewrite Heq in Hx.
  - rewrite <- Hx. f_equal. lia.
  - apply lookup_lt_Some in Hx. lia.
Qed.

Lemma islice_lookup_within {A} (l : list A) (start : Z) (stop : option Z)
    (i : nat) :
  0 <= start -> (forall b, stop = Some b -> 0 <= b) ->
  exists sel,
    islice l start stop = Ok sel /\
    sel !! i = if from_option (fun b => Z.of_nat i <? b - start) true stop
               then l !! Z.to_nat (start + Z.of_nat i)
               else None.
Proof.
  intros Hs Hb. unfold islice.
  assert ((start <? 0) = false) as -> by lia.
  destruct stop as [b|]; simpl.
  - specialize (Hb b eq_refl). assert ((b <? 0) = false) as -> by lia.
    eexists. split; [reflexivity|]. rewrite lookup_take, lookup_drop.
    replace (Z.to_nat start + i)%nat with (Z.to_nat (start + Z.of_nat i)) by lia.
    case_decide; destruct (Z.of_nat i <? b - start) eqn:Hi; try done; lia.
  - eexists. split; [reflexivity|]. rewrite lookup_drop. f_equal. lia.
Qed.

Lemma py_slice_lookup_within {A} (l : list A) (start : Z) (stop : option Z)
    (j : nat) :
  0 <= start -> (forall b, stop = Some b -> 0 <= b) ->
  py_slice l start stop !! j
  = if from_option (fun b => Z.of_nat j <? b - start) true stop
    then l !! Z.to_nat (start + Z.of_nat j)
    else None.
Proof.
  intros Hs Hb. unfold py_slice, slice_index.
  assert ((start <? 0) = false) as -> by lia.
  rewrite lookup_take, lookup_drop.
  destruct stop as [b|]; simpl.
  - specialize (Hb b eq_refl). assert ((b <? 0) = false) as -> by lia.
    destruct (Z.of_nat j <? b - start) eqn:Hj; case_decide as Hlt.
    + f_equal. lia.
    + symmetry. apply lookup_ge_None_2. lia.
    + lia.
    + done.
  - case_decide as Hlt.
    + f_equal. lia.
    + symmetry. apply lookup_ge_None_2. lia.
Qed.

Lemma read_pyxlsb_entries (sh : pyxlsb_sheet) (r1 c1 : Z) (last : option (Z * Z)) :
  1 <= r1 -> 1 <= c1 ->
  (forall rc, last = Some rc -> 0 <= rc.1 /\ 0 <= rc.2) ->
  exists data,
    read (PyxlsbWorksheet sh) (CellTuple r1 c1) (tuple_arg <$> last) = Ok data /\
    forall i j : nat,
      entry data i j
      = if asked_for r1 c1 last i j
        then errors_get <$> entry (rows sh) (Z.to_nat (r1 - 1 + Z.of_nat i))
                                            (Z.to_nat (c1 - 1 + Z.of_nat j))
        else None.
Proof.
  intros Hr Hc Hlast.
  assert (Hread : read (PyxlsbWorksheet sh) (CellTuple r1 c1) (tuple_arg <$> last)
    = (selected ← islice (rows sh) (r1 - 1) (fst <$> last);
       Ok (map (fun row => py_slice (map errors_get row) (c1 - 1) (snd <$> last))
               selected))).
  { simpl. unfold read_pyxlsb. by destruct last as [[r2 c2]|]. }
  rewrite Hread.
  assert (Hrows : forall b, fst <$> last = Some b -> 0 <= b).
  { intros b Hb. destruct last as [rc|]; [|done]. injection Hb as <-.
    by apply (Hlast rc). }
  assert (Hcols : forall b, snd <$> last = Some b -> 0 <= b).
  { intros b Hb. destruct last as [rc|]; [|done]. injection Hb as <-.
    by apply (Hlast rc). }
  destruct (islice (rows sh) (r1 - 1) (fst <$> last)) as [sel|e] eqn:Hsel.
  2:{ destruct (islice_lookup_within (rows sh) (r1 - 1) (fst <$> last) 0)
        as (sel & Hok & _); [lia|done|congruence]. }
  exists (map (fun row => py_slice (map errors_get row) (c1 - 1) (snd <$> last)) sel).
  split; [done|]. intros i j. unfold entry. rewrite list_lookup_fmap.
  destruct (islice_lookup_within (rows sh) (r1 - 1) (fst <$> last) i)
    as (sel' & Hok & Hi); [lia|done|].
  assert (sel' = sel) as -> by congruence. rewrite Hi.
  destruct last as [[r2 c2]|]; simpl.
  - destruct (Z.of_nat i <? r2 - (r1 - 1)); simpl; [|done].
    destruct (rows sh !! Z.to_nat (r1 - 1 + Z.of_nat i)) as [row|]; simpl.
    + rewrite (py_slice_lookup_within _ (c1 - 1) (Some c2)); [|lia|].
      * simpl. destruct (Z.of_nat j <? c2 - (c1 - 1)); [|done].
        by rewrite list_lookup_fmap.
      * intros b [= <-]. by destruct (Hlast (r2, c2) eq_refl).
    + by destruct (Z.of_nat j <? c2 - (c1 - 1)).
  - destruct (rows sh !! Z.to_nat (r1 - 1 + Z.of_nat i)) as [row|]; simpl; [|done].
    rewrite (py_slice_lookup_within _ (c1 - 1) None); [|lia|done].
    simpl. by rewrite list_lookup_fmap.
Qed.

(** C6.  [errors.get] turns each of the seven error codes into its Excel
    error string and leaves every other value as it is; [read] on a pyxlsb
    sheet returns, and what it returns holds, at every position [[i][j]]
    within what the last cell allows, [errors.get] of the sheet's cell [i]
    rows and [j] columns after the first cell asked for: each cell of the
    range is there, replaced when it is an error code and unchanged
    otherwise, and there is nothing else. *)
Theorem read_pyxlsb_error_strings (sh : pyxlsb_sheet) (r1 c1 : Z)
    (last : option (Z * Z)) :
  Forall (fun p => errors_get (PyStr p.1) = PyStr p.2) error_codes /\
  (forall v, (forall code, code ∈ error_codes.*1 -> v <> PyStr code) ->
             errors_get v = v) /\
  (1 <= r1 -> (forall rc, last = Some rc -> 0 <= rc.1) ->
   exists data,
     read (PyxlsbWorksheet sh) (CellTuple r1 c1) (tuple_arg <$> last) = Ok data) /\
  (forall data, 1 <= c1 ->
     read (PyxlsbWorksheet sh) (CellTuple r1 c1) (tuple_arg <$> last) = Ok data ->
     forall (i j : nat) v, entry data i j = Some v ->
       exists cell_v,
         entry (rows sh) (Z.to_nat (r1 - 1 + Z.of_nat i))
                         (Z.to_nat (c1 - 1 + Z.of_nat j)) = Some cell_v /\
         v = errors_get cell_v) /\
  (1 <= r1 -> 1 <= c1 ->
   (forall rc, last = Some rc -> 0 <= rc.1 /\ 0 <= rc.2) ->
   exists data,
     read (PyxlsbWorksheet sh) (CellTuple r1 c1) (tuple_arg <$> last) = Ok data /\
     forall i j : nat,
       entry data i j
       = if asked_for r1 c1 last i j
         then errors_get <$> entry (rows sh) (Z.to_nat (r1 - 1 + Z.of_nat i))
                                             (Z.to_nat (c1 - 1 + Z.of_nat j))
         else None).
Proof.
  split; [apply errors_get_codes|]. split; [apply errors_get_other|].
  cut (forall P Q R : Prop, R -> (P /\ Q) -> P /\ Q /\ R); [|tauto].
  intros Hcut. apply Hcut; [apply read_pyxlsb_entries|]. clear Hcut.
  assert (Hread : read (PyxlsbWorksheet sh) (CellTuple r1 c1) (tuple_arg <$> last)
    = (selected ← islice (rows sh) (r1 - 1) (fst <$> last);
       Ok (map (fun row => py_slice (map errors_get row) (c1 - 1) (snd <$> last))
               selected))).
  { simpl. unfold read_pyxlsb. by destruct last as [[r2 c2]|]. }
  rewrite Hread. split.
  - intros Hr Hlast. unfold islice.
    assert ((r1 - 1 <? 0) = false) as -> by lia.
    destruct last as [[r2 c2]|]; simpl.
    + specialize (Hlast _ eq_refl). simpl in Hlast.
      assert ((r2 <? 0) = false) as -> by lia. simpl. eauto.
    + eauto.
  - intros data Hc Hdata i j v Hv.
    destruct (islice _ _ _) as [sel|e] eqn:Hsel; simpl in Hdata; [|done].
    injection Hdata as <-. unfold entry in Hv.
    rewrite list_lookup_fmap in Hv.
    destruct (sel !! i) as [row|] eqn:Hrow; simpl in Hv; [|done].
    apply py_slice_lookup in Hv; [|lia].
    rewrite list_lookup_fmap in Hv.
    destruct (row !! _) as [cell_v|] eqn:Hcell; simpl in Hv; [|done].
    injection Hv as <-. exists cell_v. split; [|done].
    destruct (islice_lookup _ _ _ _ _ _ Hsel Hrow) as [_ Hri].
    unfold entry. rewrite Hri. simpl. done.
Qed.

End Pyxlsb.

Lemma read_pyxlsb_error_strings_witness :
  exists data,
    @read demo_libraries (PyxlsbWorksheet demo_pyxlsb) (CellTuple 1 2)
       (tuple_arg <$> Some (2, 3)) = Ok data /\
    forall i j : nat,
      entry data i j
      = if asked_for 1 2 (Some (2, 3)) i j
        then errors_get <$> entry (rows demo_pyxlsb) (Z.to_nat (1 - 1 + Z.of_nat i))
                                                     (Z.to_nat (2 - 1 + Z.of_nat j))
        else None.
Proof.
  apply (proj2 (proj2 (proj2 (proj2
           (@read_pyxlsb_error_strings demo_libraries demo_pyxlsb 1 2
              (Some (2, 3))))))).
  - lia.
  - lia.
  - intros rc [= <-]. simpl. lia.
Defined.

Example read_demo_pyxlsb :
  @read demo_libraries (PyxlsbWorksheet demo_pyxlsb) (CellStr "A1") None
  = Ok [[PyStr "x"; PyStr "#DIV/0!"; PyNone];
        [PyInt 3; PyStr "#N/A"; PyStr "0x8"]].
Proof. vm_compute. reflexivity. Qed.

Example read_pyxlsb_negative_row :
  exists m, @read demo_libraries (PyxlsbWorksheet demo_pyxlsb)
              (CellTuple 0 1) None = Raise (ValueError m).
Proof. eexists. reflexivity. Qed.

(** ** [store_package] *)

Section StorePackage.
Import Database.

Lemma store_package_unique_kept fault (t : packages_table) package_name :
  NoDup (t.*2) -> NoDup ((store_package fault t package_name).1.*2).
Proof.
  intros Hnd. unfold store_package, execute_insert.
  destruct fault; simpl; [done|]. case_decide; simpl; [done|].
  rewrite fmap_app. simpl. apply NoDup_app. split; [done|].
  split; [|apply NoDup_singleton].
  intros x Hx ->%list_elem_of_singleton. done.
Qed.

(** C8.  [store_package] always returns: [None] with the row added when
    the name is new, the string [<package_name> already exists] with the
    table as it was when the name is in the table, and for any other failure
    of the engine the [repr] of the exception. *)
Theorem store_package_returns (fault : option lib_exn) (t : packages_table)
    (package_name : string) :
  (exists ret, (store_package fault t package_name).2 = Ok ret) /\
  (fault = None -> package_name ∉ t.*2 ->
     store_package fault t package_name
     = ((t ++ [(next_id t, package_name)])%list, Ok None)) /\
  (fault = None -> package_name ∈ t.*2 ->
     store_package fault t package_name
     = (t, Ok (Some (package_name +:+ " already exists")))) /\
  (forall e, fault = Some e -> e <> IntegrityError ->
     store_package fault t package_name = (t, Ok (Some (repr_lib e)))).
Proof.
  unfold store_package, execute_insert. repeat split.
  - destruct fault as [e|]; simpl.
    + destruct e; eauto.
    + case_decide; simpl; eauto.
  - intros -> Hnew. by rewrite decide_False.
  - intros -> Hold. by rewrite decide_True.
  - intros e -> Hne. simpl. by destruct e.
Qed.

Lemma store_package_returns_witness :
  store_package None [(1, "xlwings")] "xlwings"
  = ([(1, "xlwings")], Ok (Some "xlwings already exists")) /\
  store_package None [(1, "xlwings")] "pandas"
  = ([(1, "xlwings"); (2, "pandas")], Ok None) /\
  store_package (Some (LibraryError "OperationalError('database is locked')"))
                [(1, "xlwings")] "pandas"
  = ([(1, "xlwings")], Ok (Some "OperationalError('database is locked')")).
Proof.
  split; [|split].
  - apply (proj1 (proj2 (proj2
             (store_package_returns None [(1, "xlwings")] "xlwings"))));
      [reflexivity | by left].
  - apply (proj1 (proj2
             (store_package_returns None [(1, "xlwings")] "pandas")));
      [reflexivity |].
    intros Hin. apply list_elem_of_singleton in Hin. discriminate Hin.
  - apply (proj2 (proj2 (proj2
             (store_package_returns
                (Some (LibraryError "OperationalError('database is locked')"))
                [(1, "xlwings")] "pandas")))
             (LibraryError "OperationalError('database is locked')"));
      [reflexivity | discriminate].
Defined.

End StorePackage.

(** ** [load_workbook] *)

Section LoadWorkbook.
Context `{Libraries}.
Import Parallel.

Lemma starmap_ok {A B} sched (f : A -> result B) args ys :
  starmap sched f args = Ok ys <-> for_each f args = Ok ys.
Proof.
  unfold starmap. revert ys. induction args as [|x args IH]; intros ys; simpl.
  - done.
  - unfold failures, successes in *. simpl.
    destruct (f x) as [y|e] eqn:Hx; simpl.
    + destruct (omap _ (map f args)) as [|e es] eqn:Hfail.
      * specialize (IH (omap (fun r => match r with Ok a => Some a | Raise _ => None end)
                             (map f args))).
        destruct IH as [IH _]. rewrite (IH eq_refl). simpl.
        split; intros [= <-]; done.
      * destruct (for_each f args) as [ys'|e'] eqn:Hall; simpl.
        -- specialize (IH ys'). destruct IH as [_ IH]. by specialize (IH eq_refl).
        -- done.
    + done.
Qed.

Lemma starmap_raises {A B} sched (f : A -> result B) args e :
  starmap sched f args = Raise e -> exists x, x ∈ args /\ f x = Raise e.
Proof.
  unfold starmap. destruct (failures (map f args)) as [|e0 es] eqn:Hfail; [done|].
  intros [= <-].
  assert (default e0 ((e0 :: es) !! sched) ∈ failures (map f args)) as Hin.
  { rewrite Hfail. destruct ((e0 :: es) !! sched) as [e|] eqn:He; simpl.
    - by eapply list_elem_of_lookup_2.
    - left. }
  unfold failures in Hin. apply list_elem_of_omap in Hin as (r & Hr & Hre).
  destruct r as [|e]; [done|]. injection Hre as ->.
  apply list_elem_of_fmap in Hr as (x & Hx & Hxin). eauto.
Qed.

Lemma for_each_raises {A B} (f : A -> result B) args e :
  for_each f args = Raise e -> exists x, x ∈ args /\ f x = Raise e.
Proof.
  induction args as [|x args IH]; simpl; [done|].
  destruct (f x) as [y|e'] eqn:Hx; simpl.
  - destruct (for_each f args) as [ys|e'] eqn:Hall; simpl; [done|].
    intros [= ->]. destruct IH as (x' & ? & ?); [done|].
    exists x'. split; [by right|done].
  - intros [= ->]. exists x. split; [left|done].
Qed.

Lemma sequential_loop_for_each filename sheetnames d :
  sequential_loop filename sheetnames d
  = (data ← for_each (_read_sheet filename) sheetnames;
     Ok (fold_left (fun d i => <[i.1 := i.2]> d) data d)).
Proof.
  revert d. induction sheetnames as [|name rest IH]; intros d; simpl; [done|].
  destruct (_read_sheet filename name) as [td|e]; simpl; [|done].
  rewrite IH. by destruct (for_each _ rest).
Qed.

Lemma for_each_pair filename sheetnames :
  for_each (fun a : string * string => _read_sheet a.1 a.2)
           (map (pair filename) sheetnames)
  = for_each (_read_sheet filename) sheetnames.
Proof.
  induction sheetnames as [|name rest IH]; simpl; [done|]. by rewrite IH.
Qed.

Lemma dict_of_snoc {V} (data : list (string * V)) k v :
  dict_of (data ++ [(k, v)]) = <[k := v]> (dict_of data).
Proof. unfold dict_of. by rewrite fold_left_app. Qed.

Lemma dict_of_dom {V} (data : list (string * V)) :
  dom (dict_of data) = list_to_set (data.*1).
Proof.
  induction data as [|[k v] data IH] using rev_ind; [done|].
  rewrite dict_of_snoc, dom_insert_L, IH, fmap_app, list_to_set_app_L.
  simpl. rewrite (right_id_L ∅ (∪)). apply (comm_L (∪)).
Qed.

Lemma dict_of_lookup {V} (data : list (string * V)) k v :
  (k, v) ∈ data ->
  (forall v', (k, v') ∈ data -> v' = v) ->
  dict_of data !! k = Some v.
Proof.
  induction data as [|[k' v'] data IH] using rev_ind; [by intros ?%elem_of_nil|].
  intros Hin Hsame. rewrite dict_of_snoc.
  destruct (decide (k' = k)) as [->|Hne].
  - rewrite lookup_insert_eq. f_equal. apply Hsame.
    apply elem_of_app. right. left.
  - rewrite lookup_insert_ne by done. apply IH.
    + apply elem_of_app in Hin as [Hin|Hin]; [done|].
      apply list_elem_of_singleton in Hin. congruence.
    + intros v'' Hv''. apply Hsame. apply elem_of_app. by left.
Qed.

Lemma book_getitem_title book sheetname title s :
  book_getitem book sheetname = Returned (title, s) -> title = sheetname.
Proof.
  induction book as [|[t b] book IH]; simpl; [done|].
  destruct (String.eqb_spec t sheetname) as [->|]; [|done].
  by intros [= <- _].
Qed.

Lemma read_sheet_ok filename sheetname title data :
  _read_sheet filename sheetname = Ok (title, data) ->
  title = sheetname /\
  exists book sh,
    openpyxl_load_workbook filename = Returned book /\
    book_getitem book sheetname = Returned (sheetname, sh) /\
    read (as_sheet sh) (CellStr "A1") None = Ok data.
Proof.
  unfold _read_sheet.
  destruct (openpyxl_load_workbook filename) as [book|e] eqn:Hbook; simpl; [|done].
  destruct (book_getitem book sheetname) as [[t sh]|e] eqn:Hsheet; simpl; [|done].
  destruct (read _ _ _) as [d|e] eqn:Hread; simpl; [|done].
  intros [= <- <-]. pose proof (book_getitem_title _ _ _ _ Hsheet) as ->.
  split; [done|]. eauto.
Qed.

(** C9.  [load_workbook] returns a dictionary exactly when the sequential
    loop over the sheets does, and then the same one; it raises exactly when
    the loop raises.  The dictionary has one entry per listed sheet, under the
    sheet's title, and its value is what [excel.read] returns for that
    sheet. *)
Theorem load_workbook_as_sequential_loop (sched : nat) (filename : string)
    (sheetnames : list string) :
  (forall d, load_workbook sched filename (Some sheetnames) = Ok d
             <-> sequential_loop filename sheetnames ∅ = Ok d) /\
  ((exists e, load_workbook sched filename (Some sheetnames) = Raise e)
     <-> (exists e, sequential_loop filename sheetnames ∅ = Raise e)) /\
  (forall d, load_workbook sched filename (Some sheetnames) = Ok d ->
     dom d = list_to_set sheetnames /\
     forall name, name ∈ sheetnames ->
       exists book sh data,
         openpyxl_load_workbook filename = Returned book /\
         book_getitem book name = Returned (name, sh) /\
         read (as_sheet sh) (CellStr "A1") None = Ok data /\
         d !! name = Some data).
Proof.
  assert (Hok : forall d, load_workbook sched filename (Some sheetnames) = Ok d
             <-> sequential_loop filename sheetnames ∅ = Ok d).
  { intros d. rewrite sequential_loop_for_each. unfold load_workbook. simpl.
    destruct (starmap _ _ _) as [data|e] eqn:Hs; simpl.
    - apply starmap_ok in Hs. rewrite for_each_pair in Hs. by rewrite Hs.
    - split; [done|].
      destruct (for_each (_read_sheet filename) sheetnames) as [data|e'] eqn:Hf;
        simpl; [|done].
      rewrite <- for_each_pair in Hf. apply (starmap_ok sched) in Hf. congruence. }
  split; [done|]. split.
  - split; intros [e He].
    + destruct (sequential_loop filename sheetnames ∅) as [d|e'] eqn:Hseq; [|eauto].
      pose proof (proj2 (Hok d) eq_refl). congruence.
    + destruct (load_workbook sched filename (Some sheetnames)) as [d|e'] eqn:Hl;
        [|eauto].
      pose proof (proj1 (Hok d) eq_refl). congruence.
  - intros d Hd. apply Hok in Hd. rewrite sequential_loop_for_each in Hd.
    destruct (for_each (_read_sheet filename) sheetnames) as [data|e] eqn:Hf;
      simpl in Hd; [|done].
    injection Hd as <-. fold (dict_of data).
    apply for_each_Forall2 in Hf.
    assert (Hkeys : data.*1 = sheetnames).
    { clear -Hf. induction Hf as [|name [t dt] names data Hx _ IH]; [done|].
      apply read_sheet_ok in Hx as [-> _]. rewrite fmap_cons. by f_equal. }
    split; [by rewrite dict_of_dom, Hkeys|].
    intros name [i Hi]%list_elem_of_lookup.
    destruct (Forall2_lookup_l _ _ _ _ _ Hf Hi) as ([t dt] & Hdi & Hrd).
    pose proof Hrd as Hrd'.
    apply read_sheet_ok in Hrd as [-> (book & sh & Hbook & Hsheet & Hread)].
    exists book, sh, dt. repeat split; [done..|].
    apply dict_of_lookup.
    + by eapply list_elem_of_lookup_2.
    + intros v' [i' Hi']%list_elem_of_lookup.
      destruct (Forall2_lookup_r _ _ _ _ _ Hf Hi') as (name' & Hn' & Hrd'').
      pose proof Hrd'' as Hrd3. apply read_sheet_ok in Hrd'' as [<- _]. congruence.
Qed.

End LoadWorkbook.

Lemma load_workbook_as_sequential_loop_witness :
  exists d,
    @Parallel.load_workbook demo_libraries 0 "book.xlsx" (Some ["Sheet1"; "Sheet2"])
      = Ok d /\
    @Parallel.sequential_loop demo_libraries "book.xlsx" ["Sheet1"; "Sheet2"] ∅
      = Ok d /\
    dom d = list_to_set ["Sheet1"; "Sheet2"].
Proof.
  destruct (@Parallel.load_workbook demo_libraries 0 "book.xlsx"
              (Some ["Sheet1"; "Sheet2"])) as [d|e] eqn:Hload.
  - exists d. split; [reflexivity|]. split.
    + apply (proj1 (proj1 (@load_workbook_as_sequential_loop demo_libraries 0
               "book.xlsx" ["Sheet1"; "Sheet2"]) d)). exact Hload.
    + apply (proj1 (proj2 (proj2 (@load_workbook_as_sequential_loop
               demo_libraries 0 "book.xlsx" ["Sheet1"; "Sheet2"])) d Hload)).
  - vm_compute in Hload. discriminate Hload.
Defined.

Example load_workbook_chartsheet :
  exists m, @Parallel.load_workbook demo_libraries 0 "book.xlsx" None
            = Raise (TypeError m).
Proof. eexists. vm_compute. reflexivity. Qed.

(** * Further properties *)

(** ** What [xl_cell_to_rowcol] accepts *)

Section A1Accepts.
Import A1 A1More.

Lemma first_match_Some {A B} (f : A -> option B) alts b :
  first_match f alts = Some b -> exists a, a ∈ alts /\ f a = Some b.
Proof.
  induction alts as [|a alts IH]; simpl; [done|].
  destruct (f a) as [b'|] eqn:Ha.
  - intros [= ->]. exists a. split; [left|done].
  - intros Hrest. destruct (IH Hrest) as (a' & ? & ?).
    exists a'. split; [by right|done].
Qed.

Lemma re_opt_dollar_inv s s1 :
  s1 ∈ re_opt_dollar s -> exists abs, s = (abs_marker abs ++ s1)%list.
Proof.
  unfold re_opt_dollar. destruct s as [|c t].
  - intros ->%list_elem_of_singleton. by exists false.
  - destruct (Ascii.eqb_spec c dollar) as [->|Hne].
    + intros [->|Hin]%elem_of_cons; [by exists true|].
      apply list_elem_of_singleton in Hin as ->. by exists false.
    + intros ->%list_elem_of_singleton. by exists false.
Qed.

Lemma upper_prefix_inv s k col rest :
  upper_prefix s k = Some (col, rest) ->
  s = (col ++ rest)%list /\ forallb is_upper col = true /\ length col = k.
Proof.
  unfold upper_prefix.
  destruct ((length (take k s) =? k)%nat && forallb is_upper (take k s)) eqn:Hok;
    [|done].
  intros [= <- <-]. apply andb_true_iff in Hok as [Hlen Hup].
  apply Nat.eqb_eq in Hlen. by rewrite take_drop.
Qed.

Lemma re_upper_1_3_inv s col rest :
  (col, rest) ∈ re_upper_1_3 s ->
  s = (col ++ rest)%list /\ forallb is_upper col = true /\
  (1 <= length col <= 3)%nat.
Proof.
  unfold re_upper_1_3. intros (k & Hk & Hpre)%list_elem_of_omap.
  apply upper_prefix_inv in Hpre as (-> & Hup & Hlen).
  split; [done|]. split; [done|].
  repeat (apply elem_of_cons in Hk as [->|Hk]; [lia|]).
  by apply elem_of_nil in Hk.
Qed.

Lemma digit_prefix_split s :
  exists tail, s = (digit_prefix s ++ tail)%list /\
               forallb is_digit (digit_prefix s) = true /\ no_digit_head tail.
Proof.
  induction s as [|c t IH]; simpl.
  - by exists [].
  - destruct (is_digit c) eqn:Hc.
    + destruct IH as (tail & Ht & Hd & Hn). exists tail. simpl.
      rewrite Hc, Hd. split; [by f_equal|done].
    + exists (c :: t). by simpl.
Qed.

Lemma digit_prefix_app row tail :
  forallb is_digit row = true -> no_digit_head tail ->
  digit_prefix (row ++ tail) = row.
Proof.
  intros Hrow Htail. induction row as [|d row IH]; simpl.
  - destruct tail as [|c t]; [done|]. simpl in *. by rewrite Htail.
  - simpl in Hrow. apply andb_true_iff in Hrow as [Hd Hrow].
    rewrite Hd. by rewrite IH.
Qed.

Lemma re_match_sound s col_str row_str :
  re_match s = Some (col_str, row_str) -> a1_prefix s col_str row_str.
Proof.
  unfold re_match. intros (s1 & Hs1 & H1)%first_match_Some.
  apply first_match_Some in H1 as ([col s2] & Hcol & H2).
  apply first_match_Some in H2 as (s3 & Hs3 & H3).
  apply re_opt_dollar_inv in Hs1 as [abs_col ->].
  apply re_upper_1_3_inv in Hcol as (-> & Hup & Hlen).
  apply re_opt_dollar_inv in Hs3 as [abs_row ->].
  unfold re_digits in H3.
  destruct (digit_prefix_split s3) as (tail & Hs3 & Hdig & Htail).
  destruct (digit_prefix s3) as [|d ds] eqn:Hpre; [done|].
  simpl in H3. injection H3 as <- <-.
  exists abs_col, abs_row, tail. rewrite Hs3 at 1. done.
Qed.

Lemma re_match_complete s col_str row_str :
  a1_prefix s col_str row_str -> re_match s = Some (col_str, row_str).
Proof.
  intros (abs_col & abs_row & tail & -> & Hup & Hlen & Hne & Hdig & Htail).
  assert (Hdigits : re_digits (row_str ++ tail)%list = Some row_str).
  { unfold re_digits. rewrite digit_prefix_app by done. by destruct row_str. }
  assert (Hd0 : exists d ds, row_str = d :: ds /\ is_digit d = true).
  { destruct row_str as [|d ds]; [done|]. simpl in Hdig.
    apply andb_true_iff in Hdig as [? _]. eauto. }
  destruct Hd0 as (d & ds & Hrow & Hd).
  assert (Htl : first_match
      (fun s3 => row ← re_digits s3; Some (col_str, row))
      (re_opt_dollar (abs_marker abs_row ++ row_str ++ tail)%list)
      = Some (col_str, row_str)).
  { destruct abs_row; simpl.
    - by rewrite Hdigits.
    - rewrite Hrow. simpl app.
      rewrite re_opt_dollar_other by (by apply digit_not_dollar).
      simpl first_match. rewrite <- Hrow. change (d :: (ds ++ tail))%list
        with ((d :: ds) ++ tail)%list. rewrite <- Hrow. by rewrite Hdigits. }
  assert (Hrest : no_upper_head (abs_marker abs_row ++ row_str ++ tail)%list).
  { destruct abs_row; simpl; [reflexivity|]. rewrite Hrow. simpl.
    by apply digit_not_upper. }
  destruct (re_upper_head col_str _ Hup Hlen Hrest) as [alts Halts].
  assert (Hgo : first_match (fun '(col, s2) =>
      first_match (fun s3 => row ← re_digits s3; Some (col, row))
        (re_opt_dollar s2))
      (re_upper_1_3 (col_str ++ abs_marker abs_row ++ row_str ++ tail)%list)
      = Some (col_str, row_str)).
  { rewrite Halts. simpl. by rewrite Htl. }
  unfold re_match. destruct abs_col; simpl.
  - by rewrite Hgo.
  - destruct col_str as [|c1 l]; [simpl in Hlen; lia|].
    simpl in Hup. apply andb_true_iff in Hup as [Hc1 _].
    change ((c1 :: l) ++ abs_marker abs_row ++ row_str ++ tail)%list
      with (c1 :: (l ++ abs_marker abs_row ++ row_str ++ tail))%list in *.
    rewrite re_opt_dollar_other by (by apply upper_not_dollar).
    simpl first_match. by rewrite Hgo.
Qed.

Lemma chars_append (s1 s2 : string) :
  list_ascii_of_string (s1 +:+ s2)
  = (list_ascii_of_string s1 ++ list_ascii_of_string s2)%list.
Proof. induction s1 as [|c s1 IH]; simpl; [done|]. by rewrite IH. Qed.

Lemma append_nonempty (s1 s2 : string) : s1 <> "" -> s1 +:+ s2 <> "".
Proof. by destruct s1. Qed.

Lemma xl_ok_iff_prefix (cell_str : string) (r c : Z) :
  cell_str <> "" ->
  (xl_cell_to_rowcol cell_str = Ok (r, c) <->
   exists col_str row_str,
     a1_prefix (list_ascii_of_string cell_str) col_str row_str /\
     r = int_of_digits row_str - 1 /\ c = base26 col_str - 1).
Proof.
  intros Hne. rewrite (xl_cell_to_rowcol_nonempty _ Hne). split.
  - destruct (re_match _) as [[col row]|] eqn:Hm; [|done].
    intros [= <- <-]. exists col, row.
    split; [by apply re_match_sound|]. by rewrite col_of_letters_base26.
  - intros (col & row & Hpre & -> & ->).
    rewrite (re_match_complete _ _ _ Hpre). by rewrite col_of_letters_base26.
Qed.

(** X1.  A non-empty string is accepted by [xl_cell_to_rowcol] exactly when
    it starts with a cell reference (optional [$], one to three capitals,
    optional [$], digits); the result is then read off that reference, and
    every other non-empty string raises the [AttributeError] of the missing
    match. *)
Theorem xl_cell_to_rowcol_accepts (cell_str : string) (r c : Z) :
  cell_str <> "" ->
  (xl_cell_to_rowcol cell_str = Ok (r, c) <->
   exists col_str row_str,
     a1_prefix (list_ascii_of_string cell_str) col_str row_str /\
     r = int_of_digits row_str - 1 /\ c = base26 col_str - 1) /\
  ((forall col_str row_str,
      ~ a1_prefix (list_ascii_of_string cell_str) col_str row_str) ->
   xl_cell_to_rowcol cell_str
   = Raise (AttributeError "'NoneType' object has no attribute 'group'")).
Proof.
  intros Hne. split; [by apply xl_ok_iff_prefix|].
  rewrite (xl_cell_to_rowcol_nonempty _ Hne).
  intros Hno. destruct (re_match _) as [[col row]|] eqn:Hm; [|done].
  apply re_match_sound in Hm. by apply Hno in Hm.
Qed.

Lemma xl_cell_to_rowcol_accepts_witness :
  (xl_cell_to_rowcol "B3x" = Ok (2, 1) <->
   exists col_str row_str,
     a1_prefix (list_ascii_of_string "B3x") col_str row_str /\
     2 = int_of_digits row_str - 1 /\ 1 = base26 col_str - 1) /\
  ((forall col_str row_str,
      ~ a1_prefix (list_ascii_of_string "B3x") col_str row_str) ->
   xl_cell_to_rowcol "B3x"
   = Raise (AttributeError "'NoneType' object has no attribute 'group'")).
Proof. apply (xl_cell_to_rowcol_accepts "B3x" 2 1). discriminate. Defined.

(** X2.  Whatever follows a cell reference is ignored, as long as it does
    not go on with a digit: a range such as [C7:D9] is read as its first
    cell. *)
Theorem xl_cell_to_rowcol_ignores_tail (abs_col : bool) (letters : list ascii)
    (abs_row : bool) (digits : list ascii) (tail : string) :
  forallb is_upper letters = true ->
  (1 <= length letters <= 3)%nat ->
  digits <> [] -> forallb is_digit digits = true ->
  no_digit_head (list_ascii_of_string tail) ->
  xl_cell_to_rowcol (cell_ref abs_col letters abs_row digits +:+ tail)
  = xl_cell_to_rowcol (cell_ref abs_col letters abs_row digits).
Proof.
  intros Hup Hlen Hne Hdig Htail.
  rewrite (cell_ref_parsed abs_col letters abs_row digits) by done.
  assert (Hnz : cell_ref abs_col letters abs_row digits <> "").
  { intros Heq. pose proof (cell_ref_nonempty abs_col letters abs_row digits) as Hn.
    rewrite Heq in Hn. discriminate Hn. destruct letters; simpl in *; [lia|done]. }
  apply (xl_ok_iff_prefix _ _ _ (append_nonempty _ tail Hnz)).
  exists letters, digits. split; [|done].
  exists abs_col, abs_row, (list_ascii_of_string tail).
  rewrite chars_append. unfold cell_ref.
  rewrite list_ascii_of_string_of_list_ascii.
  rewrite <- !app_assoc. done.
Qed.

Lemma xl_cell_to_rowcol_ignores_tail_witness :
  xl_cell_to_rowcol "C7:D9" = xl_cell_to_rowcol "C7".
Proof.
  apply (xl_cell_to_rowcol_ignores_tail false ["C"%char] false ["7"%char] ":D9");
    [reflexivity | simpl; lia | discriminate | reflexivity | reflexivity].
Defined.

Lemma int_of_digits_acc ds acc :
  0 <= acc -> forallb is_digit ds = true ->
  0 <= fold_left (fun a c => 10 * a + (ord c - 48)) ds acc.
Proof.
  revert acc. induction ds as [|d ds IH]; intros acc Hacc Hds; simpl; [done|].
  simpl in Hds. apply andb_true_iff in Hds as [Hd Hds].
  apply IH; [|done]. unfold is_digit in Hd. lia.
Qed.

Lemma base26_range letters :
  forallb is_upper letters = true -> (1 <= length letters <= 3)%nat ->
  1 <= base26 letters <= 18278.
Proof.
  intros Hup Hlen.
  destruct letters as [|c1 [|c2 [|c3 [|c4 l]]]]; simpl in Hlen; try lia;
    simpl in Hup; repeat (apply andb_true_iff in Hup as [? Hup]);
    unfold is_upper in *; unfold base26; simpl; lia.
Qed.

(** X3.  Whatever string it is given, a result of [xl_cell_to_rowcol] has a
    row index of at least -1 (row number 0 gives -1) and a column index
    between 0 and 18277 (column ZZZ). *)
Theorem xl_cell_to_rowcol_range (cell_str : string) (r c : Z) :
  xl_cell_to_rowcol cell_str = Ok (r, c) ->
  -1 <= r /\ 0 <= c <= 18277.
Proof.
  destruct (String.eqb_spec cell_str "") as [->|Hne].
  - intros [= <- <-]. lia.
  - intros Hok. apply (xl_ok_iff_prefix _ _ _ Hne) in Hok
      as (col & row & (a & b & tail & _ & Hup & Hlen & _ & Hdig & _) & -> & ->).
    pose proof (base26_range col Hup Hlen).
    pose proof (int_of_digits_acc row 0 ltac:(lia) Hdig) as Hrow.
    fold (int_of_digits row) in Hrow. lia.
Qed.

Lemma xl_cell_to_rowcol_range_witness :
  (-1 <= -1 /\ 0 <= 18277 <= 18277) /\ xl_cell_to_rowcol "ZZZ0" = Ok (-1, 18277).
Proof.
  split; [|reflexivity].
  apply (xl_cell_to_rowcol_range "ZZZ0" (-1) 18277). reflexivity.
Defined.

Lemma ord_inj c1 c2 : ord c1 = ord c2 -> c1 = c2.
Proof.
  unfold ord. intros Heq%Nat2Z.inj.
  rewrite <- (ascii_nat_embedding c1), <- (ascii_nat_embedding c2). by rewrite Heq.
Qed.

Lemma base26_snoc letters c :
  base26 (letters ++ [c]) = 26 * base26 letters + (ord c - 64).
Proof. unfold base26. by rewrite fold_left_app. Qed.

Lemma base26_positive letters :
  forallb is_upper letters = true -> letters <> [] -> 1 <= base26 letters.
Proof.
  induction letters as [|c l IH] using rev_ind; [done|].
  intros Hup _. rewrite forallb_app in Hup.
  apply andb_true_iff in Hup as [Hl Hc]. simpl in Hc.
  rewrite andb_true_r in Hc. rewrite base26_snoc.
  assert (0 <= base26 l).
  { destruct l as [|c' l']; [unfold base26; simpl; lia|].
    assert (1 <= base26 (c' :: l')) by (apply IH; done). lia. }
  unfold is_upper in Hc. lia.
Qed.

Lemma base26_inj l1 l2 :
  forallb is_upper l1 = true -> forallb is_upper l2 = true ->
  base26 l1 = base26 l2 -> l1 = l2.
Proof.
  revert l2. induction l1 as [|c1 l1 IH] using rev_ind; intros l2 Hu1 Hu2 Heq.
  - destruct l2 as [|c2 l2]; [done|].
    pose proof (base26_positive (c2 :: l2) Hu2 ltac:(done)).
    change (base26 []) with 0 in Heq. lia.
  - destruct l2 as [|c2 l2 _] using rev_ind.
    + pose proof (base26_positive (l1 ++ [c1]) Hu1 ltac:(by destruct l1)).
      change (base26 []) with 0 in Heq. lia.
    + rewrite forallb_app in Hu1, Hu2.
      apply andb_true_iff in Hu1 as [Hl1 Hc1], Hu2 as [Hl2 Hc2].
      simpl in Hc1, Hc2. rewrite andb_true_r in Hc1, Hc2.
      rewrite !base26_snoc in Heq.
      apply andb_true_iff in Hc1 as [Hc1 Hc1'], Hc2 as [Hc2 Hc2'].
      apply Z.leb_le in Hc1, Hc1', Hc2, Hc2'.
      assert (base26 l1 = base26 l2) as Hl by lia.
      assert (ord c1 = ord c2) as Hc by lia.
      apply ord_inj in Hc as ->. f_equal. by apply IH.
Qed.

(** X4.  Two cell references with the same result have the same column
    letters and the same row number: no two columns share an index. *)
Theorem xl_cell_to_rowcol_injective (abs_col1 abs_row1 abs_col2 abs_row2 : bool)
    (letters1 digits1 letters2 digits2 : list ascii) :
  forallb is_upper letters1 = true -> (1 <= length letters1 <= 3)%nat ->
  digits1 <> [] -> forallb is_digit digits1 = true ->
  forallb is_upper letters2 = true -> (1 <= length letters2 <= 3)%nat ->
  digits2 <> [] -> forallb is_digit digits2 = true ->
  xl_cell_to_rowcol (cell_ref abs_col1 letters1 abs_row1 digits1)
  = xl_cell_to_rowcol (cell_ref abs_col2 letters2 abs_row2 digits2) ->
  letters1 = letters2 /\ int_of_digits digits1 = int_of_digits digits2.
Proof.
  intros Hu1 Hl1 Hn1 Hd1 Hu2 Hl2 Hn2 Hd2.
  rewrite !cell_ref_parsed by done. intros [= Hrow Hcol].
  split; [|lia]. apply base26_inj; [done..|lia].
Qed.

Lemma xl_cell_to_rowcol_injective_witness :
  ["A"; "B"]%char = ["A"; "B"]%char /\
  int_of_digits ["1"; "2"]%char = int_of_digits ["0"; "1"; "2"]%char.
Proof.
  apply (xl_cell_to_rowcol_injective true true false false
           ["A"; "B"]%char ["1"; "2"]%char ["A"; "B"]%char ["0"; "1"; "2"]%char);
    try reflexivity; try discriminate; simpl; lia.
Defined.

End A1Accepts.

(** ** More on [read] *)

Section ReadMore.
Context `{Libraries}.

(** X5.  An empty string as a corner: on an xlrd sheet it stands for the
    cell [(1, 1)], as first and as last cell; on a pyxlsb sheet it stands for
    [(1, 1)] as first cell but, as last cell, for no last cell at all. *)
Theorem read_empty_string_corner (first_cell : cell_arg)
    (last_cell : option cell_arg) :
  (forall sh : xlrd_sheet,
     read (XlrdSheet sh) (CellStr "") last_cell
     = read (XlrdSheet sh) (CellTuple 1 1) last_cell /\
     read (XlrdSheet sh) first_cell (Some (CellStr ""))
     = read (XlrdSheet sh) first_cell (Some (CellTuple 1 1))) /\
  (forall sh : pyxlsb_sheet,
     read (PyxlsbWorksheet sh) (CellStr "") last_cell
     = read (PyxlsbWorksheet sh) (CellTuple 1 1) last_cell /\
     read (PyxlsbWorksheet sh) first_cell (Some (CellStr ""))
     = read (PyxlsbWorksheet sh) first_cell None).
Proof. split; intros sh; split; reflexivity. Qed.

Lemma read_xlrd_tuple_corners sh r1 c1 (last : option (Z * Z)) :
  read (XlrdSheet sh) (CellTuple r1 c1) (tuple_arg <$> last)
  = for_each (fun r => for_each (fun c => xlrd_value sh r c)
                         (py_range (c1 - 1) (default (nrows sh, ncols sh) last).2))
             (py_range (r1 - 1) (default (nrows sh, ncols sh) last).1).
Proof. by destruct last as [[r2 c2]|]. Qed.

Lemma py_range_empty start stop : stop <= start -> py_range start stop = [].
Proof.
  intros Hle. unfold py_range. by replace (Z.to_nat (stop - start)) with 0%nat by lia.
Qed.

Lemma for_each_no_calls {A B} (f : A -> result (list B)) l :
  (forall x, x ∈ l -> f x = Ok []) ->
  for_each f l = Ok (replicate (length l) []).
Proof.
  induction l as [|x l IH]; intros Hf; simpl; [done|].
  rewrite Hf by left. simpl. rewrite IH; [done|].
  intros y Hy. apply Hf. by right.
Qed.

(** X6.  Corners given the wrong way round are no error on an xlrd sheet:
    with the last row above the first, [read] returns the empty list, and
    with the last column left of the first it returns empty rows; no cell of
    the sheet is asked for, wherever the corners lie. *)
Theorem read_xlrd_empty_range (sh : xlrd_sheet) (r1 c1 r2 c2 : Z) :
  (r2 < r1 ->
   read (XlrdSheet sh) (CellTuple r1 c1) (Some (CellTuple r2 c2)) = Ok []) /\
  (r1 <= r2 -> c2 < c1 ->
   read (XlrdSheet sh) (CellTuple r1 c1) (Some (CellTuple r2 c2))
   = Ok (replicate (Z.to_nat (r2 - r1 + 1)) [])).
Proof.
  split.
  - intros Hr. simpl. unfold read_xlrd. simpl.
    by rewrite (py_range_empty (r1 - 1) r2) by lia.
  - intros Hr Hc. simpl. unfold read_xlrd. simpl.
    rewrite (py_range_empty (c1 - 1) c2) by lia. simpl.
    rewrite for_each_no_calls by done. rewrite py_range_length.
    do 2 f_equal. lia.
Qed.

Lemma for_each_ok_iff {A B} (f : A -> result B) l :
  (exists ys, for_each f l = Ok ys) <-> (forall x, x ∈ l -> exists y, f x = Ok y).
Proof.
  split; [|apply for_each_total].
  intros [ys Hys] x Hx. apply for_each_Forall2 in Hys.
  apply list_elem_of_lookup in Hx as [i Hi].
  destruct (Forall2_lookup_l _ _ _ _ _ Hys Hi) as (y & _ & Hy). eauto.
Qed.

Lemma py_range_elem_of start stop x :
  x ∈ py_range start stop <-> start <= x < stop.
Proof.
  split; [apply py_range_elem|]. intros Hx.
  apply list_elem_of_lookup. exists (Z.to_nat (x - start)).
  rewrite py_range_lookup by lia. f_equal. lia.
Qed.

(** X7.  On an xlrd sheet [read] returns a value exactly when every cell of
    the range has one: a single cell that raises (out of the sheet, a date
    that does not convert, an unknown error code) makes the whole call
    raise, and nothing of the range is returned. *)
Theorem read_xlrd_all_or_nothing (sh : xlrd_sheet) (r1 c1 : Z)
    (last : option (Z * Z)) :
  let r2 := (default (nrows sh, ncols sh) last).1 in
  let c2 := (default (nrows sh, ncols sh) last).2 in
  (exists values,
     read (XlrdSheet sh) (CellTuple r1 c1) (tuple_arg <$> last) = Ok values)
  <-> (forall r c, r1 - 1 <= r < r2 -> c1 - 1 <= c < c2 ->
                   exists v, xlrd_value sh r c = Ok v).
Proof.
  intros r2 c2. rewrite read_xlrd_tuple_corners. fold r2 c2.
  rewrite for_each_ok_iff. split.
  - intros Hrows r c Hr Hc.
    destruct (Hrows r) as [row Hrow]; [by apply py_range_elem_of|].
    apply (proj1 (for_each_ok_iff (fun c => xlrd_value sh r c)
                    (py_range (c1 - 1) c2))); [eauto|by apply py_range_elem_of].
  - intros Hcells r Hr%py_range_elem_of.
    apply for_each_ok_iff. intros c Hc%py_range_elem_of. by apply Hcells.
Qed.

Lemma read_pyxlsb_tuple_corners sh r1 c1 (last : option (Z * Z)) :
  read (PyxlsbWorksheet sh) (CellTuple r1 c1) (tuple_arg <$> last)
  = (selected ← islice (rows sh) (r1 - 1) (fst <$> last);
     Ok (map (fun row => py_slice (map errors_get row) (c1 - 1) (snd <$> last))
             selected)).
Proof. simpl. unfold read_pyxlsb. by destruct last as [[r2 c2]|]. Qed.

Lemma py_slice_inside {A} (l : list A) (start stop : Z) :
  0 <= start <= stop -> stop <= Z.of_nat (length l) ->
  py_slice l start (Some stop)
  = take (Z.to_nat (stop - start)) (drop (Z.to_nat start) l).
Proof.
  intros Hs Hstop. unfold py_slice, slice_index. simpl.
  assert ((start <? 0) = false) as -> by lia.
  assert ((stop <? 0) = false) as -> by lia.
  by rewrite !Z.min_l by lia.
Qed.

(** X8.  On a pyxlsb sheet whose rows all reach column [c2], with corners
    [1 <= r1 <= r2 <= number of rows] and [1 <= c1 <= c2], [read] returns
    [r2 - r1 + 1] rows of [c2 - c1 + 1] values, and the entry [[i][j]] is
    [errors.get] of the cell [(r1 - 1 + i, c1 - 1 + j)]. *)
Theorem read_pyxlsb_row_major (sh : pyxlsb_sheet) (r1 c1 r2 c2 : Z) :
  1 <= r1 <= r2 -> r2 <= Z.of_nat (length (rows sh)) ->
  1 <= c1 <= c2 ->
  (forall row, row ∈ rows sh -> c2 <= Z.of_nat (length row)) ->
  exists data,
    read (PyxlsbWorksheet sh) (CellTuple r1 c1) (Some (CellTuple r2 c2)) = Ok data /\
    Z.of_nat (length data) = r2 - r1 + 1 /\
    (forall row, row ∈ data -> Z.of_nat (length row) = c2 - c1 + 1) /\
    (forall i j : nat, Z.of_nat i < r2 - r1 + 1 -> Z.of_nat j < c2 - c1 + 1 ->
       entry data i j
       = errors_get <$> entry (rows sh) (Z.to_nat (r1 - 1 + Z.of_nat i))
                                        (Z.to_nat (c1 - 1 + Z.of_nat j))).
Proof.
  intros Hr Hr2 Hc Hwide.
  change (Some (CellTuple r2 c2)) with (tuple_arg <$> Some (r2, c2)).
  rewrite read_pyxlsb_tuple_corners. unfold islice. simpl.
  assert ((r1 - 1 <? 0) = false) as -> by lia.
  assert ((r2 <? 0) = false) as -> by lia. simpl.
  set (sel := take (Z.to_nat (r2 - (r1 - 1))) (drop (Z.to_nat (r1 - 1)) (rows sh))).
  assert (Hsel_in : forall row, row ∈ sel -> row ∈ rows sh).
  { intros row Hrow. unfold sel in Hrow.
    apply elem_of_take in Hrow as (i & Hi & _).
    apply list_elem_of_lookup_2 in Hi. by eapply subseteq_drop. }
  assert (Hslice : forall row, row ∈ rows sh ->
            py_slice (map errors_get row) (c1 - 1) (Some c2)
            = take (Z.to_nat (c2 - (c1 - 1)))
                   (drop (Z.to_nat (c1 - 1)) (map errors_get row))).
  { intros row Hrow. apply py_slice_inside; [lia|].
    rewrite length_map. by apply Hwide. }
  eexists. split; [reflexivity|]. split; [|split].
  - rewrite length_map. unfold sel. rewrite length_take, length_drop. lia.
  - intros row (src & -> & Hsrc)%list_elem_of_fmap.
    rewrite Hslice by auto. rewrite length_take, length_drop, length_map.
    specialize (Hwide src (Hsel_in _ Hsrc)). lia.
  - intros i j Hi Hj. unfold entry.
    rewrite list_lookup_fmap. unfold sel at 1.
    rewrite lookup_take_lt by lia. rewrite lookup_drop.
    replace (Z.to_nat (r1 - 1) + i)%nat with (Z.to_nat (r1 - 1 + Z.of_nat i)) by lia.
    destruct (rows sh !! Z.to_nat (r1 - 1 + Z.of_nat i)) as [src|] eqn:Hsrc;
      simpl; [|done].
    rewrite Hslice by (by eapply list_elem_of_lookup_2).
    rewrite lookup_take_lt by lia. rewrite lookup_drop, list_lookup_fmap.
    by replace (Z.to_nat (c1 - 1) + j)%nat with (Z.to_nat (c1 - 1 + Z.of_nat j)) by lia.
Qed.

(** X9.  On a pyxlsb sheet a first row below 1, or a last row below 0, is
    refused: [read] raises the [ValueError] of [itertools.islice], whatever
    the sheet holds. *)
Theorem read_pyxlsb_row_below_one (sh : pyxlsb_sheet) (r1 c1 : Z)
    (last : option (Z * Z)) :
  r1 < 1 \/ (exists r2 c2, last = Some (r2, c2) /\ r2 < 0) ->
  exists msg,
    read (PyxlsbWorksheet sh) (CellTuple r1 c1) (tuple_arg <$> last)
    = Raise (ValueError msg).
Proof.
  intros Hbad. rewrite read_pyxlsb_tuple_corners. unfold islice.
  assert (((r1 - 1 <? 0) || from_option (fun s => s <? 0) false (fst <$> last))
          = true) as ->; [|simpl; eauto].
  destruct Hbad as [Hr1 | (r2 & c2 & -> & Hr2)]; simpl.
  - assert ((r1 - 1 <? 0) = true) as -> by lia. done.
  - assert ((r2 <? 0) = true) as -> by lia. apply orb_true_r.
Qed.

End ReadMore.

Lemma read_xlrd_empty_range_witness :
  @read demo_libraries (XlrdSheet demo_xlrd) (CellTuple 5 1) (Some (CellTuple 2 9))
    = Ok [] /\
  @read demo_libraries (XlrdSheet demo_xlrd) (CellTuple 1 9) (Some (CellTuple 2 3))
    = Ok [[]; []].
Proof.
  split.
  - apply (proj1 (@read_xlrd_empty_range demo_libraries demo_xlrd 5 1 2 9)). lia.
  - apply (proj2 (@read_xlrd_empty_range demo_libraries demo_xlrd 1 9 2 3)); lia.
Defined.

Lemma read_xlrd_all_or_nothing_witness :
  exists values,
    @read demo_libraries (XlrdSheet demo_xlrd) (CellTuple 1 1)
       (tuple_arg <$> None) = Ok values.
Proof.
  apply (proj2 (@read_xlrd_all_or_nothing demo_libraries demo_xlrd 1 1 None)).
  intros r c Hr Hc. apply demo_xlrd_readable; simpl in *; lia.
Defined.

Lemma read_pyxlsb_row_major_witness :
  exists data,
    @read demo_libraries (PyxlsbWorksheet demo_pyxlsb)
       (CellTuple 1 2) (Some (CellTuple 2 3)) = Ok data /\
    Z.of_nat (length data) = 2 - 1 + 1 /\
    (forall row, row ∈ data -> Z.of_nat (length row) = 3 - 2 + 1) /\
    (forall i j : nat, Z.of_nat i < 2 - 1 + 1 -> Z.of_nat j < 3 - 2 + 1 ->
       entry data i j
       = errors_get <$> entry (rows demo_pyxlsb) (Z.to_nat (1 - 1 + Z.of_nat i))
                                                 (Z.to_nat (2 - 1 + Z.of_nat j))).
Proof.
  apply (@read_pyxlsb_row_major demo_libraries demo_pyxlsb 1 2 2 3);
    [lia | simpl; lia | lia |].
  intros row Hrow. simpl in Hrow.
  repeat (apply elem_of_cons in Hrow as [-> | Hrow]; [simpl; lia|]).
  by apply elem_of_nil in Hrow.
Defined.

Lemma read_pyxlsb_row_below_one_witness :
  exists msg,
    @read demo_libraries (PyxlsbWorksheet demo_pyxlsb) (CellTuple 0 1)
       (tuple_arg <$> None) = Raise (ValueError msg).
Proof.
  apply (@read_pyxlsb_row_below_one demo_libraries demo_pyxlsb 0 1 None).
  left. lia.
Defined.

(** ** The chapter's [read] against [read] *)

Section Ch05Agrees.
Context `{Libraries}.

Lemma for_each_ext_in {A B} (f g : A -> result B) l :
  (forall x, x ∈ l -> f x = g x) -> for_each f l = for_each g l.
Proof.
  induction l as [|x l IH]; intros Hfg; simpl; [done|].
  rewrite Hfg by left. rewrite IH; [done|]. intros y Hy. apply Hfg. by right.
Qed.

Lemma ch05_xlrd_value_same (sh : xlrd_sheet) (r c : Z) :
  (forall cl, cell sh r c = Returned cl ->
              ctype cl <> XL_CELL_BOOLEAN /\ ctype cl <> XL_CELL_BLANK) ->
  Ch05.xlrd_value sh r c = xlrd_value sh r c.
Proof.
  intros Hty. unfold Ch05.xlrd_value, xlrd_value.
  destruct (cell sh r c) as [cl|e]; simpl; [|done].
  destruct (Hty cl eq_refl) as [Hbool Hblank].
  repeat case_decide; try done; intuition congruence.
Qed.

(** X10.  The chapter's [read] ([ch05/excel.py]) returns what [read] of
    [excel.py] returns: on an xlrd sheet, for tuple corners, when no cell of
    the range is a boolean or a blank cell; on an openpyxl sheet always; on a
    pyxlsb sheet, for tuple corners, when no cell holds one of the error
    codes. *)
Theorem ch05_read_agrees (r1 c1 : Z) (last : option (Z * Z)) :
  (forall sh : xlrd_sheet,
     (forall r c cl,
        r1 - 1 <= r < (default (nrows sh, ncols sh) last).1 ->
        c1 - 1 <= c < (default (nrows sh, ncols sh) last).2 ->
        cell sh r c = Returned cl ->
        ctype cl <> XL_CELL_BOOLEAN /\ ctype cl <> XL_CELL_BLANK) ->
     Ch05.read (XlrdSheet sh) (CellTuple r1 c1) (tuple_arg <$> last)
     = read (XlrdSheet sh) (CellTuple r1 c1) (tuple_arg <$> last)) /\
  (forall (sh : sheet) first_cell last_cell,
     (exists s, sh = OpenpyxlWorksheet s) \/
     (exists s, sh = OpenpyxlReadOnlyWorksheet s) ->
     Ch05.read sh first_cell last_cell = read sh first_cell last_cell) /\
  (forall sh : pyxlsb_sheet,
     (forall row v, row ∈ rows sh -> v ∈ row -> errors_get v = v) ->
     Ch05.read (PyxlsbWorksheet sh) (CellTuple r1 c1) (tuple_arg <$> last)
     = read (PyxlsbWorksheet sh) (CellTuple r1 c1) (tuple_arg <$> last)).
Proof.
  split; [|split].
  - intros sh Hty. rewrite read_xlrd_tuple_corners.
    assert (Hch : Ch05.read (XlrdSheet sh) (CellTuple r1 c1) (tuple_arg <$> last)
      = for_each (fun r => for_each (fun c => Ch05.xlrd_value sh r c)
                   (py_range (c1 - 1) (default (nrows sh, ncols sh) last).2))
                 (py_range (r1 - 1) (default (nrows sh, ncols sh) last).1)).
    { by destruct last as [[r2 c2]|]. }
    rewrite Hch. apply for_each_ext_in. intros r Hr%py_range_elem.
    apply for_each_ext_in. intros c Hc%py_range_elem.
    apply ch05_xlrd_value_same. intros cl Hcl. by apply (Hty r c).
  - intros sh fc lc [[s ->] | [s ->]]; reflexivity.
  - intros sh Hplain. rewrite read_pyxlsb_tuple_corners.
    assert (Hch : Ch05.read (PyxlsbWorksheet sh) (CellTuple r1 c1) (tuple_arg <$> last)
      = (selected ← islice (rows sh) (r1 - 1) (fst <$> last);
         Ok (map (fun row => py_slice row (c1 - 1) (snd <$> last)) selected))).
    { simpl. unfold Ch05.read_pyxlsb. by destruct last as [[r2 c2]|]. }
    rewrite Hch. destruct (islice _ _ _) as [sel|e] eqn:Hsel; simpl; [|done].
    f_equal. apply map_ext_in. intros row Hrow.
    f_equal. symmetry. rewrite <- (map_id row) at 2.
    apply map_ext_in. intros v Hv. apply Hplain with row.
    + apply list_elem_of_In in Hrow.
      apply list_elem_of_lookup in Hrow as [i Hi].
      destruct (islice_lookup _ _ _ _ _ _ Hsel Hi) as [_ Hin].
      by eapply list_elem_of_lookup_2.
    + by apply list_elem_of_In.
Qed.

End Ch05Agrees.

Lemma ch05_read_agrees_witness :
  @Ch05.read demo_libraries (XlrdSheet demo_xlrd) (CellTuple 1 1)
     (tuple_arg <$> Some (1, 2))
  = @read demo_libraries (XlrdSheet demo_xlrd) (CellTuple 1 1)
     (tuple_arg <$> Some (1, 2)).
Proof.
  apply (proj1 (@ch05_read_agrees demo_libraries 1 1 (Some (1, 2)))).
  intros r c cl Hr Hc. simpl in Hr, Hc.
  assert (r = 0) as -> by lia. assert (c = 0 \/ c = 1) as [-> | ->] by lia;
    intros [= <-]; split; discriminate.
Defined.

(** ** More on [write] *)

Section WriteMore.
Context `{Libraries}.

Lemma zero_based_corner_str s r c :
  A1.xl_cell_to_rowcol s = Ok (r, c) ->
  zero_based_corner (CellStr s) = zero_based_corner (CellTuple (r + 1) (c + 1)).
Proof. intros Hs. simpl. rewrite Hs. f_equal. f_equal; lia. Qed.

(** X11.  A first cell given as a string is the same to [write] as the
    tuple it stands for: on an xlsxwriter or an xlwt sheet the result of
    [xl_cell_to_rowcol] plus [(1, 1)], on an openpyxl sheet the tuple
    [coordinate_to_tuple] returns. *)
Theorem write_string_as_tuple (values : list (list pyvalue))
    (first_str : string) (date_format : option string) (r c : Z) :
  (A1.xl_cell_to_rowcol first_str = Ok (r, c) ->
   (forall ws : xw_ws,
      write (XlsxwriterWorksheet ws) values (CellStr first_str) date_format
      = write (XlsxwriterWorksheet ws) values (CellTuple (r + 1) (c + 1)) date_format) /\
   (forall ws : xlwt_ws,
      write (XlwtWorksheet ws) values (CellStr first_str) date_format
      = write (XlwtWorksheet ws) values (CellTuple (r + 1) (c + 1)) date_format)) /\
  (coordinate_to_tuple first_str = Returned (r, c) ->
   forall ws : opx_ws,
     write (OpenpyxlWorksheet ws) values (CellStr first_str) date_format
     = write (OpenpyxlWorksheet ws) values (CellTuple r c) date_format).
Proof.
  split.
  - intros Hs. split; intros ws; simpl.
    + unfold write_xlsxwriter. by rewrite (zero_based_corner_str _ _ _ Hs).
    + unfold write_xlwt. by rewrite (zero_based_corner_str _ _ _ Hs).
  - intros Hs ws. simpl. unfold write_openpyxl. simpl. by rewrite Hs.
Qed.

Lemma for_state_app {S A} (body : S -> A -> outcome S) st l1 l2 :
  for_state body st (l1 ++ l2)
  = and_then (for_state body st l1) (fun st' => for_state body st' l2).
Proof.
  revert st. induction l1 as [|x l1 IH]; intros st; simpl; [done|].
  unfold and_then at 1 3. destruct (body st x) as [st' [e|]]; simpl.
  - done.
  - apply IH.
Qed.

Lemma and_then_ext {S} (o : outcome S) (k1 k2 : S -> outcome S) :
  (forall st, k1 st = k2 st) -> and_then o k1 = and_then o k2.
Proof. intros Hk. unfold and_then. destruct o.2; [done|apply Hk]. Qed.

Lemma for_state_ext {S A} (b1 b2 : S -> A -> outcome S) st l :
  (forall st x, b1 st x = b2 st x) -> for_state b1 st l = for_state b2 st l.
Proof.
  intros Hb. revert st. induction l as [|x l IH]; intros st; simpl; [done|].
  rewrite Hb. by apply and_then_ext.
Qed.

Lemma for_state_row {S} (body : S -> Z -> Z -> pyvalue -> outcome S)
    (i : Z) st (row : list pyvalue) :
  for_state (fun st '(j, v) => body st i j v) st (enumerate row)
  = for_state (fun st '(i, j, v) => body st i j v) st
      (imap (fun m v => (i, Z.of_nat m, v)) row).
Proof.
  unfold enumerate. revert st.
  induction row as [|v row IHr] using rev_ind; intros st; [done|].
  rewrite !imap_app, !for_state_app. rewrite IHr. by apply and_then_ext.
Qed.

Lemma for_state_nested_from {S} (body : S -> Z -> Z -> pyvalue -> outcome S)
    (g : nat -> Z) st (values : list (list pyvalue)) :
  for_state (fun st '(i, row) =>
      for_state (fun st '(j, v) => body st i j v) st (enumerate row))
    st (imap (fun n row => (g n, row)) values)
  = for_state (fun st '(i, j, v) => body st i j v) st
      (concat (imap (fun n row => imap (fun m v => (g n, Z.of_nat m, v)) row)
                    values)).
Proof.
  revert g st. induction values as [|row values IH]; intros g st; [done|].
  rewrite !imap_cons. simpl concat. rewrite for_state_app. simpl for_state at 1.
  rewrite for_state_row. apply and_then_ext. intros st'. apply (IH (g ∘ Datatypes.S)).
Qed.

Lemma for_state_nested {S} (body : S -> Z -> Z -> pyvalue -> outcome S)
    st (values : list (list pyvalue)) :
  for_state (fun st '(i, row) =>
      for_state (fun st '(j, v) => body st i j v) st (enumerate row))
    st (enumerate values)
  = for_state (fun st '(i, j, v) => body st i j v) st (indexed values).
Proof. apply (for_state_nested_from body (fun n => Z.of_nat n)). Qed.

(** X12.  On an xlwt sheet, with a style for [date_format] and a first cell
    [(row, col)], [write] calls [sheet.write] once per value, row after row:
    the value at [[i][j]] goes to the 0-based cell [(i + row - 1, j + col - 1)],
    with the date style exactly when it is a date or a datetime, and the
    first call that raises ends the writing. *)
Theorem write_xlwt_cells (ws : xlwt_ws) (values : list (list pyvalue))
    (row col : Z) (date_format : option string) (style : xlwt_style) :
  easyxf (default "mm/dd/yy" date_format) = Returned style ->
  write (XlwtWorksheet ws) values (CellTuple row col) date_format
  = in_sheet XlwtWorksheet
      (for_state (fun ws '(i, j, v) =>
           from_library
             (xlwt_write ws (i + (row - 1)) (j + (col - 1)) v
                         (if is_datelike v then Some style else None)))
         ws (indexed values)).
Proof.
  intros Hstyle. simpl. unfold write_xlwt. rewrite Hstyle. simpl.
  f_equal.
  rewrite <- (for_state_nested
    (fun ws i j v => from_library
       (xlwt_write ws (i + (row - 1)) (j + (col - 1)) v
                   (if is_datelike v then Some style else None)))).
  apply for_state_ext. intros st [i r]. apply for_state_ext. intros st' [j v].
  by destruct (is_datelike v).
Qed.

(** X13.  On an openpyxl worksheet, with a first cell [(row, col)], [write]
    goes through the values row after row: for the value at [[i][j]] it gets
    the cell [(row + i, col + j)], sets its value and, when the value is a
    date or a datetime and the format is not empty, its number format
    ([mm/dd/yy] unless given); the first call that raises ends the
    writing. *)
Theorem write_openpyxl_cells (ws : opx_ws) (values : list (list pyvalue))
    (row col : Z) (date_format : option string) :
  write (OpenpyxlWorksheet ws) values (CellTuple row col) date_format
  = in_sheet OpenpyxlWorksheet
      (for_state (fun ws '(i, j, v) =>
           and_then (from_library (ws_cell ws (row + i) (col + j))) (fun ws =>
           and_then (from_library (ws_set_value ws (row + i) (col + j) v)) (fun ws =>
           if negb (String.eqb (default "mm/dd/yy" date_format) "")
              && is_datelike v
           then from_library
                  (ws_set_number_format ws (row + i) (col + j)
                                        (default "mm/dd/yy" date_format))
           else (ws, None))))
         ws (indexed values)).
Proof.
  simpl. unfold write_openpyxl. simpl. f_equal.
  rewrite <- (for_state_nested
    (fun ws i j v =>
       and_then (from_library (ws_cell ws (row + i) (col + j))) (fun ws =>
       and_then (from_library (ws_set_value ws (row + i) (col + j) v)) (fun ws =>
       if negb (String.eqb (default "mm/dd/yy" date_format) "") && is_datelike v
       then from_library
              (ws_set_number_format ws (row + i) (col + j)
                                    (default "mm/dd/yy" date_format))
       else (ws, None))))).
  apply for_state_ext. intros st [i r]. by apply for_state_ext; intros st' [j v].
Qed.

(** X14.  [write] leaves the sheet as it was when there is nothing to write
    and when it raises before its loop: a [date_format] on an xlsxwriter
    sheet ([ValueError]), and a first cell string without a cell reference
    on an xlsxwriter or xlwt sheet ([AttributeError]). *)
Theorem write_nothing_written (sh : sheet) (values : list (list pyvalue))
    (first_cell : cell_arg) (date_format : option string) :
  (write sh [] first_cell date_format).1 = sh /\
  (forall ws fmt, sh = XlsxwriterWorksheet ws -> date_format = Some fmt ->
     write sh values first_cell date_format
     = (sh, Some (ValueError "date_format must be set as Workbook option"))) /\
  (forall s e, first_cell = CellStr s -> A1.xl_cell_to_rowcol s = Raise e ->
     (forall ws, sh = XlsxwriterWorksheet ws -> date_format = None ->
        write sh values first_cell date_format = (sh, Some e)) /\
     (forall ws style, sh = XlwtWorksheet ws ->
        easyxf (default "mm/dd/yy" date_format) = Returned style ->
        write sh values first_cell date_format = (sh, Some e))).
Proof.
  split; [|split].
  - destruct sh as [s|s|s|s|s|s|c]; simpl; try done.
    + unfold write_openpyxl. by destruct (opx_corner first_cell).
    + unfold write_xlsxwriter. destruct date_format; [done|].
      by destruct (zero_based_corner first_cell).
    + unfold write_xlwt. destruct (call (easyxf _)); [|done].
      by destruct (zero_based_corner first_cell).
  - intros ws fmt -> ->. reflexivity.
  - intros s e -> Hs. split.
    + intros ws -> ->. simpl. unfold write_xlsxwriter. simpl. by rewrite Hs.
    + intros ws style -> Hstyle. simpl. unfold write_xlwt.
      rewrite Hstyle. simpl. by rewrite Hs.
Qed.

End WriteMore.

Lemma write_string_as_tuple_witness :
  @write demo_libraries (@XlwtWorksheet demo_libraries []) [[PyInt 1]]
         (CellStr "$B$2") None
  = @write demo_libraries (@XlwtWorksheet demo_libraries []) [[PyInt 1]]
         (CellTuple (1 + 1) (1 + 1)) None.
Proof.
  apply (proj2 (proj1 (@write_string_as_tuple demo_libraries [[PyInt 1]]
                         "$B$2" None 1 1) eq_refl)).
Defined.

Lemma write_xlwt_cells_witness :
  @write demo_libraries (@XlwtWorksheet demo_libraries [])
         [[PyInt 1; PyDate (mk_date 2020 1 1)]; [PyNone]] (CellTuple 2 2) None
  = (@XlwtWorksheet demo_libraries
       [(1, 1, PyInt 1, None);
        (1, 2, PyDate (mk_date 2020 1 1), Some "mm/dd/yy");
        (2, 1, PyNone, None)], None).
Proof.
  rewrite (@write_xlwt_cells demo_libraries [] _ 2 2 None "mm/dd/yy" eq_refl).
  reflexivity.
Defined.

Lemma write_nothing_written_witness :
  @write demo_libraries (@XlsxwriterWorksheet demo_libraries [])
         [[PyInt 1]] (CellStr "b2") None
  = (@XlsxwriterWorksheet demo_libraries [],
     Some (AttributeError "'NoneType' object has no attribute 'group'")).
Proof.
  apply (proj1 (proj2 (proj2 (@write_nothing_written demo_libraries
           (@XlsxwriterWorksheet demo_libraries []) [[PyInt 1]]
           (CellStr "b2") None)) "b2" _ eq_refl eq_refl) [] eq_refl eq_refl).
Defined.

(** ** The loaders *)

Section PoolLoad.
Import Parallel.
Context {V : Type} (read_sheet : string -> string -> result (string * V)).
Context (filename : string).
Hypothesis keyed : forall name title v,
  read_sheet filename name = Ok (title, v) -> title = name.

Lemma pool_load_ok sched sheetnames d :
  pool_load sched read_sheet filename sheetnames = Ok d
  <-> exists data, for_each (read_sheet filename) sheetnames = Ok data /\
                   d = dict_of data.
Proof.
  unfold pool_load.
  assert (Hpair : for_each (fun a : string * string => read_sheet a.1 a.2)
                    (map (pair filename) sheetnames)
                  = for_each (read_sheet filename) sheetnames).
  { induction sheetnames as [|n l IH]; simpl; [done|]. by rewrite IH. }
  split.
  - destruct (starmap _ _ _) as [data|e] eqn:Hs; simpl; [|done].
    intros [= <-]. apply starmap_ok in Hs. rewrite Hpair in Hs. eauto.
  - intros (data & Hdata & ->). rewrite <- Hpair in Hdata.
    apply (starmap_ok sched) in Hdata. by rewrite Hdata.
Qed.

Lemma pool_load_raises sched sheetnames :
  (exists e, pool_load sched read_sheet filename sheetnames = Raise e)
  <-> exists name, name ∈ sheetnames /\
                   exists e, read_sheet filename name = Raise e.
Proof.
  split.
  - intros [e He]. unfold pool_load in He.
    destruct (starmap _ _ _) as [data|e'] eqn:Hs; simpl in He; [done|].
    apply starmap_raises in Hs as ([fn name] & Hin & Hraise).
    apply list_elem_of_fmap in Hin as (n & [= -> ->] & Hn). eauto.
  - intros (name & Hin & e & He).
    destruct (pool_load sched read_sheet filename sheetnames) as [d|e'] eqn:Hl;
      [|eauto].
    apply pool_load_ok in Hl as (data & Hdata & _).
    apply for_each_Forall2 in Hdata.
    apply list_elem_of_lookup in Hin as [i Hi].
    destruct (Forall2_lookup_l _ _ _ _ _ Hdata Hi) as (y & _ & Hy). congruence.
Qed.

Lemma pool_load_lookup sched sheetnames d k :
  pool_load sched read_sheet filename sheetnames = Ok d ->
  d !! k = if decide (k ∈ sheetnames)
           then match read_sheet filename k with
                | Ok tv => Some tv.2
                | Raise _ => None
                end
           else None.
Proof.
  intros (data & Hdata & ->)%pool_load_ok. apply for_each_Forall2 in Hdata.
  assert (Hkeys : data.*1 = sheetnames).
  { clear -Hdata keyed.
    induction Hdata as [|name [t dt] names data Hx _ IH]; [done|].
    apply keyed in Hx as ->. rewrite fmap_cons. by f_equal. }
  case_decide as Hin.
  - apply list_elem_of_lookup in Hin as [i Hi].
    destruct (Forall2_lookup_l _ _ _ _ _ Hdata Hi) as ([t v] & Hdi & Hrd).
    rewrite Hrd. simpl. pose proof (keyed _ _ _ Hrd) as ->.
    apply dict_of_lookup; [by eapply list_elem_of_lookup_2|].
    intros v' [i' Hi']%list_elem_of_lookup.
    destruct (Forall2_lookup_r _ _ _ _ _ Hdata Hi') as (n' & _ & Hrd').
    pose proof (keyed _ _ _ Hrd') as <-. congruence.
  - apply not_elem_of_dom. rewrite dict_of_dom, Hkeys.
    by rewrite elem_of_list_to_set.
Qed.

Lemma pool_load_dom sched sheetnames d :
  pool_load sched read_sheet filename sheetnames = Ok d ->
  dom d = list_to_set sheetnames.
Proof.
  intros Hd. apply set_eq. intros k. rewrite elem_of_dom, elem_of_list_to_set.
  rewrite (pool_load_lookup _ _ _ k Hd). case_decide as Hin; [|by split; [intros []|]].
  split; [done|]. intros _.
  destruct (read_sheet filename k) as [tv|e] eqn:Hk; [eauto|].
  exfalso. assert (exists e', pool_load sched read_sheet filename sheetnames = Raise e')
    as [e' He'] by (apply pool_load_raises; eauto). congruence.
Qed.


End PoolLoad.

Section LoadWorkbookMore.
Context `{Libraries}.
Import Parallel.

Lemma read_sheet_keyed filename name title data :
  _read_sheet filename name = Ok (title, data) -> title = name.
Proof. by intros [-> _]%read_sheet_ok. Qed.

Lemma load_workbook_pool sched filename sheetnames :
  load_workbook sched filename (Some sheetnames)
  = pool_load sched _read_sheet filename sheetnames.
Proof. reflexivity. Qed.

Lemma book_getitem_missing book name :
  name ∉ book.*1 -> book_getitem book name = Raised KeyError.
Proof.
  induction book as [|[t b] book IH]; simpl; [done|].
  intros [Hne Hrest]%not_elem_of_cons.
  destruct (String.eqb_spec t name) as [->|]; [done|]. by apply IH.
Qed.

(** X15.  [load_workbook] raises exactly when reading one of the listed
    sheets raises: there is no dictionary of the sheets that could be read.
    In particular it raises when a listed name is no sheet of the workbook,
    and when it names a sheet that is not a worksheet. *)
Theorem load_workbook_no_partial_result (sched : nat) (filename : string)
    (sheetnames : list string) :
  ((exists e, load_workbook sched filename (Some sheetnames) = Raise e)
   <-> exists name, name ∈ sheetnames /\
                    exists e, _read_sheet filename name = Raise e) /\
  (forall book name,
     openpyxl_load_workbook filename = Returned book ->
     name ∈ sheetnames ->
     name ∉ book.*1 \/
     (exists c, book_getitem book name = Returned (name, BookOther c)) ->
     exists e, load_workbook sched filename (Some sheetnames) = Raise e).
Proof.
  rewrite load_workbook_pool. split; [apply pool_load_raises|].
  intros book name Hbook Hin Hbad. apply pool_load_raises.
  exists name. split; [done|]. unfold _read_sheet. rewrite Hbook. simpl.
  destruct Hbad as [Hmissing | [c Hother]].
  - rewrite (book_getitem_missing _ _ Hmissing). simpl. eauto.
  - rewrite Hother. simpl. eauto.
Qed.


(** X17.  Without sheet names [load_workbook] reads every sheet of the
    workbook: it returns what it returns for the list of all titles, and its
    dictionary then has exactly the titles as keys.  With an empty list of
    names it returns the empty dictionary and does not open the file. *)
Theorem load_workbook_all_sheets (sched : nat) (filename : string) :
  (forall book,
     openpyxl_load_workbook filename = Returned book ->
     load_workbook sched filename None
     = load_workbook sched filename (Some (book.*1)) /\
     forall d, load_workbook sched filename None = Ok d ->
               dom d = list_to_set (book.*1)) /\
  (forall e,
     openpyxl_load_workbook filename = Raised e ->
     load_workbook sched filename None = Raise (Propagated e)) /\
  load_workbook sched filename (Some []) = Ok ∅.
Proof.
  split; [|split].
  - intros book Hbook.
    assert (Hall : load_workbook sched filename None
                   = load_workbook sched filename (Some (book.*1))).
    { unfold load_workbook. by rewrite Hbook. }
    split; [done|]. intros d. rewrite Hall, load_workbook_pool.
    apply pool_load_dom. apply read_sheet_keyed.
  - intros e He. unfold load_workbook. by rewrite He.
  - reflexivity.
Qed.

End LoadWorkbookMore.

Lemma load_workbook_no_partial_result_witness :
  exists e, @Parallel.load_workbook demo_libraries 1 "book.xlsx"
              (Some ["Sheet1"; "Chart1"; "Sheet9"]) = Raise e.
Proof.
  apply (proj2 (@load_workbook_no_partial_result demo_libraries 1 "book.xlsx"
                  ["Sheet1"; "Chart1"; "Sheet9"]) demo_book "Sheet9" eq_refl).
  - set_solver.
  - left. vm_compute. intros Hin.
    repeat (apply elem_of_cons in Hin as [Hin | Hin]; [discriminate Hin|]).
    by apply elem_of_nil in Hin.
Defined.


Lemma load_workbook_all_sheets_witness :
  @Parallel.load_workbook demo_libraries 0 "book.xlsx" None
  = @Parallel.load_workbook demo_libraries 0 "book.xlsx"
      (Some ["Sheet1"; "Sheet2"; "Chart1"]).
Proof.
  apply (proj1 (proj1 (@load_workbook_all_sheets demo_libraries 0 "book.xlsx")
                  demo_book eq_refl)).
Defined.

Section OpenWorkbook.
Context `{Libraries} `{XlrdFiles}.
Import ParallelXlrd.

Lemma sheet_by_name_name book sheetname name s :
  sheet_by_name book sheetname = Returned (name, s) -> name = sheetname.
Proof.
  induction book as [|[t b] book IH]; simpl; [done|].
  destruct (String.eqb_spec t sheetname) as [->|]; [|done].
  by intros [= <- _].
Qed.

Lemma xlrd_read_sheet_keyed filename name title data :
  _read_sheet filename name = Ok (title, data) -> title = name.
Proof.
  unfold _read_sheet.
  destruct (xlrd_open_workbook filename) as [book|e]; simpl; [|done].
  destruct (sheet_by_name book name) as [[t sh]|e] eqn:Hsheet; simpl; [|done].
  destruct (read_xlrd sh (CellStr "A1") None) as [d|e]; simpl; [|done].
  intros [= <- _]. by apply sheet_by_name_name in Hsheet.
Qed.

Lemma xlrd_read_sheet_found filename name book sh :
  xlrd_open_workbook filename = Returned book ->
  sheet_by_name book name = Returned (name, sh) ->
  _read_sheet filename name
  = (data ← read (XlrdSheet sh) (CellStr "A1") None; Ok (name, data)).
Proof. intros Hbook Hsh. unfold _read_sheet. by rewrite Hbook; simpl; rewrite Hsh. Qed.

Lemma read_xlrd_whole_sheet (sh : xlrd_sheet) :
  read (XlrdSheet sh) (CellStr "A1") None
  = read (XlrdSheet sh) (CellTuple 1 1) (Some (CellTuple (nrows sh) (ncols sh))).
Proof. reflexivity. Qed.

(** X18.  [open_workbook] of [parallel_xlrd.py], on a file whose listed
    sheets exist, are readable and not empty, returns a dictionary with
    exactly the listed names as keys; the value under a name has one row per
    row of that sheet and one entry per column, and the entry [[i][j]] is the
    value of the sheet's cell [(i, j)]. *)
Theorem open_workbook_grids (sched : nat) (filename : string)
    (sheetnames : list string) (book : list (string * xlrd_sheet)) :
  xlrd_open_workbook filename = Returned book ->
  (forall name, name ∈ sheetnames ->
     exists sh, sheet_by_name book name = Returned (name, sh) /\
                readable sh /\ 1 <= nrows sh /\ 1 <= ncols sh) ->
  exists d,
    open_workbook sched filename (Some sheetnames) = Ok d /\
    dom d = list_to_set sheetnames /\
    forall name sh,
      name ∈ sheetnames -> sheet_by_name book name = Returned (name, sh) ->
      exists values,
        d !! name = Some values /\
        Z.of_nat (length values) = nrows sh /\
        (forall row, row ∈ values -> Z.of_nat (length row) = ncols sh) /\
        (forall i j : nat, Z.of_nat i < nrows sh -> Z.of_nat j < ncols sh ->
           exists v, entry values i j = Some v /\
                     xlrd_value sh (Z.of_nat i) (Z.of_nat j) = Ok v).
Proof.
  intros Hbook Hsheets.
  assert (Hgrid : forall name sh,
    sheet_by_name book name = Returned (name, sh) ->
    readable sh -> 1 <= nrows sh -> 1 <= ncols sh ->
    exists values,
      _read_sheet filename name = Ok (name, values) /\
      Z.of_nat (length values) = nrows sh /\
      (forall row, row ∈ values -> Z.of_nat (length row) = ncols sh) /\
      (forall i j : nat, Z.of_nat i < nrows sh -> Z.of_nat j < ncols sh ->
         exists v, entry values i j = Some v /\
                   xlrd_value sh (Z.of_nat i) (Z.of_nat j) = Ok v)).
  { intros name sh Hsh Hread Hr Hc.
    destruct (read_xlrd_range sh 1 1 (nrows sh) (ncols sh)) as
      (values & Hvalues & Hlen & Hrows & Hentries); [lia | lia | |].
    { intros r c Hrr Hcc. apply Hread; lia. }
    exists values. rewrite (xlrd_read_sheet_found _ _ _ _ Hbook Hsh).
    rewrite read_xlrd_whole_sheet, Hvalues. simpl.
    split; [done|]. split; [lia|]. split.
    - intros row Hrow. rewrite (Hrows row Hrow). lia.
    - intros i j Hi Hj. destruct (Hentries i j) as (v & Hv & Hval); [lia..|].
      exists v. split; [done|]. rewrite <- Hval. f_equal; lia. }
  destruct (pool_load sched _read_sheet filename sheetnames) as [d|e] eqn:Hload.
  - exists d. split; [done|].
    split; [by apply (pool_load_dom _ _ (xlrd_read_sheet_keyed filename) _ _ _ Hload)|].
    intros name sh Hin Hsh.
    destruct (Hsheets name Hin) as (sh' & Hsh' & Hread & Hr & Hc).
    assert (sh' = sh) as -> by congruence.
    destruct (Hgrid name sh Hsh Hread Hr Hc) as (values & Hrs & Hrest).
    exists values. split; [|done].
    rewrite (pool_load_lookup _ _ (xlrd_read_sheet_keyed filename) _ _ _ name Hload).
    rewrite decide_True by done. by rewrite Hrs.
  - exfalso.
    destruct (proj1 (pool_load_raises _read_sheet filename sched sheetnames))
      as (name & Hin & e' & He'); [eauto|].
    destruct (Hsheets name Hin) as (sh & Hsh & Hread & Hr & Hc).
    destruct (Hgrid name sh Hsh Hread Hr Hc) as (values & Hrs & _). congruence.
Qed.

End OpenWorkbook.

Lemma open_workbook_grids_witness :
  exists d,
    @ParallelXlrd.open_workbook demo_libraries demo_xlrd_files 0 "book.xls"
       (Some ["Data"]) = Ok d /\
    dom d = list_to_set ["Data"] /\
    forall name sh,
      name ∈ ["Data"] ->
      ParallelXlrd.sheet_by_name [("Data", demo_xlrd)] name = Returned (name, sh) ->
      exists values,
        d !! name = Some values /\
        Z.of_nat (length values) = nrows sh /\
        (forall row, row ∈ values -> Z.of_nat (length row) = ncols sh) /\
        (forall i j : nat, Z.of_nat i < nrows sh -> Z.of_nat j < ncols sh ->
           exists v, entry values i j = Some v /\
             @xlrd_value demo_libraries sh (Z.of_nat i) (Z.of_nat j) = Ok v).
Proof.
  apply (@open_workbook_grids demo_libraries demo_xlrd_files 0 "book.xls"
           ["Data"] [("Data", demo_xlrd)] eq_refl).
  intros name ->%list_elem_of_singleton. exists demo_xlrd.
  split; [reflexivity|]. split; [apply demo_xlrd_readable|]. simpl. lia.
Defined.

(** ** The tables of the package tracker *)

Section TablesFacts.
Import Database Tables.

(** X19.  Storing a name twice: whatever the first [store_package] did, a
    second one with the same name returns [<package_name> already exists]
    and leaves the table as the first one left it. *)
Theorem store_package_twice (t : packages_table) (package_name : string) :
  let t1 := (Database.store_package None t package_name).1 in
  package_name ∈ t1.*2 /\
  Database.store_package None t1 package_name
  = (t1, Ok (Some (package_name +:+ " already exists"))).
Proof.
  simpl. unfold Database.store_package, execute_insert.
  destruct (decide (package_name ∈ t.*2)) as [Hin|Hnew]; simpl.
  - split; [done|]. by rewrite decide_True.
  - assert (package_name ∈ ((t ++ [(next_id t, package_name)])%list).*2) as Hin.
    { rewrite fmap_app. apply elem_of_app. right. by left. }
    split; [done|]. by rewrite decide_True.
Qed.

Lemma select_versions_elem db package_name t s :
  (t, s) ∈ select_versions db package_name
  <-> exists p v, p ∈ packages db /\ v ∈ package_versions db /\
                  p.1 = package_id v /\ p.2 = package_name /\
                  t = uploaded_at v /\ s = version_string v.
Proof.
  unfold select_versions. rewrite list_elem_of_bind. split.
  - intros (p & Hv & Hp). apply list_elem_of_bind in Hv as (v & Hts & Hv).
    case_decide as Hmatch; [|by apply elem_of_nil in Hts].
    apply list_elem_of_singleton in Hts as [= -> ->].
    destruct Hmatch as [Hid Hname]. exists p, v. repeat split; done.
  - intros (p & v & Hp & Hv & Hid & Hname & -> & ->).
    exists p. split; [|done]. apply list_elem_of_bind. exists v. split; [|done].
    rewrite decide_True by done. by left.
Qed.

Lemma insert_rows_spec ids table rows table' :
  insert_rows ids table rows = Some table' ->
  table' = (table ++ rows)%list /\
  Forall (fun v => package_id v ∈ ids) rows /\
  (NoDup (key <$> table) -> NoDup (key <$> table')).
Proof.
  revert table. induction rows as [|row rest IH]; intros table; simpl.
  - intros [= <-]. rewrite app_nil_r. done.
  - case_decide as Hok; [|done]. destruct Hok as [Hfree Hfk].
    intros Hrest. apply IH in Hrest as (-> & Hids & Hnd).
    split; [by rewrite <- app_assoc|]. split; [by constructor|].
    intros Hnodup. apply Hnd. rewrite fmap_app. apply NoDup_app.
    split; [done|]. split; [|apply NoDup_singleton].
    intros k Hk ->%list_elem_of_singleton. done.
Qed.

(** X20.  When [store_versions] returns, the [packages] table is as before
    and [get_versions] finds, for a package name, what it found before and
    the stored rows whose [package_id] belongs to a package of that name;
    every stored row refers to a package of the table.  When it does not
    return, it raised and the database is as before.  After
    [delete_versions], [get_versions] finds nothing for any name. *)
Theorem store_versions_get_versions (db : database) (df : list version_row) :
  (forall db', store_versions None db df = (db', Ok ()) ->
     packages db' = packages db /\
     Forall (fun v => package_id v ∈ (packages db).*1) df /\
     forall package_name t s,
       (t, s) ∈ select_versions db' package_name
       <-> (t, s) ∈ select_versions db package_name \/
           exists p v, p ∈ packages db /\ v ∈ df /\ p.1 = package_id v /\
                       p.2 = package_name /\
                       t = uploaded_at v /\ s = version_string v) /\
  (forall db' e, store_versions None db df = (db', Raise e) ->
     db' = db /\ e = Propagated IntegrityError) /\
  (forall package_name,
     get_versions None (delete_versions None db).1 package_name = Ok [] /\
     get_packages None (delete_versions None db).1 = get_packages None db).
Proof.
  split; [|split].
  - unfold store_versions. intros db'.
    destruct (insert_rows _ _ _) as [table|] eqn:Hins; [|done].
    intros [= <-]. apply insert_rows_spec in Hins as (-> & Hids & _).
    split; [done|]. split; [done|].
    intros name t s. rewrite !select_versions_elem. simpl. split.
    + intros (p & v & Hp & Hv & Hrest). apply elem_of_app in Hv as [Hv|Hv].
      * left. eauto 10.
      * right. eauto 10.
    + intros [(p & v & Hp & Hv & Hrest) | (p & v & Hp & Hv & Hrest)];
        exists p, v; (split; [done|]); (split; [|done]);
        apply elem_of_app; eauto.
  - unfold store_versions. intros db' e.
    destruct (insert_rows _ _ _) as [table|]; [done|]. by intros [= <- <-].
  - intros name. split; [|done]. simpl. unfold select_versions. simpl.
    f_equal. by induction (packages db) as [|p l IH].
Qed.

End TablesFacts.

Lemma store_package_twice_witness :
  Database.store_package None [(1, "xlwings"); (2, "pandas")] "pandas"
  = ([(1, "xlwings"); (2, "pandas")], Ok (Some "pandas already exists")).
Proof.
  apply (proj2 (store_package_twice [(1, "xlwings")] "pandas")).
Defined.

Lemma store_versions_get_versions_witness :
  Tables.packages
    (Tables.mk_database [(1, "xlwings")]
       [Tables.mk_version_row 1 "0.1.0" (mk_datetime 2014 3 17 0 0 0 0)])
  = [(1, "xlwings")].
Proof.
  apply (proj1 (proj1 (store_versions_get_versions
           (Tables.mk_database [(1, "xlwings")] [])
           [Tables.mk_version_row 1 "0.1.0" (mk_datetime 2014 3 17 0 0 0 0)])
           _ eq_refl)).
Defined.

(** ** The package tracker *)

Section TrackerFacts.
Import Database Tables Tracker.
Context `{Outside}.

Lemma insert_rows_ok ids (table rows : list version_row) :
  NoDup (key <$> (table ++ rows)%list) ->
  Forall (fun v => package_id v ∈ ids) rows ->
  insert_rows ids table rows = Some (table ++ rows)%list.
Proof.
  revert table. induction rows as [|row rest IH]; intros table Hnd Hids; simpl.
  - by rewrite app_nil_r.
  - inversion Hids as [|? ? Hrow Hrest]; subst.
    assert (Hfree : key row ∉ (key <$> table)).
    { rewrite fmap_app in Hnd. apply NoDup_app in Hnd as (_ & Hdisj & _).
      intros Hin. apply (Hdisj _ Hin). rewrite fmap_cons. left. }
    rewrite decide_True by done.
    rewrite IH; [by rewrite <- app_assoc| |done].
    by rewrite <- app_assoc.
Qed.

Lemma release_rows_elem pid rel file version pid' :
  (file, version, pid') ∈ release_rows pid rel
  <-> pid' = pid /\ exists files, (version, file :: files) ∈ rel.
Proof.
  unfold release_rows. rewrite list_elem_of_omap. split.
  - intros ([v files] & Hin & Hsome). simpl in Hsome.
    destruct files as [|f fs]; [done|]. injection Hsome as <- <- <-. eauto.
  - intros [-> [files Hin]]. exists (version, file :: files). done.
Qed.

Lemma release_rows_versions pid rel :
  NoDup (rel.*1) -> NoDup ((release_rows pid rel).*1.*2).
Proof.
  induction rel as [|[v files] rel IH]; simpl; [constructor|].
  intros [Hv Hnd]%NoDup_cons. unfold release_rows. simpl.
  destruct files as [|f fs]; simpl; [by apply IH|].
  apply NoDup_cons. split; [|by apply IH].
  intros Hin. apply Hv.
  apply list_elem_of_fmap in Hin as (fv & Hfv & Hin).
  apply list_elem_of_fmap in Hin as ([[f' v'] pid'] & Hr & Hin).
  simpl in Hr. subst fv. simpl in Hfv. subst v.
  apply release_rows_elem in Hin as [_ [files' Hin]].
  apply list_elem_of_fmap. by exists (v', f' :: files').
Qed.

Lemma to_frame_rows rows df :
  to_frame rows = Ok df ->
  Forall2 (fun r v => exists t, to_datetime r.1.1 = Returned t /\
                                v = mk_version_row r.2 r.1.2 t) rows df.
Proof.
  intros Hdf%for_each_Forall2. eapply Forall2_impl; [exact Hdf|].
  intros r v Hrv. simpl in Hrv.
  destruct (to_datetime r.1.1) as [t|e]; simpl in Hrv; [|done].
  injection Hrv as <-. eauto.
Qed.

Lemma to_frame_total rows :
  (forall r, r ∈ rows -> exists t, to_datetime r.1.1 = Returned t) ->
  exists df, to_frame rows = Ok df.
Proof.
  intros Hconv. apply for_each_total. intros r Hr.
  destruct (Hconv r Hr) as [t Ht]. rewrite Ht. simpl. eauto.
Qed.

Lemma to_frame_keys pid rel df :
  to_frame (release_rows pid rel) = Ok df ->
  key <$> df = (fun r : string * string * Z => (pid, r.1.2)) <$> release_rows pid rel.
Proof.
  intros Hdf%to_frame_rows.
  assert (Hpid : Forall (fun r : string * string * Z => r.2 = pid)
                        (release_rows pid rel)).
  { apply Forall_forall. intros [[f v] pid'] Hin.
    by apply release_rows_elem in Hin as [-> _]. }
  induction Hdf as [|r v rows df (t & _ & ->) _ IH]; [done|].
  apply Forall_cons in Hpid as [Hr Hrest]. rewrite !fmap_cons.
  rewrite (IH Hrest). unfold key. simpl. by rewrite Hr.
Qed.

Lemma fetched_status p v ret :
  requests_get (url_of p.2) = Returned ret -> fetched p v -> status_code ret = 200.
Proof. intros Hret (ret' & rel & f & fs & t & Hret' & Hst & _). congruence. Qed.

Lemma update_package_step pk vs logs (p : Z * string) :
  (forall c, engine_fault c = None) ->
  (forall df, sort_values df ≡ₚ df) ->
  answered p -> p.1 ∈ pk.*1 ->
  p.1 ∉ (package_id <$> vs) -> NoDup (key <$> vs) ->
  exists vs',
    update_package (mk_database pk vs, logs) p
    = ((mk_database pk vs', (logs ++ log_lines p)%list), None) /\
    NoDup (key <$> vs') /\
    (forall v, v ∈ vs' <-> v ∈ vs \/ fetched p v) /\
    (forall v, v ∈ vs' -> v ∈ vs \/ package_id v = p.1).
Proof.
  intros Hengine Hsort (ret & Hret & Hok) Hfk Hfresh Hnd.
  destruct p as [pid name]. simpl in *.
  unfold update_package, log_lines, downloads. simpl. rewrite Hret.
  destruct (status_code ret =? 200) eqn:Hst.
  - apply Z.eqb_eq in Hst. destruct (Hok Hst) as (rel & Hrel & Hdict & Hconv).
    rewrite Hrel.
    destruct (to_frame_total (release_rows pid rel)) as [df Hdf].
    { intros [[f v] pid'] [-> [files Hin]]%release_rows_elem. simpl. eauto. }
    rewrite Hdf. rewrite Hengine. unfold store_versions. simpl.
    pose proof (to_frame_keys _ _ _ Hdf) as Hkeys.
    pose proof (to_frame_rows _ _ Hdf) as Hrows.
    assert (Hdf_ids : forall v, v ∈ df -> package_id v = pid).
    { intros v Hv. apply (list_elem_of_fmap_2 key) in Hv. rewrite Hkeys in Hv.
      apply list_elem_of_fmap in Hv as (r & Hr & _). unfold key in Hr. congruence. }
    assert (Hnd_df : NoDup (key <$> df)).
    { rewrite Hkeys. apply (NoDup_fmap_1 snd). rewrite <- list_fmap_compose.
      pose proof (release_rows_versions pid rel Hdict) as Hv.
      rewrite <- list_fmap_compose in Hv. exact Hv. }
    assert (Hnd_all : NoDup (key <$> (vs ++ sort_values df)%list)).
    { rewrite fmap_app. apply NoDup_app. split; [done|]. split.
      - intros k Hk Hk'. rewrite (Hsort df) in Hk'.
        apply list_elem_of_fmap in Hk as (v & -> & Hv).
        apply list_elem_of_fmap in Hk' as (v' & Hkk & Hv').
        apply Hfresh. apply list_elem_of_fmap. exists v. split; [|done].
        rewrite <- (Hdf_ids v' Hv'). unfold key in Hkk. congruence.
      - by rewrite (Hsort df). }
    rewrite insert_rows_ok; [|done|].
    2:{ apply Forall_forall. intros v Hv. rewrite (Hsort df) in Hv.
        by rewrite (Hdf_ids v Hv). }
    eexists. split; [by rewrite <- app_assoc|]. split; [done|]. split.
    + intros v. rewrite elem_of_app, (Hsort df). split.
      * intros [Hv | Hv]; [by left|]. right.
        apply list_elem_of_lookup in Hv as [i Hi].
        destruct (Forall2_lookup_r _ _ _ _ _ Hrows Hi) as ([[f ver] pid'] & Hri & t & Ht & ->).
        apply list_elem_of_lookup_2, release_rows_elem in Hri as [-> [files Hin]].
        exists ret, rel, f, files, t. simpl in *. done.
      * intros [Hv | (ret' & rel' & f & files & t & Hret' & _ & Hrel' & Hin & Ht & Hveq)];
          [by left|]. right. simpl in *.
        assert (ret' = ret) as -> by congruence.
        assert (rel' = rel) as -> by congruence.
        assert ((f, version_string v, pid) ∈ release_rows pid rel) as Hr.
        { apply release_rows_elem. eauto. }
        apply list_elem_of_lookup in Hr as [i Hi].
        destruct (Forall2_lookup_l _ _ _ _ _ Hrows Hi) as (v' & Hv' & t' & Ht' & ->).
        simpl in *. assert (t' = t) as -> by congruence.
        rewrite Hveq. by eapply list_elem_of_lookup_2.
    + intros v [Hv | Hv]%elem_of_app; [by left|]. right.
      rewrite (Hsort df) in Hv. by apply Hdf_ids.
  - exists vs. split; [done|]. split; [done|]. split.
    + intros v. split; [by left|]. intros [Hv | Hf]; [done|].
      apply (fetched_status _ _ ret) in Hf; [|done]. simpl in Hfk. lia.
    + intros v Hv. by left.
Qed.

Lemma update_loop pk vs logs (l : list (Z * string)) :
  (forall c, engine_fault c = None) ->
  (forall df, sort_values df ≡ₚ df) ->
  (forall p, p ∈ l -> answered p /\ p.1 ∈ pk.*1) ->
  NoDup (l.*1) ->
  (forall p, p ∈ l -> p.1 ∉ (package_id <$> vs)) ->
  NoDup (key <$> vs) ->
  exists vs',
    for_state update_package (mk_database pk vs, logs) l
    = ((mk_database pk vs', (logs ++ concat (log_lines <$> l))%list), None) /\
    NoDup (key <$> vs') /\
    (forall v, v ∈ vs' <-> v ∈ vs \/ exists p, p ∈ l /\ fetched p v).
Proof.
  intros Hengine Hsort. revert vs logs.
  induction l as [|p l IH]; intros vs logs Hl Hids Hfresh Hnd.
  - exists vs. simpl. rewrite app_nil_r. split; [done|]. split; [done|].
    intros v. split; [by left|]. intros [Hv | (p & Hp & _)]; [done|].
    by apply elem_of_nil in Hp.
  - destruct (Hl p) as [Hans Hfk]; [left|].
    destruct (update_package_step pk vs logs p) as (vs1 & Hstep & Hnd1 & Hin1 & Hid1);
      [done..| |done|]. { apply Hfresh. left. }
    apply NoDup_cons in Hids as [Hp Hids].
    destruct (IH vs1 (logs ++ log_lines p)%list) as (vs2 & Hrest & Hnd2 & Hin2);
      [| done | | done |].
    { intros q Hq. apply Hl. by right. }
    { intros q Hq Hqin. apply list_elem_of_fmap in Hqin as (v & Hqv & Hv).
      apply Hid1 in Hv as [Hv | Hv].
      - apply (Hfresh q); [by right|]. apply list_elem_of_fmap. eauto.
      - apply Hp. apply list_elem_of_fmap. exists q. split; [congruence|done]. }
    exists vs2.
    change (for_state update_package (mk_database pk vs, logs) (p :: l))
      with (and_then (update_package (mk_database pk vs, logs) p)
              (fun st' => for_state update_package st' l)).
    rewrite Hstep. unfold and_then. simpl.
    rewrite Hrest. split; [by rewrite <- app_assoc|]. split; [done|].
    intros v. rewrite Hin2, Hin1. split.
    + intros [[Hv | Hf] | (q & Hq & Hf)]; [by left| |].
      * right. exists p. split; [left|done].
      * right. exists q. split; [by right|done].
    + intros [Hv | (q & [-> | Hq]%elem_of_cons & Hf)]; [by left; left | by left; right |].
      right. eauto.
Qed.

Lemma update_database_ok (b : book) (db : database) :
  (forall c, engine_fault c = None) ->
  (forall df, sort_values df ≡ₚ df) ->
  NoDup ((packages db).*1) ->
  (forall p, p ∈ packages db -> answered p) ->
  exists versions,
    update_database (b, db)
    = ((set_log (set_updated_at (set_log b [])
                   (Some ("Last updated: " +:+ now_isoformat)))
                (concat (log_lines <$> packages db)),
        mk_database (packages db) versions), None) /\
    NoDup (key <$> versions) /\
    (forall v, v ∈ versions <-> exists p, p ∈ packages db /\ fetched p v).
Proof.
  intros Hengine Hsort Hids Hans. destruct db as [pk vs0]. simpl in *.
  destruct (update_loop pk [] [] pk) as (vs & Hloop & Hnd & Hin);
    [done | done | | done | | constructor |].
  { intros p Hp. split; [by apply Hans|]. by apply list_elem_of_fmap_2. }
  { intros p _ Hp. by apply elem_of_nil in Hp. }
  exists vs. unfold update_database, delete_versions, get_packages.
  rewrite !Hengine. simpl. rewrite Hloop. simpl.
  split; [done|]. split; [done|].
  intros v. rewrite Hin. split; [|by right].
  intros [Hv | Hp]; [by apply elem_of_nil in Hv|done].
Qed.

(** X21.  [add_package] turns a request down without touching the
    database: with no name in the cell it writes [Error: Please provide a
    name!] and asks nobody; when PyPI does not answer with status 200 it
    writes [Error: Package not found!]; when the name is in the table it
    writes [Error: <name> already exists] and empties the name cell.  The
    logs, the dropdown and the versions stay as they were. *)
Theorem add_package_rejects (b : book) (db : database) :
  (new_package b = None \/ new_package b = Some "" ->
   add_package (b, db)
   = ((set_feedback b (Some "Error: Please provide a name!"), db), None)) /\
  (forall name ret,
     new_package b = Some name -> name <> "" ->
     requests_get (url_of name) = Returned ret -> status_code ret <> 200 ->
     add_package (b, db)
     = ((set_feedback b (Some "Error: Package not found!"), db), None)) /\
  (forall name ret,
     new_package b = Some name -> name <> "" ->
     requests_get (url_of name) = Returned ret -> status_code ret = 200 ->
     engine_fault (InsertPackage name) = None ->
     name ∈ (packages db).*2 ->
     add_package (b, db)
     = ((set_feedback (set_new_package b None)
           (Some ("Error: " +:+ name +:+ " already exists")), db), None)).
Proof.
  destruct b as [np fb lg up sel dd], db as [pk vs]. simpl.
  split; [|split].
  - intros [-> | ->]; reflexivity.
  - intros name ret -> Hne Hret Hst. unfold add_package. simpl.
    destruct (String.eqb_spec name ""); [done|]. rewrite Hret.
    by assert ((status_code ret =? 200) = false) as -> by lia.
  - intros name ret -> Hne Hret Hst Hengine Hin. unfold add_package. simpl.
    destruct (String.eqb_spec name ""); [done|]. rewrite Hret.
    assert ((status_code ret =? 200) = true) as -> by lia. simpl.
    unfold Tables.store_package, Database.store_package, execute_insert. simpl.
    rewrite Hengine. rewrite decide_True by done. simpl.
    by destruct name.
Qed.

(** X22.  With PyPI answering for every package of the table and the
    database engine working, [update_database] returns; afterwards the
    [packages] table is as before, [package_versions] holds exactly the
    releases with files of the packages PyPI answered with status 200, none
    under the same key twice, and the log has, package after package, one
    error line or the two lines of a download. *)
Theorem update_database_refetches (b : book) (db : database) :
  (forall c, engine_fault c = None) ->
  (forall df, sort_values df ≡ₚ df) ->
  NoDup ((packages db).*1) ->
  (forall p, p ∈ packages db -> answered p) ->
  exists versions,
    update_database (b, db)
    = ((set_log (set_updated_at (set_log b [])
                   (Some ("Last updated: " +:+ now_isoformat)))
                (concat (log_lines <$> packages db)),
        mk_database (packages db) versions), None) /\
    NoDup (key <$> versions) /\
    (forall v, v ∈ versions <-> exists p, p ∈ packages db /\ fetched p v).
Proof. apply update_database_ok. Qed.

Local Arguments update_database : simpl never.
Local Arguments refresh_dropdown : simpl never.

Lemma next_id_fresh (t : packages_table) : next_id t ∉ t.*1.
Proof.
  unfold next_id. intros Hin.
  assert (Hmax : forall l x, x ∈ l -> x <= fold_right Z.max 0 l).
  { induction l as [|y l IH]; intros x Hx; [by apply elem_of_nil in Hx|].
    simpl. apply elem_of_cons in Hx as [-> | Hx]; [lia|].
    specialize (IH x Hx). lia. }
  specialize (Hmax _ _ Hin). lia.
Qed.

(** X23.  For a name that is not in the table and that PyPI knows, with
    PyPI answering for every package and the engine working, [add_package]
    returns; afterwards the name is the last row of [packages], the name
    cell is empty, the feedback says [Added <name> successfully.], the
    dropdown lists all package names, and [package_versions] holds the
    releases of all packages, the new one among them. *)
Theorem add_package_adds (b : book) (db : database) (name : string)
    (ret : response) :
  new_package b = Some name -> name <> "" ->
  requests_get (url_of name) = Returned ret -> status_code ret = 200 ->
  name ∉ (packages db).*2 ->
  (forall c, engine_fault c = None) ->
  (forall df, sort_values df ≡ₚ df) ->
  NoDup ((packages db).*1) ->
  (forall p, p ∈ packages db -> answered p) ->
  answered (next_id (packages db), name) ->
  exists b' versions,
    add_package (b, db)
    = ((b', mk_database (packages db ++ [(next_id (packages db), name)])%list
                        versions), None) /\
    new_package b' = None /\
    feedback b' = Some ("Added " +:+ name +:+ " successfully.") /\
    package_selection b' = None /\
    dropdown_content b' = ((packages db).*2 ++ [name])%list /\
    (forall v, v ∈ versions
       <-> exists p, p ∈ (packages db ++ [(next_id (packages db), name)])%list /\
                     fetched p v).
Proof.
  intros Hnp Hne Hret Hst Hnew Hengine Hsort Hids Hans Hansn.
  destruct b as [np fb lg up sel dd], db as [pk vs]. simpl in *. subst np.
  set (pk' := (pk ++ [(next_id pk, name)])%list).
  destruct (update_database_ok
              (mk_book None (Some ("Added " +:+ name +:+ " successfully."))
                       lg up sel dd)
              (mk_database pk' vs)) as (versions & Hup & Hnd & Hin);
    [done | done | | |].
  { simpl. unfold pk'. rewrite fmap_app. apply NoDup_app. split; [done|].
    split; [|apply NoDup_singleton].
    intros x Hx ->%list_elem_of_singleton. by apply (next_id_fresh pk). }
  { simpl. unfold pk'. intros p [Hp | ->%list_elem_of_singleton]%elem_of_app;
      [by apply Hans|done]. }
  eexists _, versions. unfold add_package. simpl.
  destruct (String.eqb_spec name ""); [done|]. rewrite Hret.
  assert ((status_code ret =? 200) = true) as -> by lia. simpl.
  unfold Tables.store_package, Database.store_package, execute_insert. simpl.
  rewrite Hengine. rewrite decide_False by done. simpl.
  fold pk'. unfold and_then at 2. simpl. unfold set_feedback, set_new_package. simpl.
  rewrite Hup. unfold and_then. simpl.
  unfold refresh_dropdown, get_packages. rewrite Hengine. simpl.
  split; [reflexivity|]. simpl.
  repeat split; try (by destruct dd); try (by apply Hin).
  destruct dd; simpl; unfold pk'; by rewrite fmap_app.
Qed.

End TrackerFacts.

Lemma demo_answered_xlwings : @Tracker.answered demo_outside (1, "xlwings").
Proof.
  eexists. split; [reflexivity|]. intros _. eexists.
  split; [reflexivity|]. split; [compute_done|].
  intros version file files Hin.
  repeat (apply elem_of_cons in Hin as [Hin | Hin];
          [(discriminate Hin) || (injection Hin as -> -> ->; eexists; reflexivity)|]).
  by apply elem_of_nil in Hin.
Qed.

Lemma demo_answered_pandas : @Tracker.answered demo_outside (2, "pandas").
Proof.
  eexists. split; [reflexivity|]. intros _. eexists.
  split; [reflexivity|]. split; [compute_done|].
  intros version file files Hin.
  repeat (apply elem_of_cons in Hin as [Hin | Hin];
          [(discriminate Hin) || (injection Hin as -> -> ->; eexists; reflexivity)|]).
  by apply elem_of_nil in Hin.
Qed.

Lemma add_package_rejects_witness :
  @Tracker.add_package demo_outside
     (Tracker.mk_book (Some "xlwings") (Some "old") [] None None [], demo_database)
  = ((Tracker.mk_book None (Some "Error: xlwings already exists") [] None None [],
      demo_database), None) /\
  @Tracker.add_package demo_outside
     (Tracker.mk_book (Some "no-such-package") None [] None None [], demo_database)
  = ((Tracker.mk_book (Some "no-such-package") (Some "Error: Package not found!")
                      [] None None [],
      demo_database), None).
Proof.
  split.
  - apply (proj2 (proj2 (@add_package_rejects demo_outside
             (Tracker.mk_book (Some "xlwings") (Some "old") [] None None [])
             demo_database)) "xlwings"
             (Tracker.mk_response 200
                (Returned [("0.1.0", ["2014-03-17T00:00:00"]); ("0.1.1", [])]))
             eq_refl);
      [discriminate | reflexivity | reflexivity | reflexivity | by left].
  - apply (proj1 (proj2 (@add_package_rejects demo_outside
             (Tracker.mk_book (Some "no-such-package") None [] None None [])
             demo_database)) "no-such-package"
             (Tracker.mk_response 404 (Raised KeyError)) eq_refl);
      [discriminate | reflexivity | simpl; lia].
Defined.

Lemma update_database_refetches_witness :
  exists versions,
    @Tracker.update_database demo_outside (demo_book_cells, demo_database)
    = ((Tracker.set_log
          (Tracker.set_updated_at (Tracker.set_log demo_book_cells [])
             (Some ("Last updated: " +:+ @Tracker.now_isoformat demo_outside)))
          (concat (@Tracker.log_lines demo_outside <$> Tables.packages demo_database)),
        Tables.mk_database (Tables.packages demo_database) versions), None) /\
    NoDup (Tables.key <$> versions) /\
    (forall v, v ∈ versions
       <-> exists p, p ∈ Tables.packages demo_database /\
                     @Tracker.fetched demo_outside p v).
Proof.
  apply (@update_database_refetches demo_outside demo_book_cells demo_database).
  - reflexivity.
  - reflexivity.
  - compute_done.
  - intros p ->%list_elem_of_singleton. apply demo_answered_xlwings.
Defined.

Lemma add_package_adds_witness :
  exists b' versions,
    @Tracker.add_package demo_outside (demo_book_cells, demo_database)
    = ((b', Tables.mk_database
              (Tables.packages demo_database ++
               [(Database.next_id (Tables.packages demo_database), "pandas")])%list
              versions), None) /\
    Tracker.new_package b' = None /\
    Tracker.feedback b' = Some ("Added " +:+ "pandas" +:+ " successfully.") /\
    Tracker.package_selection b' = None /\
    Tracker.dropdown_content b'
    = ((Tables.packages demo_database).*2 ++ ["pandas"])%list /\
    (forall v, v ∈ versions
       <-> exists p,
             p ∈ (Tables.packages demo_database ++
                  [(Database.next_id (Tables.packages demo_database), "pandas")])%list /\
             @Tracker.fetched demo_outside p v).
Proof.
  apply (@add_package_adds demo_outside demo_book_cells demo_database "pandas"
           (Tracker.mk_response 200
              (Returned [("1.0.0", ["2020-01-29T00:00:00"; "2020-01-30T00:00:00"])]))).
  - reflexivity.
  - discriminate.
  - reflexivity.
  - reflexivity.
  - compute_done.
  - reflexivity.
  - reflexivity.
  - compute_done.
  - intros p ->%list_elem_of_singleton. apply demo_answered_xlwings.
  - apply demo_answered_pandas.
Defined.

Section ReadExcel.
Context `{Libraries} `{PandasFiles}.
Import ParallelPandas.

Lemma pandas_read_sheet_keyed filename name title (df : frame) :
  _read_sheet filename name = Ok (title, df) -> title = name.
Proof.
  unfold _read_sheet. destruct (pd_read_excel filename name); simpl; [|done].
  by intros [= <- _].
Qed.

(** X24.  [read_excel] of [parallel_pandas.py] returns a dictionary exactly
    when [pd.read_excel] returns for every listed sheet name; the dictionary
    then has the listed names as keys and under each name the DataFrame
    [pd.read_excel] returns for it. *)
Theorem read_excel_frames (sched : nat) (filename : string)
    (sheet_names : list string) :
  ((exists d, read_excel sched filename (Some sheet_names) = Ok d)
   <-> forall name, name ∈ sheet_names ->
         exists df, pd_read_excel filename name = Returned df) /\
  (forall d, read_excel sched filename (Some sheet_names) = Ok d ->
     dom d = list_to_set sheet_names /\
     forall name, name ∈ sheet_names ->
       exists df, pd_read_excel filename name = Returned df /\
                  d !! name = Some df).
Proof.
  change (read_excel sched filename (Some sheet_names))
    with (pool_load sched _read_sheet filename sheet_names).
  assert (Hlook : forall d,
    pool_load sched _read_sheet filename sheet_names = Ok d ->
    forall name, name ∈ sheet_names ->
      exists df, pd_read_excel filename name = Returned df /\ d !! name = Some df).
  { intros d Hd name Hin.
    pose proof (pool_load_lookup _ _ (pandas_read_sheet_keyed filename)
                  _ _ _ name Hd) as Hk.
    rewrite decide_True in Hk by done. unfold _read_sheet in Hk.
    destruct (pd_read_excel filename name) as [df|e] eqn:Hdf; simpl in Hk.
    - eauto.
    - exfalso.
      assert (exists e', pool_load sched _read_sheet filename sheet_names = Raise e')
        as [e' He']; [|congruence].
      apply pool_load_raises. exists name. split; [done|].
      unfold _read_sheet. rewrite Hdf. simpl. eauto. }
  split.
  - split.
    + intros [d Hd] name Hin. destruct (Hlook d Hd name Hin) as (df & Hdf & _). eauto.
    + intros Hall.
      destruct (pool_load sched _read_sheet filename sheet_names) as [d|e] eqn:Hl;
        [eauto|]. exfalso.
      destruct (proj1 (pool_load_raises _read_sheet filename sched sheet_names))
        as (name & Hin & e' & He'); [eauto|].
      destruct (Hall name Hin) as [df Hdf]. unfold _read_sheet in He'.
      by rewrite Hdf in He'.
  - intros d Hd. split; [|by apply Hlook].
    by apply (pool_load_dom _ _ (pandas_read_sheet_keyed filename) _ _ _ Hd).
Qed.

End ReadExcel.

Lemma read_excel_frames_witness :
  exists d,
    @ParallelPandas.read_excel demo_libraries demo_pandas_files 0 "book.xlsx"
       (Some ["Sheet1"; "Sheet1"]) = Ok d.
Proof.
  apply (proj2 (proj1 (@read_excel_frames demo_libraries demo_pandas_files 0
                         "book.xlsx" ["Sheet1"; "Sheet1"]))).
  intros name Hin.
  repeat (apply elem_of_cons in Hin as [-> | Hin]; [eexists; reflexivity|]).
  by apply elem_of_nil in Hin.
Defined.

